(** * The blog application of script.js: session, view-count and moderation logic

    A shallow embedding of the class [BlogAppOptimized] (src/script.js).

    JavaScript data is kept dynamically typed, as the code has it: every
    record that travels through [localStorage] is a [value], a property read
    on [null] throws, a missing property reads as [undefined], and the
    truthiness and [typeof] tests of the source are the tests made here.

    What is not embedded: the elements of the page and the text put into
    them, the console, and failures of the storage object itself (the
    storage is present and [setItem] succeeds).  The elements are present,
    and turning a value into text does not throw: the values are those of
    JSON and of the code's own literals.  The [show...Screen] and
    [...Buttons] methods and the table of users ([renderUsersTable],
    [renderUserStats], [updateUserPagination]) only write the page and are
    left out.  What a method reads from the page, a dialog, the clock or
    the random source is an argument of its embedding, and so is a field of
    [this] that is no record of the blog ([editingArticleId],
    [currentUserPage], [currentFilter], [searchTerm]).
    A [string] is a sequence of code units below 256.

    Numbers are the integers a double holds exactly: a sum is embedded
    where it is exact (up to 2^53 in absolute value), a time where [Date]
    takes it (up to 8640000000000000 ms).  A reading of the clock is such a
    time, far enough from the two ends for the sums of lines 2038 and 2074;
    the statements are made for every integer.

    The rendering of the articles and of the comments is embedded as far as
    the state and the control flow see it: [renderRecentArticles],
    [renderMyArticles] and [renderArticles] sort [this.articles] itself,
    and a rendering throws on an entry that is [null] and on an article
    whose [content] is no string.

    The file has three parts: the embedding, method by method (session and
    moderation first, then loading, registration, articles, the comment
    form and the pages of the user table); the vocabulary of the
    statements; the proofs, by subsystem. *)

From stdpp Require Import base gmap strings list sorting.
From Stdlib Require Import ZArith Lia Ascii.

Set Warnings "-register-all".
Local Open Scope string_scope.
Local Open Scope Z_scope.

(** ** JavaScript values *)

Module JS.

(** [VNum] holds the integers the program computes with (time stamps,
    counters, lengths).  [VIso t] is the string [new Date(t).toISOString()];
    [VStr] holds every other string. *)
Inductive value : Type :=
  | VUndefined
  | VNull
  | VBool (b : bool)
  | VNum (n : Z)
  | VStr (s : string)
  | VIso (t : Z)
  | VArr (items : list value)
  | VObj (fields : list (string * value)).

(** The result of running a piece of JavaScript: a value, a thrown exception
    (always a [TypeError] here), or a computation this embedding does not
    define (adding a number to a string, a sum that a double rounds,
    parsing a date that [toISOString] did not write, sorting by dates that
    are not valid, ...). *)
Inductive outcome (A : Type) : Type :=
  | Ok (a : A)
  | Throw
  | Unmodelled.
Arguments Ok {A} a.
Arguments Throw {A}.
Arguments Unmodelled {A}.

#[global] Instance outcome_ret : MRet outcome := fun _ a => Ok a.
#[global] Instance outcome_bind : MBind outcome := fun _ _ f m =>
  match m with
  | Ok a => f a
  | Throw => Throw
  | Unmodelled => Unmodelled
  end.

Inductive jstype := TUndefined | TObject | TBoolean | TNumber | TString.

(** [typeof v] *)
Definition typeOf (v : value) : jstype :=
  match v with
  | VUndefined => TUndefined
  | VNull | VArr _ | VObj _ => TObject
  | VBool _ => TBoolean
  | VNum _ => TNumber
  | VStr _ | VIso _ => TString
  end.

#[global] Instance jstype_eq_dec : EqDecision jstype.
Proof. solve_decision. Defined.

(** ToBoolean: what [if (v)], [!v], [v && ...] and [v || ...] test. *)
Definition truthy (v : value) : bool :=
  match v with
  | VUndefined | VNull => false
  | VBool b => b
  | VNum n => negb (Z.eqb n 0)
  | VStr s => negb (bool_decide (s = ""))
  | VIso _ | VArr _ | VObj _ => true
  end.

(** [v === s] for a string primitive [s].  An ISO time stamp is never one of
    the names, digests and identifiers it is compared with. *)
Definition eqStr (v : value) (s : string) : bool :=
  match v with
  | VStr s' => bool_decide (s' = s)
  | _ => false
  end.

(** [v === k] for a number [k]. *)
Definition eqNum (v : value) (k : Z) : bool :=
  match v with
  | VNum n => Z.eqb n k
  | _ => false
  end.

(** Own properties of an object, in insertion order. *)
Fixpoint lookupField (k : string) (fs : list (string * value)) : option value :=
  match fs with
  | [] => None
  | (k', v) :: fs' => if bool_decide (k' = k) then Some v else lookupField k fs'
  end.

Fixpoint setField (k : string) (x : value) (fs : list (string * value))
  : list (string * value) :=
  match fs with
  | [] => [(k, x)]
  | (k', v) :: fs' =>
      if bool_decide (k' = k) then (k, x) :: fs' else (k', v) :: setField k x fs'
  end.

(** [v.k] for a data property [k]. *)
Definition getProp (v : value) (k : string) : outcome value :=
  match v with
  | VUndefined | VNull => Throw
  | VObj fs => Ok (default VUndefined (lookupField k fs))
  | VArr l => Ok (if bool_decide (k = "length") then VNum (Z.of_nat (length l))
                  else VUndefined)
  | VStr s => Ok (if bool_decide (k = "length") then VNum (Z.of_nat (String.length s))
                  else VUndefined)
  | VIso _ => if bool_decide (k = "length") then Unmodelled else Ok VUndefined
  | VBool _ | VNum _ => Ok VUndefined
  end.

(** [v.k = x].  The class body is strict code; only objects are written to
    by the program. *)
Definition setProp (v : value) (k : string) (x : value) : outcome value :=
  match v with
  | VUndefined | VNull => Throw
  | VObj fs => Ok (VObj (setField k x fs))
  | _ => Unmodelled
  end.

(** [k in v] *)
Definition hasProp (k : string) (v : value) : outcome bool :=
  match v with
  | VObj fs => Ok (bool_decide (is_Some (lookupField k fs)))
  | VArr _ => Unmodelled
  | _ => Throw
  end.

(** [a || b] on already evaluated operands. *)
Definition jsOr (a b : value) : value := if truthy a then a else b.

(** Numbers are doubles: a sum of two integers is the integer sum when its
    absolute value is at most 2^53. *)
Definition maxSafe : Z := 9007199254740992.

Definition exact (n : Z) : bool := (- maxSafe <=? n) && (n <=? maxSafe).

(** [(v || 0) + 1] where the left operand of [+] is a number and the sum is
    exact. *)
Definition orZeroPlusOne (v : value) : outcome Z :=
  match jsOr v (VNum 0) with
  | VNum n => if exact n && exact (n + 1) then Ok (n + 1) else Unmodelled
  | _ => Unmodelled
  end.

(** [v > k] for a numeric literal [k]. *)
Definition gtNum (v : value) (k : Z) : outcome bool :=
  match v with
  | VNum n => Ok (k <? n)
  | VUndefined => Ok false
  | _ => Unmodelled
  end.

(** A [Date] holds a time of at most 8.64e15 ms either side of the epoch;
    [new Date(n)] is an invalid date for a number beyond that. *)
Definition maxTime : Z := 8640000000000000.

Definition validTime (n : Z) : bool := (- maxTime <=? n) && (n <=? maxTime).

(** [new Date(v).getTime()] where the date is valid. *)
Definition dateOf (v : value) : outcome Z :=
  match v with
  | VIso t => Ok t
  | VNum n => if validTime n then Ok n else Unmodelled
  | _ => Unmodelled
  end.

(** [now < new Date(v)], [now] being the time of a valid date: an invalid
    date is after nothing. *)
Definition dateAfter (now : Z) (v : value) : outcome bool :=
  match v with
  | VNum n => Ok (validTime n && (now <? n))
  | _ => t ← dateOf v; Ok (now <? t)
  end.

(** *** Array methods.  A method call on anything but an array throws: the
    receiver is [null], or it has no such method. *)

Definition arrayOf (v : value) : outcome (list value) :=
  match v with
  | VArr l => Ok l
  | _ => Throw
  end.

Section callbacks.
Variable p : value -> outcome bool.

(** [l.find(p)] and [l.findIndex(p)] at once: the first element that
    satisfies [p] with the slot it sits in, so that a later write through
    the reference [find] returned reaches that slot.  [None] is the
    [undefined] of [find] and the [-1] of [findIndex]. *)
Fixpoint findRef (l : list value) : outcome (option (nat * value)) :=
  match l with
  | [] => Ok None
  | x :: l' =>
      b ← p x;
      if b : bool then Ok (Some (0%nat, x))
      else r ← findRef l'; Ok (option_map (fun '(i, y) => (S i, y)) r)
  end.

(** [l.some(p)] *)
Fixpoint some (l : list value) : outcome bool :=
  match l with
  | [] => Ok false
  | x :: l' => b ← p x; if b : bool then Ok true else some l'
  end.

(** [l.filter(p)] *)
Fixpoint filter (l : list value) : outcome (list value) :=
  match l with
  | [] => Ok []
  | x :: l' => b ← p x; r ← filter l'; Ok (if b : bool then x :: r else r)
  end.
End callbacks.

(** The callback [x => x.k === s] *)
Definition propIs (k s : string) (x : value) : outcome bool :=
  v ← getProp x k; Ok (eqStr v s).

(** The callback [x => x.k !== s] *)
Definition propIsNot (k s : string) (x : value) : outcome bool :=
  v ← getProp x k; Ok (negb (eqStr v s)).

(** *** Strings *)

(** White space of [String.prototype.trim] and of the class [\s], among the
    characters a [string] here can hold. *)
Definition isSpace (a : Ascii.ascii) : bool :=
  let n := Ascii.nat_of_ascii a in
  bool_decide (n = 9 \/ n = 10 \/ n = 11 \/ n = 12 \/ n = 13 \/ n = 32 \/ n = 160)%nat.

Fixpoint trimStart (s : string) : string :=
  match s with
  | "" => ""
  | String a s' => if isSpace a then trimStart s' else s
  end.

Fixpoint trimEnd (s : string) : string :=
  match s with
  | "" => ""
  | String a s' =>
      let r := trimEnd s' in
      if isSpace a && bool_decide (r = "") then "" else String a r
  end.

Definition trim (s : string) : string := trimEnd (trimStart s).

(** *** JSON *)

(** [JSON.parse(JSON.stringify(v))], [None] where [stringify] yields
    [undefined]: properties holding [undefined] are dropped, array slots
    holding it become [null]. *)
Fixpoint jsonOf (v : value) : option value :=
  match v with
  | VUndefined => None
  | VArr l => Some (VArr (List.map (fun x => default VNull (jsonOf x)) l))
  | VObj fs =>
      Some (VObj ((fix fields (fs : list (string * value)) :=
                     match fs with
                     | [] => []
                     | (k, x) :: fs' =>
                         match jsonOf x with
                         | Some j => (k, j) :: fields fs'
                         | None => fields fs'
                         end
                     end) fs))
  | _ => Some v
  end.

End JS.
Export JS.

(** ** The password digest (lines 2094-2102) *)

Module Digest.

(** ToInt32: the value of [x | 0], [x & x] and of the result of [<<]. *)
Definition toInt32 (x : Z) : Z :=
  let m := x mod 2 ^ 32 in
  if m <? 2 ^ 31 then m else m - 2 ^ 32.

Definition charCode (a : Ascii.ascii) : Z := Z.of_nat (Ascii.nat_of_ascii a).

(** The loop body: [hash = ((hash << 5) - hash) + char; hash = hash & hash]. *)
Definition hashStep (hash : Z) (a : Ascii.ascii) : Z :=
  toInt32 ((toInt32 (Z.shiftl hash 5) - hash) + charCode a).

Fixpoint hashLoop (hash : Z) (s : string) : Z :=
  match s with
  | "" => hash
  | String a s' => hashLoop (hashStep hash a) s'
  end.

Definition hexDigit (d : Z) : Ascii.ascii :=
  Ascii.ascii_of_nat (Z.to_nat (if d <? 10 then 48 + d else 87 + d)).

Fixpoint hexAux (fuel : nat) (n : Z) (acc : string) : string :=
  match fuel with
  | O => acc
  | S fuel' =>
      let acc' := String (hexDigit (n mod 16)) acc in
      if n / 16 =? 0 then acc' else hexAux fuel' (n / 16) acc'
  end.

(** [n.toString(16)] for [0 <= n]; the fuel exceeds the number of digits. *)
Definition toString16 (n : Z) : string :=
  hexAux (S (Z.to_nat (Z.log2 n))) n "".

Definition hashPassword (password : string) : string :=
  toString16 (Z.abs (hashLoop 0 password)).

End Digest.
Export Digest.

(** ** The two storage objects, the notifications and the application state *)

(** A string held by [localStorage], seen through what the program does with
    it: [Json v] is the text [JSON.stringify] writes for [v] (a decimal time
    stamp is [Json (VNum t)]); [Text i] is a text [JSON.parse] rejects,
    [i] being what [parseInt] reads at its head ([None] for [NaN]). *)
Inductive raw : Type :=
  | Json (v : value)
  | Text (int : option Z).

(** [JSON.stringify(v)], as [setItem] stores it ([undefined] is stored as
    the text "undefined"). *)
Definition stringify (v : value) : raw :=
  match jsonOf v with
  | Some j => Json j
  | None => Text None
  end.

(** [JSON.parse(r)] *)
Definition parse (r : raw) : outcome value :=
  match r with
  | Json v => Ok v
  | Text _ => Throw
  end.

(** [parseInt(r)]: the text of any JSON value but a number starts with a
    quote, a bracket, a brace or a letter. *)
Definition parseInt (r : raw) : option Z :=
  match r with
  | Json (VNum n) => Some n
  | Json _ => None
  | Text i => i
  end.

Inductive severity := Success | Error | Warning | Info.

(** The messages of [showNotification], by the call that emits them. *)
Inductive message : Type :=
  | MsgEnterCredentials            (* line 1968 *)
  | MsgPasswordTooShort            (* line 1973 *)
  | MsgUnknownUser                 (* line 2007 *)
  | MsgAccountLocked (minutes : Z) (* line 2016 *)
  | MsgLoginSuccess (admin : bool) (* line 2065 *)
  | MsgLockedOut                   (* line 2075 *)
  | MsgWrongPassword (remaining : Z) (* line 2079 *)
  | MsgCommentIncomplete           (* line 2638 *)
  | MsgCommentTooShort             (* line 2643 *)
  | MsgCommentTooLong              (* line 2648 *)
  | MsgCommentPosted               (* line 2668 *)
  | MsgDeleteCommentDenied         (* line 2677 *)
  | MsgNoSuchComment               (* lines 2687, 2712 *)
  | MsgCommentDeleted              (* line 2698 *)
  | MsgPinCommentDenied            (* line 2706 *)
  | MsgCommentPinned (pinned : bool) (* line 2723 *)
  | MsgSelectUsersFirst            (* lines 3102, 3152 *)
  | MsgUsersLocked (count : nat)   (* line 3117 *)
  | MsgUsersDeleted (count : nat)  (* line 3176 *)
  | MsgNoSuchUser                  (* lines 3186, 3216, 3255 *)
  | MsgBadEmail                    (* line 3194 *)
  | MsgUserUpdated                 (* line 3201 *)
  | MsgCannotDeleteAdmin           (* line 3210 *)
  | MsgUserDeleted (name : string) (* line 3240 *)
  | MsgCannotLockAdmin             (* line 3249 *)
  | MsgUserLocked (name : string) (locked : bool) (* line 3266 *)
  | MsgDataReset                   (* line 771 *)
  | MsgDataResetFailed             (* line 774 *)
  | MsgSessionExpired              (* line 853 *)
  | MsgViewStatsIssues (count : nat) (* line 1100 *)
  | MsgArticleDeleted              (* line 1323 *)
  | MsgArticleNotFound             (* line 1513 *)
  | MsgEditorFieldsRequired        (* line 1755 *)
  | MsgArticleUpdated              (* line 1771 *)
  | MsgArticlePublished            (* line 1782 *)
  | MsgFillAllFields               (* line 2235 *)
  | MsgUsernameLength              (* line 2241 *)
  | MsgUsernameChars               (* line 2247 *)
  | MsgInvalidEmail                (* line 2255 *)
  | MsgPasswordNeedsLetterDigit    (* line 2268 *)
  | MsgPasswordMismatch            (* line 2274 *)
  | MsgUsernameTaken               (* line 2282 *)
  | MsgEmailTaken                  (* line 2289 *)
  | MsgRegistered                  (* line 2323 *)
  | MsgSelectUsersToUnlock         (* line 3127 *)
  | MsgUsersUnlocked (count : nat) (* line 3142 *)
  | MsgArticleIdLost               (* line 3357 *)
  | MsgEnterNickname               (* line 3372 *)
  | MsgEnterComment.               (* line 3378 *)

Record notice := Notice {
  text : message;
  level : severity;
  duration : Z;
  autoClose : bool
}.


(** The fields of [this] the embedded methods use, the two storages, the
    lock-release timers pending in the event loop (each holds the key it
    will remove) and the notifications shown so far, oldest first. *)
Record World := mkWorld {
  articles : value;
  users : value;
  comments : value;
  currentUser : value;
  localStorage : gmap string raw;
  sessionStorage : gmap string string;
  timers : list string;
  notifications : list notice
}.

Definition withArticles (x : value) (w : World) : World :=
  mkWorld x (users w) (comments w) (currentUser w) (localStorage w)
          (sessionStorage w) (timers w) (notifications w).
Definition withUsers (x : value) (w : World) : World :=
  mkWorld (articles w) x (comments w) (currentUser w) (localStorage w)
          (sessionStorage w) (timers w) (notifications w).
Definition withComments (x : value) (w : World) : World :=
  mkWorld (articles w) (users w) x (currentUser w) (localStorage w)
          (sessionStorage w) (timers w) (notifications w).
Definition withCurrentUser (x : value) (w : World) : World :=
  mkWorld (articles w) (users w) (comments w) x (localStorage w)
          (sessionStorage w) (timers w) (notifications w).
Definition withLocalStorage (x : gmap string raw) (w : World) : World :=
  mkWorld (articles w) (users w) (comments w) (currentUser w) x
          (sessionStorage w) (timers w) (notifications w).
Definition withSessionStorage (x : gmap string string) (w : World) : World :=
  mkWorld (articles w) (users w) (comments w) (currentUser w) (localStorage w)
          x (timers w) (notifications w).
Definition withTimers (x : list string) (w : World) : World :=
  mkWorld (articles w) (users w) (comments w) (currentUser w) (localStorage w)
          (sessionStorage w) x (notifications w).
Definition withNotifications (x : list notice) (w : World) : World :=
  mkWorld (articles w) (users w) (comments w) (currentUser w) (localStorage w)
          (sessionStorage w) (timers w) x.

(** ** Methods as state transformers that may throw *)

Definition M (A : Type) : Type := World -> outcome A * World.

#[global] Instance M_ret : MRet M := fun _ a w => (Ok a, w).
#[global] Instance M_bind : MBind M := fun _ _ f m w =>
  match m w with
  | (Ok a, w') => f a w'
  | (Throw, w') => (Throw, w')
  | (Unmodelled, w') => (Unmodelled, w')
  end.

(** A pure computation inside a method. *)
Definition lift {A} (o : outcome A) : M A := fun w => (o, w).

Definition get {A} (f : World -> A) : M A := fun w => (Ok (f w), w).
Definition modify (f : World -> World) : M unit := fun w => (Ok tt, f w).

(** [try { m } catch { h }]: what [m] changed before it threw stays. *)
Definition tryCatch {A} (m h : M A) : M A := fun w =>
  match m w with
  | (Throw, w') => h w'
  | r => r
  end.

(** [try { m } finally { f }] *)
Definition tryFinally {A} (m : M A) (f : M unit) : M A := fun w =>
  match m w with
  | (r, w') => match f w' with
               | (Ok _, w'') => (r, w'')
               | (Throw, w'') => (Throw, w'')
               | (Unmodelled, w'') => (Unmodelled, w'')
               end
  end.

(** [localStorage.getItem], [setItem] and [removeItem] *)
Definition getItem (k : string) : M (option raw) :=
  get (fun w => localStorage w !! k).
Definition setItem (k : string) (r : raw) : M unit :=
  modify (fun w => withLocalStorage (<[k := r]> (localStorage w)) w).
Definition removeItem (k : string) : M unit :=
  modify (fun w => withLocalStorage (delete k (localStorage w)) w).

(** [showNotification(message, type = 'info', duration = 5000, autoClose = true)]
    (line 2436): only the banner it adds is kept. *)
Definition showNotification (m : message) (t : severity) (d : Z) (a : bool) : M unit :=
  modify (fun w => withNotifications (notifications w ++ [Notice m t d a]) w).

(** ** The store adapter (lines 216-302 and 2199-2217) *)

(** [v.some(p)], [v.filter(p)] and [v.find(p)] on a receiver that may be
    anything. *)
Definition someOf (p : value -> outcome bool) (v : value) : outcome bool :=
  l ← arrayOf v; some p l.

(** [this.users && this.users.length > 0] *)
Definition memoryNonEmpty : M bool :=
  u ← get users;
  if truthy u then lift (n ← getProp u "length"; gtNum n 0) else mret false.

(** The callback of line 271:
    [user && typeof user === 'object' && user.username && user.password]. *)
Definition validUser (user : value) : outcome bool :=
  if truthy user && bool_decide (typeOf user = TObject) then
    n ← getProp user "username";
    if truthy n then p ← getProp user "password"; Ok (truthy p) else Ok false
  else Ok false.

(** [localStorage.setItem(key, JSON.stringify(this.users)); resolve(this.users)] *)
Definition restoreUsers (key : string) : M value :=
  u ← get users;
  setItem key (stringify u);;
  mret u.

(** The three checks made on the parsed value of the key 'blogUsers'
    (lines 247-287). *)
Definition checkUsers (key : string) (defaultValue parsed : value) : M value :=
  (* check 1: parsed.length === 0 && this.users && this.users.length > 0 *)
  len ← lift (getProp parsed "length");
  lost ← (if eqNum len 0 then memoryNonEmpty else mret false);
  if lost : bool then restoreUsers key else
  (* check 2: the administrator is in memory but not in the parsed value *)
  hasAdmin ← lift (someOf (propIs "username" "zcr") parsed);
  mem ← (if negb hasAdmin then memoryNonEmpty else mret false);
  inMemory ← (if mem : bool
              then u ← get users; lift (someOf (propIs "username" "zcr") u)
              else mret false);
  if inMemory : bool then restoreUsers key else
  (* check 3: Array.isArray(parsed), then the entries *)
  match parsed with
  | VArr l =>
      validUsers ← lift (filter validUser l);
      if bool_decide (length validUsers = length l) then mret parsed
      else setItem key (stringify (VArr validUsers));; mret (VArr validUsers)
  | _ => mret defaultValue
  end.

(** [safeGetLocalStorage(key, defaultValue)]: the promise it returns is
    already resolved, so [await] yields its value. *)
Definition safeGetLocalStorage (key : string) (defaultValue : value) : M value :=
  tryCatch
    (stored ← getItem key;
     match stored with
     | None =>
         (* lines 229-240 *)
         mem ← (if bool_decide (key = "blogUsers") then memoryNonEmpty
                else mret false);
         if mem : bool then restoreUsers key else mret defaultValue
     | Some text =>
         tryCatch
           (parsed ← lift (parse text);
            if bool_decide (key = "blogUsers")
            then checkUsers key defaultValue parsed
            else mret parsed)
           (mret defaultValue)
     end)
    (mret defaultValue).

(** [safeSetLocalStorage(key, value)] *)
Definition safeSetLocalStorage (key : string) (v : value) : M bool :=
  setItem key (stringify v);;
  mret true.

(** ** The administrator account (lines 2107-2194) *)

Definition adminDigest : string := hashPassword "20120508".

Definition adminAccount (now : Z) : value :=
  VObj [("id", VStr "admin-original");
        ("username", VStr "zcr");
        ("password", VStr adminDigest);
        ("isAdmin", VBool true);
        ("email", VStr "zcr@blog.com");
        ("createdAt", VIso now);
        ("lastLogin", VNull);
        ("loginAttempts", VNum 0);
        ("lockedUntil", VNull)].

(** Lines 2163-2170: one turn of the loop over the required fields; the
    flag is [needsUpdate]. *)
Definition patchField (template : value) (acc : outcome (value * bool))
    (field : string) : outcome (value * bool) :=
  '(admin, needsUpdate) ← acc;
  present ← hasProp field admin;
  if present : bool then Ok (admin, needsUpdate)
  else x ← getProp template field;
       admin' ← setProp admin field x;
       Ok (admin', true).

(** [initializeAdminAccount()]; [now] is the clock when [adminAccount] is
    built. *)
Definition initializeAdminAccount (now : Z) : M value :=
  us ← safeGetLocalStorage "blogUsers" (VArr []);
  modify (withUsers us);;
  l ← lift (arrayOf us);
  existingAdmin ← lift (findRef (propIs "username" "zcr") l);
  match existingAdmin with
  | None =>
      oldAdmin ← lift (findRef (propIs "username" "admin") l);
      l' ← match oldAdmin with
           | Some _ => lift (filter (propIsNot "username" "admin") l)
           | None => mret l
           end;
      modify (withUsers (VArr (l' ++ [adminAccount now])));;
      us' ← get users;
      safeSetLocalStorage "blogUsers" us';;
      mret tt
  | Some (i, admin) =>
      pw ← lift (getProp admin "password");
      let stale := negb (eqStr pw adminDigest) in
      admin1 ← (if stale then lift (setProp admin "password" (VStr adminDigest))
                else mret admin);
      '(admin2, needsUpdate) ←
        lift (foldl (patchField (adminAccount now)) (Ok (admin1, stale))
                    ["id"; "isAdmin"; "email"; "createdAt"]);
      modify (withUsers (VArr (<[i := admin2]> l)));;
      if needsUpdate : bool
      then us' ← get users; safeSetLocalStorage "blogUsers" us';; mret tt
      else mret tt
  end;;
  (* the final check of line 2185 repeats the search of line 2127 *)
  get users.

(** ** Rendering (lines 1065-1070, 1111-1175, 1255-1310, 1356-1410 and
       2558-2600)

    The elements of the page are present.  Of what a rendering method does,
    two things are kept: what it does to the state, which is the sort of
    [this.articles] itself, and what can make it throw, which is a property
    read on an entry that is [null] and the call of [substring] on a
    [content] that is no string.  The text it builds is not kept; turning a
    value into text does not throw. *)

(** [new Date(a.createdAt)] as a number. *)
Definition createdAtOf (a : value) : outcome Z :=
  v ← getProp a "createdAt"; dateOf v.

(** The comparator [(a, b) => new Date(b.createdAt) - new Date(a.createdAt)]
    needs the time of every entry; one it cannot take as a number makes the
    order undefined, and an entry that is [null] makes the comparator
    throw. *)
Fixpoint keysOf (l : list value) : outcome (list (Z * value)) :=
  match l with
  | [] => Ok []
  | a :: l' =>
      match createdAtOf a, keysOf l' with
      | Ok t, Ok r => Ok ((t, a) :: r)
      | Unmodelled, _ | _, Unmodelled => Unmodelled
      | _, _ => Throw
      end
  end.

(** [x] stood before every entry of [l], which is sorted: it goes before the
    first entry that is not newer. *)
Fixpoint insertByDate (x : Z * value) (l : list (Z * value))
  : list (Z * value) :=
  match l with
  | [] => [x]
  | y :: l' => if y.1 <=? x.1 then x :: l else y :: insertByDate x l'
  end.

(** [l.sort(comparator)]: the sort is stable, and an array of fewer than two
    entries needs no comparison. *)
Definition newestFirst (l : list value) : outcome (list value) :=
  if (length l <? 2)%nat then Ok l
  else keyed ← keysOf l; Ok ((foldr insertByDate [] keyed).*2).

(** [this.articles.sort(comparator)] of lines 1139, 1273 and 1379: the array
    itself is sorted. *)
Definition sortArticles : M unit :=
  arts ← get articles;
  l ← lift (arrayOf arts);
  l' ← lift (newestFirst l);
  modify (withArticles (VArr l')).

(** [l.map(x => x.k)], [l.forEach(f)]: the callbacks are run in turn. *)
Fixpoint each (f : value -> outcome unit) (l : list value) : outcome unit :=
  match l with
  | [] => Ok tt
  | x :: l' => f x;; each f l'
  end.

Definition read (k : string) (x : value) : outcome unit :=
  getProp x k;; Ok tt.

(** The value is a string. *)
Definition isText (v : value) : bool := bool_decide (typeOf v = TString).

(** [createArticleCard(article)] (line 1154) and
    [createArticleListItem(article)] (line 1392) read [createdAt], then call
    [article.content.substring]. *)
Definition createArticleCard (article : value) : outcome unit :=
  read "createdAt" article;;
  content ← getProp article "content";
  if isText content then Ok tt else Throw.

Definition createArticleListItem (article : value) : outcome unit :=
  createArticleCard article.

(** [updateStats()]: the length of [this.articles], the categories and the
    sum of the views; the sum is put on the page whatever it is. *)
Definition updateStats : M unit :=
  arts ← get articles;
  l ← lift (arrayOf arts);
  lift (each (read "category") l);;
  lift (each (read "views") l).

(** [renderRecentArticles()]: the array is sorted, the first six entries of
    the sorted array get a card. *)
Definition renderRecentArticles : M unit :=
  sortArticles;;
  arts ← get articles;
  l ← lift (arrayOf arts);
  lift (each createArticleCard (take 6 l)).


(** [showSection('home')] *)
Definition showSectionHome : M unit :=
  renderRecentArticles;;
  updateStats.

(** [renderMyArticles()]: an empty array is left alone; the rows read the
    [title] first. *)
Definition renderMyArticles : M unit :=
  arts ← get articles;
  l ← lift (arrayOf arts);
  match l with
  | [] => mret tt
  | _ =>
      sortArticles;;
      arts' ← get articles;
      l' ← lift (arrayOf arts');
      lift (each (read "title") l')
  end.

(** [renderAdminDashboard()] reads three lengths. *)
Definition renderAdminDashboard : M unit :=
  arts ← get articles;
  lift (getProp arts "length");;
  us ← get users;
  lift (getProp us "length");;
  cs ← get comments;
  lift (getProp cs "length");;
  mret tt.

(** The callback of line 1372 on an article whose [title] and [content] are
    strings, which is then found or not; on another one it is not
    embedded.  The sort of line 1379 is that of a copy here. *)
Definition searchable (a : value) : bool :=
  match getProp a "title", getProp a "content", createdAtOf a with
  | Ok title, Ok content, Ok _ => isText title && isText content
  | _, _, _ => false
  end.

(** [renderArticles()]; the two arguments are the fields [currentFilter]
    and [searchTerm].  With no filter and no search term the array that is
    sorted is [this.articles] itself, otherwise a copy. *)
Definition renderArticles (currentFilter searchTerm : string) : M unit :=
  if bool_decide (currentFilter = "all") && bool_decide (searchTerm = "")
  then
    sortArticles;;
    arts ← get articles;
    l ← lift (arrayOf arts);
    lift (each createArticleListItem l)
  else
    arts ← get articles;
    l ← lift (arrayOf arts);
    filtered ← lift (if bool_decide (currentFilter = "all") then Ok l
                     else filter (propIs "category" currentFilter) l);
    if bool_decide (searchTerm = "")
    then sorted ← lift (newestFirst filtered);
         lift (each createArticleListItem sorted)
    else lift (if forallb searchable filtered then Ok tt else Unmodelled).

(** [loadArticleComments(articleId)] *)
Definition loadArticleComments (articleId : string) : M (list value) :=
  cs ← get comments;
  l ← lift (arrayOf cs);
  lift (filter (propIs "articleId" articleId) l).

(** [renderComments(articleId)]: the filter of [loadArticleComments] reads
    [articleId] on every comment; the sort and the items of the comments it
    lets through read properties of these. *)
Definition renderComments (articleId : value) : M unit :=
  match articleId with
  | VStr a => loadArticleComments a;; mret tt
  | _ =>
      cs ← get comments;
      l ← lift (arrayOf cs);
      lift (each (read "articleId") l)
  end.

(** ** The integrity check run before each login (lines 615-690) *)

(** The default order of [Array.prototype.sort] on strings. *)
Definition strLe (a b : string) : Prop := Is_true (String.leb a b).

#[global] Instance strLe_dec a b : Decision (strLe a b).
Proof. unfold strLe. apply _. Defined.

(** [cleanupOldBackups()] *)
Definition cleanupOldBackups : M unit :=
  modify (fun w =>
    let backupKeys :=
      List.filter (String.prefix "blogDataBackup_")
                  (List.map fst (map_to_list (localStorage w))) in
    if (5 <? length backupKeys)%nat then
      let keysToDelete :=
        take (length backupKeys - 5) (merge_sort strLe backupKeys) in
      withLocalStorage (foldr delete (localStorage w) keysToDelete) w
    else w).

(** [createDataBackup()]; [now] is the clock of the time stamp. *)
Definition createDataBackup (now : Z) : M unit :=
  tryCatch
    (us ← safeGetLocalStorage "blogUsers" (VArr []);
     arts ← safeGetLocalStorage "blogArticles" (VArr []);
     cs ← safeGetLocalStorage "blogComments" (VArr []);
     cu ← safeGetLocalStorage "blogUser" VNull;
     setItem "blogDataBackup"
       (stringify (VObj [("timestamp", VIso now); ("users", us);
                         ("articles", arts); ("comments", cs);
                         ("currentUser", cu)]));;
     cleanupOldBackups)
    (mret tt).

(** [validateDataIntegrity()]; the two [console.log] calls read
    [articles.length] and [comments.length]. *)
Definition validateDataIntegrity (nowAdmin nowBackup : Z) : M unit :=
  tryCatch
    (us ← safeGetLocalStorage "blogUsers" (VArr []);
     hasAdmin ← lift (someOf (propIs "username" "zcr") us);
     (if hasAdmin : bool then mret tt
      else initializeAdminAccount nowAdmin;; mret tt);;
     arts ← safeGetLocalStorage "blogArticles" (VArr []);
     lift (getProp arts "length");;
     cs ← safeGetLocalStorage "blogComments" (VArr []);
     lift (getProp cs "length");;
     createDataBackup nowBackup)
    (mret tt).

(** ** Login (lines 1949-2089) and session validation (lines 994-1028) *)

(** The readings of the clock ([new Date()], [Date.now()]) one run of
    [handleLoginScreen] can make, in the order of the source. *)
Record LoginClock := {
  integrityAdminAt : Z; (* line 2120, reached from line 627 *)
  backupAt : Z;         (* line 655 *)
  adminAt : Z;          (* line 2120, reached from line 1990 *)
  lockCheckAt : Z;      (* line 2014 *)
  remainingAt : Z;      (* line 2015 *)
  lastLoginAt : Z;      (* line 2030 *)
  loginTimeAt : Z;      (* line 2037 *)
  expiryAt : Z;         (* line 2038 *)
  lockSetAt : Z         (* line 2074 *)
}.

Definition day : Z := 24 * 60 * 60 * 1000.
Definition halfHour : Z := 30 * 60 * 1000.

(** [Math.ceil(x / 60000)] *)
Definition ceilMinutes (x : Z) : Z := - ((- x) / 60000).

(** Lines 1978-1997: the integrity check and the three reloads of
    [this.users]. *)
Definition resyncUsers (c : LoginClock) (username : string) : M unit :=
  validateDataIntegrity (integrityAdminAt c) (backupAt c);;
  us ← safeGetLocalStorage "blogUsers" (VArr []);
  modify (withUsers us);;
  l ← lift (arrayOf us);
  adminCheck ← lift (findRef (propIs "username" "zcr") l);
  (if bool_decide (adminCheck = None) && bool_decide (username = "zcr")
   then initializeAdminAccount (adminAt c);;
        us' ← safeGetLocalStorage "blogUsers" (VArr []);
        modify (withUsers us')
   else mret tt);;
  us'' ← safeGetLocalStorage "blogUsers" (VArr []);
  modify (withUsers us'').

(** The session object of lines 2032-2039. *)
Definition newSession (c : LoginClock) (user : value) : outcome value :=
  id ← getProp user "id";
  name ← getProp user "username";
  isAdmin ← getProp user "isAdmin";
  email ← getProp user "email";
  Ok (VObj [("id", id); ("username", name); ("isAdmin", isAdmin);
            ("email", email);
            ("loginTime", VIso (loginTimeAt c));
            ("sessionExpiry", VNum (expiryAt c + day))]).

(** Lines 2024-2067: the password matched. *)
Definition loginSucceeds (c : LoginClock) (l : list value) (i : nat)
    (user : value) : M unit :=
  u1 ← lift (setProp user "loginAttempts" (VNum 0));
  u2 ← lift (setProp u1 "lockedUntil" VNull);
  u3 ← lift (setProp u2 "lastLogin" (VIso (lastLoginAt c)));
  modify (withUsers (VArr (<[i := u3]> l)));;
  session ← lift (newSession c u3);
  modify (withCurrentUser session);;
  us ← get users;
  safeSetLocalStorage "blogUsers" us;;
  safeSetLocalStorage "blogUser" session;;
  showSectionHome;;
  isAdmin ← lift (getProp session "isAdmin");
  showNotification (MsgLoginSuccess (truthy isAdmin)) Success 2500 true.

(** Lines 2068-2088: the password did not match. *)
Definition loginFails (c : LoginClock) (l : list value) (i : nat)
    (user : value) : M unit :=
  old ← lift (getProp user "loginAttempts");
  n ← lift (orZeroPlusOne old);
  u1 ← lift (setProp user "loginAttempts" (VNum n));
  modify (withUsers (VArr (<[i := u1]> l)));;
  (if 5 <=? n
   then u2 ← lift (setProp u1 "lockedUntil" (VIso (lockSetAt c + halfHour)));
        modify (withUsers (VArr (<[i := u2]> l)));;
        showNotification MsgLockedOut Error 0 false
   else showNotification (MsgWrongPassword (5 - n)) Error 4000 true);;
  us ← get users;
  safeSetLocalStorage "blogUsers" us;;
  mret tt.

(** [handleLoginScreen()]; the two arguments are the values of the two
    input fields. *)
Definition handleLoginScreen (c : LoginClock) (usernameValue password : string)
  : M unit :=
  let username := trim usernameValue in
  if bool_decide (username = "") || bool_decide (password = "")
  then showNotification MsgEnterCredentials Error 4000 true
  else if (String.length password <? 6)%nat
  then showNotification MsgPasswordTooShort Error 4000 true
  else
    resyncUsers c username;;
    us ← get users;
    l ← lift (arrayOf us);
    found ← lift (findRef (propIs "username" username) l);
    match found with
    | None => showNotification MsgUnknownUser Error 4000 true
    | Some (i, user) =>
        lockedUntil ← lift (getProp user "lockedUntil");
        locked ← lift (if truthy lockedUntil
                       then dateAfter (lockCheckAt c) lockedUntil
                       else Ok false);
        if locked : bool
        then t ← lift (dateOf lockedUntil);
             showNotification (MsgAccountLocked (ceilMinutes (t - remainingAt c)))
                              Error 0 false
        else
          stored ← lift (getProp user "password");
          if eqStr stored (hashPassword password)
          then loginSucceeds c l i user
          else loginFails c l i user
    end.

Definition thirtyDaysInMs : Z := 30 * 24 * 60 * 60 * 1000.

(** [validateUserObject(user)]; [now] is [Date.now()] at line 1012. *)
Definition validateUserObject (now : Z) (user : value) : outcome bool :=
  if negb (truthy user) || negb (bool_decide (typeOf user = TObject))
  then Ok false
  else
    name ← getProp user "username";
    if negb (truthy name) || negb (bool_decide (typeOf name = TString))
       || match name with VStr s => bool_decide (trim s = "") | _ => false end
    then Ok false
    else
      loginTime ← getProp user "loginTime";
      match loginTime with
      | VNum t =>
          if negb (truthy loginTime) then Ok false
          else if thirtyDaysInMs <? now - t then Ok false
          else
            (* the loop over ['username', 'loginTime', 'isAdmin'] *)
            a ← hasProp "username" user;
            if negb a then Ok false else
            b ← hasProp "loginTime" user;
            if negb b then Ok false else
            d ← hasProp "isAdmin" user;
            Ok d
      | _ => Ok false   (* !user.loginTime || typeof user.loginTime !== 'number' *)
      end.

(** ** The view counter (lines 1412-1483) *)

Definition viewedKey (articleId : string) : string := "viewed_" +:+ articleId.
Definition lockKey (articleId : string) : string := "view_lock_" +:+ articleId.

(** Line 1451: [existingLock && (Date.now() - parseInt(existingLock)) < 1000].
    A text [parseInt] cannot read gives [NaN], which is below nothing; the
    empty string is such a text. *)
Definition tooFrequent (existingLock : option raw) (now : Z) : bool :=
  match existingLock with
  | Some r => match parseInt r with
              | Some t => now - t <? 1000
              | None => false
              end
  | None => false
  end.

(** [setTimeout(() => localStorage.removeItem(lockId), 1000)]: the timer is
    queued; [releaseLock] below is its callback. *)
Definition scheduleRelease (lockId : string) : M unit :=
  modify (fun w => withTimers (timers w ++ [lockId]) w).

(** [updateViewsWithLock(articleId)]; the arguments are the two readings of
    [Date.now()], lines 1447 and 1451. *)
Definition updateViewsWithLock (lockTimestamp now : Z) (articleId : string)
  : M value :=
  let lockId := lockKey articleId in
  existingLock ← getItem lockId;
  if tooFrequent existingLock now then mret VNull
  else
    setItem lockId (Json (VNum lockTimestamp));;
    tryFinally
      (storedArticles ← safeGetLocalStorage "blogArticles" (VArr []);
       l ← lift (arrayOf storedArticles);
       found ← lift (findRef (propIs "id" articleId) l);
       match found with
       | Some (i, article) =>
           views ← lift (getProp article "views");
           n ← lift (orZeroPlusOne views);
           article' ← lift (setProp article "views" (VNum n));
           safeSetLocalStorage "blogArticles" (VArr (<[i := article']> l));;
           mret article'
       | None => mret VNull
       end)
      (scheduleRelease lockId).

(** The result [{ increased, updatedArticle }]. *)
Record viewResult := ViewResult { increased : bool; updatedArticle : value }.

(** [incrementViewsSafely(articleId)] *)
Definition incrementViewsSafely (lockTimestamp now : Z) (articleId : string)
  : M viewResult :=
  let sessionKey := viewedKey articleId in
  hasViewed ← get (fun w => sessionStorage w !! sessionKey);
  if match hasViewed with Some s => negb (bool_decide (s = "")) | None => false end
  then mret (ViewResult false VNull)
  else
    modify (fun w => withSessionStorage (<[sessionKey := "true"]> (sessionStorage w)) w);;
    updated ← updateViewsWithLock lockTimestamp now articleId;
    if truthy updated
    then
      arts ← get articles;
      l ← lift (arrayOf arts);
      found ← lift (findRef (propIs "id" articleId) l);
      match found with
      | Some (i, _) => modify (withArticles (VArr (<[i := updated]> l)))
      | None => mret tt
      end;;
      mret (ViewResult true updated)
    else mret (ViewResult false VNull).


(** ** Comments (lines 2636-2724) *)

(** [saveComments()] *)
Definition saveComments : M unit :=
  cs ← get comments;
  safeSetLocalStorage "blogComments" cs;;
  mret tt.

(** [this.currentUser && this.currentUser.isAdmin] *)
Definition sessionAdminFlag (cu : value) : outcome value :=
  if truthy cu then getProp cu "isAdmin" else Ok cu.

(** [submitComment(articleId, author, content)]; [newId] is the identifier
    line 2653 builds from the clock and the random source, [now] the clock
    of line 2657. *)
Definition submitComment (newId : string) (now : Z)
    (articleId author content : string) : M bool :=
  if bool_decide (articleId = "") || bool_decide (author = "")
     || bool_decide (content = "")
  then showNotification MsgCommentIncomplete Error 4000 true;; mret false
  else if (String.length content <? 2)%nat
  then showNotification MsgCommentTooShort Error 3000 true;; mret false
  else if (1000 <? String.length content)%nat
  then showNotification MsgCommentTooLong Error 4000 true;; mret false
  else
    cu ← get currentUser;
    isAdmin ← lift (sessionAdminFlag cu);
    let comment :=
      VObj [("id", VStr newId);
            ("articleId", VStr articleId);
            ("author", VStr (trim author));
            ("content", VStr (trim content));
            ("createdAt", VIso now);
            ("isAdmin", isAdmin);
            ("isPinned", VBool false)] in
    cs ← get comments;
    l ← lift (arrayOf cs);
    modify (withComments (VArr (l ++ [comment])));;
    saveComments;;
    renderComments (VStr articleId);;
    showNotification MsgCommentPosted Success 2500 true;;
    mret true.

(** [!this.currentUser || !this.currentUser.isAdmin] *)
Definition notAdmin : M bool :=
  cu ← get currentUser;
  flag ← lift (sessionAdminFlag cu);
  mret (negb (truthy flag)).

(** [deleteComment(commentId)]; [confirmed] is the answer to [confirm]. *)
Definition deleteComment (confirmed : bool) (commentId : string) : M unit :=
  denied ← notAdmin;
  if denied : bool
  then showNotification MsgDeleteCommentDenied Error 4000 true
  else if negb confirmed then mret tt
  else
    cs ← get comments;
    l ← lift (arrayOf cs);
    found ← lift (findRef (propIs "id" commentId) l);
    match found with
    | None => showNotification MsgNoSuchComment Error 3000 true
    | Some (i, comment) =>
        modify (withComments (VArr (delete i l)));;
        saveComments;;
        articleId ← lift (getProp comment "articleId");
        renderComments articleId;;
        showNotification MsgCommentDeleted Success 2500 true
    end.

(** [pinComment(commentId)] *)
Definition pinComment (commentId : string) : M unit :=
  denied ← notAdmin;
  if denied : bool
  then showNotification MsgPinCommentDenied Error 4000 true
  else
    cs ← get comments;
    l ← lift (arrayOf cs);
    found ← lift (findRef (propIs "id" commentId) l);
    match found with
    | None => showNotification MsgNoSuchComment Error 3000 true
    | Some (i, comment) =>
        old ← lift (getProp comment "isPinned");
        comment' ← lift (setProp comment "isPinned" (VBool (negb (truthy old))));
        modify (withComments (VArr (<[i := comment']> l)));;
        saveComments;;
        articleId ← lift (getProp comment' "articleId");
        renderComments articleId;;
        showNotification (MsgCommentPinned (negb (truthy old))) Success 2500 true
    end.

(** ** User administration (lines 3099-3282) *)

(** [selectedUsers.includes(v)]; the selection holds the [data-user-id]
    strings of the ticked boxes. *)
Definition includes (selectedUsers : list string) (v : value) : bool :=
  match v with
  | VStr s => bool_decide (s ∈ selectedUsers)
  | _ => false
  end.

(** The callback [x => !selectedUsers.includes(x.k)] *)
Definition propNotIn (k : string) (selectedUsers : list string) (x : value)
  : outcome bool :=
  v ← getProp x k; Ok (negb (includes selectedUsers v)).

(** One turn of the [forEach] of lines 3107-3112. *)
Definition lockOne (username : string) : M unit :=
  us ← get users;
  l ← lift (arrayOf us);
  found ← lift (findRef (propIs "username" username) l);
  match found with
  | Some (i, user) =>
      user' ← lift (setProp user "isLocked" (VBool true));
      modify (withUsers (VArr (<[i := user']> l)))
  | None => mret tt
  end.

Fixpoint forEach {A} (f : A -> M unit) (l : list A) : M unit :=
  match l with
  | [] => mret tt
  | x :: l' => f x;; forEach f l'
  end.

(** [batchLockUsers()]; [selectedUsers] is what [getSelectedUsers()] reads
    from the page, [confirmed] the answer to [confirm]. *)
Definition batchLockUsers (selectedUsers : list string) (confirmed : bool)
  : M unit :=
  match selectedUsers with
  | [] => showNotification MsgSelectUsersFirst Warning 3000 true
  | _ =>
      if confirmed then
        forEach lockOne selectedUsers;;
        us ← get users;
        safeSetLocalStorage "blogUsers" us;;
        showNotification (MsgUsersLocked (length selectedUsers)) Success 3000 true
      else mret tt
  end.

(** Lines 3164-3167 and 3228-3231 *)
Definition logoutIf (test : value -> bool) : M unit :=
  cu ← get currentUser;
  name ← lift (if truthy cu then getProp cu "username" else Ok cu);
  if truthy cu && test name
  then modify (withCurrentUser VNull);;
       safeSetLocalStorage "blogUser" VNull;;
       mret tt
  else mret tt.

(** Lines 3169-3172 *)
Definition saveUsersAndComments : M unit :=
  us ← get users;
  safeSetLocalStorage "blogUsers" us;;
  cs ← get comments;
  safeSetLocalStorage "blogComments" cs;;
  mret tt.

(** [batchDeleteUsers()] *)
Definition batchDeleteUsers (selectedUsers : list string) (confirmed : bool)
  : M unit :=
  match selectedUsers with
  | [] => showNotification MsgSelectUsersFirst Warning 3000 true
  | _ =>
      if confirmed then
        us ← get users;
        l ← lift (arrayOf us);
        l' ← lift (filter (propNotIn "username" selectedUsers) l);
        modify (withUsers (VArr l'));;
        cs ← get comments;
        c ← lift (arrayOf cs);
        c' ← lift (filter (propNotIn "author" selectedUsers) c);
        modify (withComments (VArr c'));;
        logoutIf (includes selectedUsers);;
        saveUsersAndComments;;
        showNotification (MsgUsersDeleted (length selectedUsers)) Success 3000 true
      else mret tt
  end.

(** [validateEmail(email)]: the pattern [^[^\s@]+@[^\s@]+\.[^\s@]+$]. *)
Definition plainChar (a : Ascii.ascii) : bool :=
  negb (isSpace a) && negb (bool_decide (a = "@"%char)).

Fixpoint allPlain (s : string) : bool :=
  match s with
  | "" => true
  | String a s' => plainChar a && allPlain s'
  end.

(** Some dot of [s] has a character before it and one after it. *)
Fixpoint innerDot (before : bool) (s : string) : bool :=
  match s with
  | "" => false
  | String a s' =>
      (bool_decide (a = "."%char) && before && negb (bool_decide (s' = "")))
      || innerDot true s'
  end.

(** The part before the first [@] and the part after it. *)
Fixpoint splitAtSign (s : string) : option (string * string) :=
  match s with
  | "" => None
  | String a s' =>
      if bool_decide (a = "@"%char) then Some ("", s')
      else match splitAtSign s' with
           | Some (l, r) => Some (String a l, r)
           | None => None
           end
  end.

Definition validateEmail (email : string) : bool :=
  match splitAtSign email with
  | Some (l, r) =>
      negb (bool_decide (l = "")) && allPlain l && allPlain r && innerDot false r
  | None => false
  end.

(** [editUser(username)]; [answer] is what [prompt] returns, [None] for
    [null]. *)
Definition editUser (answer : option string) (username : string) : M unit :=
  us ← get users;
  l ← lift (arrayOf us);
  found ← lift (findRef (propIs "username" username) l);
  match found with
  | None => showNotification MsgNoSuchUser Error 3000 true
  | Some (i, user) =>
      match answer with
      | None => mret tt
      | Some newEmail =>
          if negb (bool_decide (newEmail = "")) && negb (validateEmail newEmail)
          then showNotification MsgBadEmail Error 3000 true
          else
            old ← lift (getProp user "email");
            user' ← lift (setProp user "email" (jsOr (VStr newEmail) old));
            modify (withUsers (VArr (<[i := user']> l)));;
            us' ← get users;
            safeSetLocalStorage "blogUsers" us';;
            showNotification MsgUserUpdated Success 3000 true
      end
  end.

(** [deleteUser(username)] *)
Definition deleteUser (confirmed : bool) (username : string) : M unit :=
  if bool_decide (username = "zcr")
  then showNotification MsgCannotDeleteAdmin Error 3000 true
  else
    us ← get users;
    l ← lift (arrayOf us);
    found ← lift (findRef (propIs "username" username) l);
    match found with
    | None => showNotification MsgNoSuchUser Error 3000 true
    | Some _ =>
        if confirmed then
          l' ← lift (filter (propIsNot "username" username) l);
          modify (withUsers (VArr l'));;
          cs ← get comments;
          c ← lift (arrayOf cs);
          c' ← lift (filter (propIsNot "author" username) c);
          modify (withComments (VArr c'));;
          logoutIf (fun name => eqStr name username);;
          saveUsersAndComments;;
          showNotification (MsgUserDeleted username) Success 3000 true
        else mret tt
    end.

(** [lockUser(username)] *)
Definition lockUser (username : string) : M unit :=
  if bool_decide (username = "zcr")
  then showNotification MsgCannotLockAdmin Error 3000 true
  else
    us ← get users;
    l ← lift (arrayOf us);
    found ← lift (findRef (propIs "username" username) l);
    match found with
    | None => showNotification MsgNoSuchUser Error 3000 true
    | Some (i, user) =>
        old ← lift (getProp user "isLocked");
        user' ← lift (setProp user "isLocked" (VBool (negb (truthy old))));
        modify (withUsers (VArr (<[i := user']> l)));;
        us' ← get users;
        safeSetLocalStorage "blogUsers" us';;
        showNotification (MsgUserLocked username (negb (truthy old))) Success 3000 true
    end.

(** ** Loading, the login status and the reset
       (lines 184-210, 749-776 and 822-885) *)

(** [loadAllDataSafe()]: the four reads are made before any field of [this]
    is assigned; the result is the [success] flag. *)
Definition loadAllDataSafe : M bool :=
  tryCatch
    (arts ← safeGetLocalStorage "blogArticles" (VArr []);
     us ← safeGetLocalStorage "blogUsers" (VArr []);
     cs ← safeGetLocalStorage "blogComments" (VArr []);
     cu ← safeGetLocalStorage "blogUser" VNull;
     modify (withArticles arts);;
     modify (withUsers us);;
     modify (withComments cs);;
     modify (withCurrentUser cu);;
     (* the [console.log] of line 201 reads the three lengths *)
     lift (getProp arts "length");;
     lift (getProp us "length");;
     lift (getProp cs "length");;
     mret true)
    (mret false).

(** [this.currentUser = null; await this.safeSetLocalStorage('blogUser', null)] *)
Definition clearSession : M unit :=
  modify (withCurrentUser VNull);;
  safeSetLocalStorage "blogUser" VNull;;
  mret tt.

(** The readings of the clock one run of [checkLoginStatus] can make. *)
Record StatusClock := {
  statusAdminAt : Z;  (* line 2120, reached from line 832 *)
  validateAt : Z;     (* line 1012 *)
  expiryCheckAt : Z   (* line 848 *)
}.

(** [now > v] *)
Definition nowAfter (now : Z) (v : value) : outcome bool :=
  match v with
  | VNum n => Ok (n <? now)
  | _ => Unmodelled
  end.

(** [a === b] where [b] is a string. *)
Definition sameString (a b : value) : bool :=
  match a, b with
  | VStr s, VStr s' => bool_decide (s = s')
  | VIso t, VIso t' => t =? t'
  | _, _ => false
  end.

(** The callback [user => user.username === storedUser.username] *)
Definition sameName (storedUser user : value) : outcome bool :=
  n ← getProp user "username";
  m ← getProp storedUser "username";
  Ok (sameString n m).

(** [checkLoginStatus()] *)
Definition checkLoginStatus (c : StatusClock) : M unit :=
  us ← safeGetLocalStorage "blogUsers" (VArr []);
  modify (withUsers us);;
  hasAdmin ← lift (someOf (propIs "username" "zcr") us);
  (if hasAdmin : bool then mret tt
   else initializeAdminAccount (statusAdminAt c);;
        us' ← safeGetLocalStorage "blogUsers" (VArr []);
        modify (withUsers us'));;
  storedUser ← safeGetLocalStorage "blogUser" VNull;
  isValidUser ← lift (validateUserObject (validateAt c) storedUser);
  if isValidUser : bool then
    sessionExpiry ← lift (getProp storedUser "sessionExpiry");
    expired ← lift (if truthy sessionExpiry
                    then nowAfter (expiryCheckAt c) sessionExpiry
                    else Ok false);
    if expired : bool then
      clearSession;;
      showNotification MsgSessionExpired Info 4000 true
    else
      us'' ← get users;
      userExists ← lift (someOf (sameName storedUser) us'');
      if userExists : bool then
        modify (withCurrentUser storedUser);;
        showSectionHome
      else clearSession
  else clearSession.

(** [resetAllData()]; [adminAt] is the clock of line 2120. *)
Definition resetAllData (adminAt : Z) (c : StatusClock) : M unit :=
  tryCatch
    (removeItem "blogUser";;
     removeItem "blogUsers";;
     removeItem "blogArticles";;
     removeItem "blogComments";;
     modify (withCurrentUser VNull);;
     modify (withUsers (VArr []));;
     modify (withArticles (VArr []));;
     modify (withComments (VArr []));;
     loadAllDataSafe;;
     initializeAdminAccount adminAt;;
     checkLoginStatus c;;
     showNotification MsgDataReset Info 4000 true)
    (showNotification MsgDataResetFailed Error 5000 true).

(** ** The check of the view statistics (lines 1074-1106) *)

(** The loop of lines 1080-1085: the array as the loop leaves it, and the
    number of articles it repaired unless an entry makes it throw. *)
Fixpoint repairViews (l : list value) : list value * outcome nat :=
  match l with
  | [] => ([], Ok 0%nat)
  | article :: l' =>
      match getProp article "views" with
      | Ok (VUndefined | VNull) =>
          match setProp article "views" (VNum 0) with
          | Ok article' =>
              let '(r, n) := repairViews l' in (article' :: r, k ← n; Ok (S k))
          | Throw => (l, Throw)
          | Unmodelled => (l, Unmodelled)
          end
      | Ok _ => let '(r, n) := repairViews l' in (article :: r, n)
      | Throw => (l, Throw)
      | Unmodelled => (l, Unmodelled)
      end
  end.

(** [l.reduce((sum, a) => sum + (a.views || 0), sum)] where every sum is a
    number and exact. *)
Fixpoint totalViews (sum : Z) (l : list value) : outcome Z :=
  match l with
  | [] => Ok sum
  | a :: l' =>
      v ← getProp a "views";
      match jsOr v (VNum 0) with
      | VNum n =>
          if exact n && exact (sum + n) then totalViews (sum + n) l'
          else Unmodelled
      | _ => Unmodelled
      end
  end.

(** [validateViewStats()]; [displayed] is what [parseInt] reads in the
    element 'total-views' ([None] for [NaN]).  The result is the number of
    issues it returns and the total the element holds afterwards. *)
Definition validateViewStats (displayed : option Z) : M (nat * Z) :=
  arts ← get articles;
  l ← lift (arrayOf arts);
  let '(l', repaired) := repairViews l in
  modify (withArticles (VArr l'));;
  missing ← lift repaired;
  totalFromArticles ← lift (totalViews 0 l');
  let mismatch :=
    negb (match displayed with
          | Some totalFromStats => totalFromArticles =? totalFromStats
          | None => false
          end) in
  let issues := (missing + (if mismatch then 1 else 0))%nat in
  (if (0 <? issues)%nat
   then showNotification (MsgViewStatsIssues issues) Warning 5000 true
   else mret tt);;
  mret (issues, totalFromArticles).

(** ** Registration (lines 2222-2324) *)

Definition isDigit (a : Ascii.ascii) : bool :=
  let n := Ascii.nat_of_ascii a in
  bool_decide (48 ≤ n ≤ 57)%nat.

Definition isLetter (a : Ascii.ascii) : bool :=
  let n := Ascii.nat_of_ascii a in
  bool_decide ((65 ≤ n ≤ 90) ∨ (97 ≤ n ≤ 122))%nat.

Fixpoint allChars (p : Ascii.ascii → bool) (s : string) : bool :=
  match s with
  | "" => true
  | String a s' => p a && allChars p s'
  end.

Fixpoint someChar (p : Ascii.ascii → bool) (s : string) : bool :=
  match s with
  | "" => false
  | String a s' => p a || someChar p s'
  end.

(** The pattern [^[a-zA-Z0-9_]+$] *)
Definition wordOnly (s : string) : bool :=
  negb (bool_decide (s = ""))
  && allChars (fun a => isLetter a || isDigit a || bool_decide (a = "_"%char)) s.

(** What [.*] can run over from the start of [s]: [.] matches no line
    terminator. *)
Fixpoint firstLine (s : string) : string :=
  match s with
  | "" => ""
  | String a s' =>
      let n := Ascii.nat_of_ascii a in
      if bool_decide (n = 10 ∨ n = 13)%nat then "" else String a (firstLine s')
  end.

(** The pattern [^(?=.*[a-zA-Z])(?=.*\d)] *)
Definition letterAndDigit (password : string) : bool :=
  someChar isLetter (firstLine password) && someChar isDigit (firstLine password).

(** The record of lines 2294-2304. *)
Definition newUserRecord (newId : string) (now : Z)
    (username email password : string) : value :=
  VObj [("id", VStr newId);
        ("username", VStr username);
        ("email", VStr email);
        ("password", VStr (hashPassword password));
        ("isAdmin", VBool false);
        ("createdAt", VIso now);
        ("lastLogin", VNull);
        ("loginAttempts", VNum 0);
        ("lockedUntil", VNull)].

(** The session of lines 2309-2315: it has no [sessionExpiry]. *)
Definition registeredSession (newId : string) (now : Z) (username email : string)
  : value :=
  VObj [("id", VStr newId);
        ("username", VStr username);
        ("isAdmin", VBool false);
        ("email", VStr email);
        ("loginTime", VIso now)].

(** [handleRegisterScreen()]; the last four arguments are the values of the
    four input fields, [newId] is what [generateId()] returns, [createdNow]
    and [loginNow] are the clock at lines 2300 and 2314. *)
Definition handleRegisterScreen (newId : string) (createdNow loginNow : Z)
    (usernameValue emailValue password confirmPassword : string) : M unit :=
  let username := trim usernameValue in
  let email := trim emailValue in
  if bool_decide (username = "") || bool_decide (email = "")
     || bool_decide (password = "") || bool_decide (confirmPassword = "")
  then showNotification MsgFillAllFields Error 4000 true
  else if (String.length username <? 3)%nat || (20 <? String.length username)%nat
  then showNotification MsgUsernameLength Error 4000 true
  else if negb (wordOnly username)
  then showNotification MsgUsernameChars Error 4000 true
  else if negb (validateEmail email)
  then showNotification MsgInvalidEmail Error 4000 true
  else if (String.length password <? 6)%nat
  then showNotification MsgPasswordTooShort Error 4000 true
  else if negb (letterAndDigit password)
  then showNotification MsgPasswordNeedsLetterDigit Error 4000 true
  else if negb (bool_decide (password = confirmPassword))
  then showNotification MsgPasswordMismatch Error 4000 true
  else
    us ← get users;
    nameTaken ← lift (someOf (propIs "username" username) us);
    if nameTaken : bool
    then showNotification MsgUsernameTaken Error 4000 true
    else
      emailTaken ← lift (someOf (propIs "email" email) us);
      if emailTaken : bool
      then showNotification MsgEmailTaken Error 4000 true
      else
        l ← lift (arrayOf us);
        modify (withUsers
                  (VArr (l ++ [newUserRecord newId createdNow username email password])));;
        us' ← get users;
        safeSetLocalStorage "blogUsers" us';;
        let session := registeredSession newId loginNow username email in
        modify (withCurrentUser session);;
        safeSetLocalStorage "blogUser" session;;
        showSectionHome;;
        showNotification MsgRegistered Success 3000 true.

(** ** Unlocking in batch (lines 3124-3144) *)

(** One turn of the [forEach] of lines 3132-3137. *)
Definition unlockOne (username : string) : M unit :=
  us ← get users;
  l ← lift (arrayOf us);
  found ← lift (findRef (propIs "username" username) l);
  match found with
  | Some (i, user) =>
      user' ← lift (setProp user "isLocked" (VBool false));
      modify (withUsers (VArr (<[i := user']> l)))
  | None => mret tt
  end.

(** [batchUnlockUsers()] *)
Definition batchUnlockUsers (selectedUsers : list string) (confirmed : bool)
  : M unit :=
  match selectedUsers with
  | [] => showNotification MsgSelectUsersToUnlock Warning 3000 true
  | _ =>
      if confirmed then
        forEach unlockOne selectedUsers;;
        us ← get users;
        safeSetLocalStorage "blogUsers" us;;
        showNotification (MsgUsersUnlocked (length selectedUsers)) Success 3000 true
      else mret tt
  end.

(** ** Articles (lines 1315-1329, 1488-1601 and 1721-1805) *)

(** [deleteArticle(articleId)]; [confirmed] is the answer to [confirm]. *)
Definition deleteArticle (confirmed : bool) (articleId : string) : M unit :=
  if confirmed then
    arts ← get articles;
    l ← lift (arrayOf arts);
    l' ← lift (filter (propIsNot "id" articleId) l);
    modify (withArticles (VArr l'));;
    arts' ← get articles;
    safeSetLocalStorage "blogArticles" arts';;
    showNotification MsgArticleDeleted Success 3000 true;;
    renderMyArticles;;
    renderRecentArticles;;
    updateStats
  else mret tt.


(** The record of lines 1773-1781. *)
Definition newArticle (newId : string) (createdNow updatedNow : Z)
    (title category content : string) : value :=
  VObj [("id", VStr newId);
        ("title", VStr title);
        ("category", VStr category);
        ("content", VStr content);
        ("createdAt", VIso createdNow);
        ("updatedAt", VIso updatedNow);
        ("views", VNum 0)].




(** [this.currentUser?.isAdmin] as a test *)
Definition optionalAdmin (cu : value) : outcome bool :=
  match cu with
  | VUndefined | VNull => Ok false
  | _ => flag ← getProp cu "isAdmin"; Ok (truthy flag)
  end.

(** [syncAllViewDisplays()]; the five calls are made one after the other
    while the array passed to [Promise.all] is built. *)
Definition syncAllViewDisplays (currentFilter searchTerm : string) : M unit :=
  arts ← safeGetLocalStorage "blogArticles" (VArr []);
  modify (withArticles arts);;
  updateStats;;
  renderRecentArticles;;
  renderArticles currentFilter searchTerm;;
  cu ← get currentUser;
  isAdmin ← lift (optionalAdmin cu);
  (if isAdmin : bool then renderMyArticles else mret tt);;
  (if isAdmin : bool then renderAdminDashboard else mret tt).

(** [showArticle(articleId)]; the result is the article the dialog
    displays.  The two clock arguments are those of [incrementViewsSafely],
    [currentFilter] and [searchTerm] the fields of these names. *)
Definition showArticle (lockTimestamp now : Z) (currentFilter searchTerm : string)
    (articleId : string) : M (option value) :=
  arts ← get articles;
  l ← lift (arrayOf arts);
  found ← lift (findRef (propIs "id" articleId) l);
  match found with
  | None =>
      showNotification MsgArticleNotFound Error 5000 true;;
      mret None
  | Some (_, article) =>
      r ← incrementViewsSafely lockTimestamp now articleId;
      let displayArticle := jsOr (updatedArticle r) article in
      (if increased r then syncAllViewDisplays currentFilter searchTerm
       else mret tt);;
      renderComments (VStr articleId);;
      mret (Some displayArticle)
  end.

(** ** The comment form (lines 3330-3395 and 3606-3655) *)

(** The [submit] listener of the comment form; [articleId] is
    [commentForm.dataset.articleId] ([None] for [undefined]), the two
    values are those of the two input fields.  The result tells whether a
    comment was stored. *)
Definition commentFormSubmit (newId : string) (now : Z)
    (articleId : option string) (authorValue contentValue : string) : M bool :=
  match articleId with
  | None => showNotification MsgArticleIdLost Error 5000 true;; mret false
  | Some articleId =>
      if bool_decide (articleId = "")
      then showNotification MsgArticleIdLost Error 5000 true;; mret false
      else
        let author := trim authorValue in
        let content := trim contentValue in
        if bool_decide (author = "")
        then showNotification MsgEnterNickname Error 3000 true;; mret false
        else if bool_decide (content = "")
        then showNotification MsgEnterComment Error 3000 true;; mret false
        else submitComment newId now articleId author content
  end.

(** [parseInt(input.getAttribute('maxlength')) || d]; [maxlength] is what
    [parseInt] reads, [None] for [NaN]. *)
Definition maxLengthOr (d : Z) (maxlength : option Z) : Z :=
  match maxlength with
  | Some n => if n =? 0 then d else n
  | None => d
  end.

(** [validateCommentInput(input)]: the flag it returns. *)
Definition validateCommentInput (inputValue : string) (maxlength : option Z)
  : bool :=
  let value := trim inputValue in
  let n := Z.of_nat (String.length value) in
  if n =? 0 then false
  else if n <? 5 then false
  else if maxLengthOr 500 maxlength <? n then false
  else true.

(** ** The pages of the user table (lines 2876-2881 and 2938-2972) *)

(** [this.currentUserPage || 1]; the field is [undefined] until a page is
    turned. *)
Definition pageOr1 (currentUserPage : option Z) : Z :=
  match currentUserPage with
  | Some p => if p =? 0 then 1 else p
  | None => 1
  end.

Definition pageSize : Z := 10.

(** [Math.ceil(n / pageSize)] *)
Definition totalPages (n : nat) : Z := - ((- Z.of_nat n) / pageSize).

(** [l.slice(start, end)] *)
Definition slice {A} (start stop : Z) (l : list A) : list A :=
  let len := Z.of_nat (length l) in
  let clamp k := if k <? 0 then Z.max (len + k) 0 else Z.min k len in
  take (Z.to_nat (clamp stop - clamp start)) (drop (Z.to_nat (clamp start)) l).

(** The users [renderUsersTable()] shows. *)
Definition usersToShow (currentUserPage : option Z) (l : list value) : list value :=
  let startIndex := (pageOr1 currentUserPage - 1) * pageSize in
  slice startIndex (startIndex + pageSize) l.

(** The range [updateUserPagination()] displays: "start - end of total". *)
Definition pageRange (currentUserPage : option Z) (n : nat) : Z * Z :=
  let currentPage := pageOr1 currentUserPage in
  (if 0 <? Z.of_nat n then (currentPage - 1) * pageSize + 1 else 0,
   Z.min (currentPage * pageSize) (Z.of_nat n)).

(** [changeUserPage(direction)]: the field [currentUserPage] it leaves. *)
Definition changeUserPage (currentUserPage : option Z) (direction : Z) (n : nat)
  : option Z :=
  let newPage := pageOr1 currentUserPage + direction in
  if (1 <=? newPage) && (newPage <=? totalPages n) then Some newPage
  else currentUserPage.

(** ** Vocabulary of the statements *)

(** [v.k] as a value, for statements: [undefined] where the read throws. *)
Definition field (k : string) (v : value) : value :=
  match getProp v k with
  | Ok x => x
  | _ => VUndefined
  end.

(** The lock of line 2014 does not hold: [lockedUntil] is falsy or not
    after the clock. *)
Definition lockElapsed (c : LoginClock) (lockedUntil : value) : Prop :=
  truthy lockedUntil = false ∨
  dateAfter (lockCheckAt c) lockedUntil = Ok false.

(** The lock holds until [t]. *)
Definition lockHolds (c : LoginClock) (lockedUntil : value) (t : Z) : Prop :=
  truthy lockedUntil = true ∧ dateOf lockedUntil = Ok t ∧ lockCheckAt c < t.

(** The user object after a successful login (lines 2028-2030). *)
Definition loggedIn (c : LoginClock) (u : value) : value :=
  match u with
  | VObj fs =>
      VObj (setField "lastLogin" (VIso (lastLoginAt c))
              (setField "lockedUntil" VNull
                 (setField "loginAttempts" (VNum 0) fs)))
  | _ => u
  end.

(** The session object of lines 2032-2039. *)
Definition sessionOf (c : LoginClock) (u : value) : value :=
  VObj [("id", field "id" u);
        ("username", field "username" u);
        ("isAdmin", field "isAdmin" u);
        ("email", field "email" u);
        ("loginTime", VIso (loginTimeAt c));
        ("sessionExpiry", VNum (expiryAt c + day))].

(** The state of a successful login when the home section is about to be
    rendered: the session is open and stored. *)
Definition sessionWorld (c : LoginClock) (w1 : World) (l : list value)
    (i : nat) (user : value) : World :=
  let us := VArr (<[i := loggedIn c user]> l) in
  let session := sessionOf c user in
  mkWorld (articles w1) us (comments w1) session
    (<["blogUser" := stringify session]>
       (<["blogUsers" := stringify us]> (localStorage w1)))
    (sessionStorage w1) (timers w1) (notifications w1).

(** The state a successful login leaves; [sorted] are the articles as the
    rendering of the home section left them. *)
Definition loggedInWorld (c : LoginClock) (w1 : World) (l : list value)
    (i : nat) (user : value) (sorted : list value) : World :=
  let w2 := sessionWorld c w1 l i user in
  withNotifications
    (notifications w1 ++
       [Notice (MsgLoginSuccess (truthy (field "isAdmin" user))) Success 2500 true])
    (withArticles (VArr sorted) w2).




(** The state a refused attempt on a locked account leaves. *)
Definition lockedWorld (c : LoginClock) (w1 : World) (t : Z) : World :=
  withNotifications
    (notifications w1 ++
       [Notice (MsgAccountLocked (ceilMinutes (t - remainingAt c))) Error 0 false])
    w1.

Definition exampleClock : LoginClock :=
  Build_LoginClock 1000 1001 1002 1003 1004 1005 1006 1007 1008.

Definition bob : value :=
  VObj [("id", VStr "u1"); ("username", VStr "bob");
        ("email", VStr "bob@example.org");
        ("password", VStr (hashPassword "secret1"));
        ("isAdmin", VBool false); ("createdAt", VIso 10);
        ("lastLogin", VNull); ("loginAttempts", VNum 0);
        ("lockedUntil", VNull)].

Definition emptyWorld : World :=
  mkWorld (VArr []) (VArr []) (VArr []) VNull ∅ ∅ [] [].

Definition exampleWorld : World :=
  withLocalStorage {["blogUsers" := Json (VArr [adminAccount 0; bob])]} emptyWorld.

(** [v || 0] as a number. *)
Definition numberOrZero (v : value) : option Z :=
  match jsOr v (VNum 0) with
  | VNum n => Some n
  | _ => None
  end.

(** The article with its counter at [n]. *)
Definition withViews (n : Z) (article : value) : value :=
  match article with
  | VObj fs => VObj (setField "views" (VNum n) fs)
  | _ => article
  end.

(** The state [updateViewsWithLock] leaves when it counts a view. *)
Definition countedWorld (w : World) (lockTimestamp : Z) (articleId : string)
    (l : list value) (i : nat) (article' : value) : World :=
  mkWorld (articles w) (users w) (comments w) (currentUser w)
    (<["blogArticles" := stringify (VArr (<[i := article']> l))]>
       (<[lockKey articleId := Json (VNum lockTimestamp)]> (localStorage w)))
    (sessionStorage w) (timers w ++ [lockKey articleId]) (notifications w).

(** The test of line 1417 on the marker of line 1415. *)
Definition viewed (articleId : string) (w : World) : bool :=
  match sessionStorage w !! viewedKey articleId with
  | Some s => negb (bool_decide (s = ""))
  | None => false
  end.

(** What [JSON.parse] can return: no [undefined] inside. *)
Fixpoint isJson (v : value) : bool :=
  match v with
  | VUndefined => false
  | VArr l => forallb isJson l
  | VObj fs => forallb (fun kx => isJson kx.2) fs
  | _ => true
  end.

(** What [safeGetLocalStorage('blogArticles', [])] returns in [w]. *)
Definition storedArticles (w : World) : value :=
  match localStorage w !! "blogArticles" with
  | Some (Json v) => v
  | _ => VArr []
  end.





Definition article1 : value :=
  VObj [("id", VStr "a1"); ("title", VStr "Hello"); ("category", VStr "tech");
        ("content", VStr "First post"); ("createdAt", VIso 5);
        ("views", VNum 7)].

(** One stored article, read 7 times; nothing viewed in this tab yet. *)
Definition viewWorld : World :=
  mkWorld (VArr [article1]) (VArr []) (VArr []) VNull
          {["blogArticles" := Json (VArr [article1])]} ∅ [] [].


Definition isObject (v : value) : bool :=
  match v with
  | VObj _ => true
  | _ => false
  end.

(** [this.currentUser && this.currentUser.isAdmin], as the test reads it. *)
Definition sessionIsAdmin (cu : value) : bool :=
  truthy cu && truthy (field "isAdmin" cu).

(** The comment [submitComment] builds. *)
Definition newComment (newId : string) (now : Z) (articleId author content : string)
    (cu : value) : value :=
  VObj [("id", VStr newId);
        ("articleId", VStr articleId);
        ("author", VStr (trim author));
        ("content", VStr (trim content));
        ("createdAt", VIso now);
        ("isAdmin", if truthy cu then field "isAdmin" cu else cu);
        ("isPinned", VBool false)].

(** The user object after [lockUser] flipped its flag. *)
Definition toggled (u : value) : value :=
  match u with
  | VObj fs => VObj (setField "isLocked" (VBool (negb (truthy (field "isLocked" u)))) fs)
  | _ => u
  end.

(** The state [logoutIf] leaves. *)
Definition loggedOutIf (out : bool) (w : World) : World :=
  if out
  then withLocalStorage (<["blogUser" := stringify VNull]> (localStorage w))
         (withCurrentUser VNull w)
  else w.

(** The state a deletion of the users [gone] leaves; [note] is its final
    notification. *)
Definition deletedWorld (gone : value → bool) (note : notice)
    (l cs : list value) (w : World) : World :=
  let us := VArr (List.filter (fun u => negb (gone (field "username" u))) l) in
  let cms := VArr (List.filter (fun c => negb (gone (field "author" c))) cs) in
  let w1 := loggedOutIf (truthy (currentUser w)
                         && gone (field "username" (currentUser w)))
                        (withComments cms (withUsers us w)) in
  withNotifications (notifications w ++ [note])
    (withLocalStorage
       (<["blogComments" := stringify cms]>
          (<["blogUsers" := stringify us]> (localStorage w1))) w1).

(** One turn of the loop of [batchLockUsers] on the user table. *)
Definition lockStep (l : list value) (name : string) : list value :=
  match findRef (propIs "username" name) l with
  | Ok (Some (i, VObj fs)) => <[i := VObj (setField "isLocked" (VBool true) fs)]> l
  | _ => l
  end.

(** Slot [i] holds the administrator, locked. *)
Definition adminLockedAt (l : list value) (i : nat) : Prop :=
  ∃ x, findRef (propIs "username" "zcr") l = Ok (Some (i, x)) ∧
       field "isLocked" x = VBool true.

Definition adminWorld : World :=
  mkWorld (VArr []) (VArr [adminAccount 0; bob]) (VArr [])
    (VObj [("id", VStr "admin-original"); ("username", VStr "zcr");
           ("isAdmin", VBool true); ("email", VStr "zcr@blog.com");
           ("loginTime", VIso 1006); ("sessionExpiry", VNum (1007 + day))])
    {["blogUsers" := Json (VArr [adminAccount 0; bob])]} ∅ [] [].

(** Two users, nobody logged in. *)
Definition guestWorld : World :=
  mkWorld (VArr []) (VArr [adminAccount 0; bob]) (VArr []) VNull
    {["blogUsers" := Json (VArr [adminAccount 0; bob])]} ∅ [] [].

(** A string of [n] letters. *)
Fixpoint letters (n : nat) : string :=
  match n with
  | O => ""
  | S n' => String "x"%char (letters n')
  end.


(** [bob] locked out until 5000. *)
Definition bobLocked : value :=
  VObj [("id", VStr "u1"); ("username", VStr "bob");
        ("email", VStr "bob@example.org");
        ("password", VStr (hashPassword "secret1"));
        ("isAdmin", VBool false); ("createdAt", VIso 10);
        ("lastLogin", VNull); ("loginAttempts", VNum 5);
        ("lockedUntil", VIso 5000)].

Definition storing (us : list value) : World :=
  withLocalStorage {["blogUsers" := Json (VArr us)]} emptyWorld.

(** The clock of [exampleClock], two hours later. *)
Definition laterClock : LoginClock :=
  Build_LoginClock 7201000 7201001 7201002 7201003 7201004 7201005 7201006
                   7201007 7201008.

(** The nine clock readings of a login, one millisecond apart from [t]. *)
Definition clockFrom (t : Z) : LoginClock :=
  Build_LoginClock t (t + 1) (t + 2) (t + 3) (t + 4) (t + 5) (t + 6) (t + 7)
                   (t + 8).

(** The state after the administrator locked [bob] with [lockUser]. *)
Definition bobLockedByAdmin : World := (lockUser "bob" adminWorld).2.

(** The administrator is in memory; the stored table is the array [[null]]. *)
Definition nullEntryWorld : World :=
  mkWorld (VArr []) (VArr [adminAccount 0; bob]) (VArr []) VNull
    {["blogUsers" := Json (VArr [VNull])]} ∅ [] [].

(** Memory is empty; the stored table is a [null] followed by two users. *)
Definition nullFirstWorld : World :=
  mkWorld (VArr []) (VArr []) (VArr []) VNull
    {["blogUsers" := Json (VArr [VNull; adminAccount 0; bob])]} ∅ [] [].

Definition nonNull (v : value) : bool :=
  match v with
  | VUndefined | VNull => false
  | _ => true
  end.

(** [l.some(user => user.username === 'zcr')] where it does not throw. *)
Definition hasAdmin (l : list value) : bool :=
  existsb (fun u => eqStr (field "username" u) "zcr") l.

(** The test of line 271 as a boolean. *)
Definition wellFormedUser (u : value) : bool :=
  truthy u && bool_decide (typeOf u = TObject)
  && truthy (field "username" u) && truthy (field "password" u).

(** The repair of lines 249-266 applies. *)
Definition lostUsers (parsed mem : list value) : bool :=
  (bool_decide (parsed = []) && negb (bool_decide (mem = [])))
  || (negb (hasAdmin parsed) && hasAdmin mem).

(** The stored user table is the array [l], every entry passes the test of
    line 271, and the administrator is among them. *)
Definition steadyUsers (w : World) (l : list value) : Prop :=
  localStorage w !! "blogUsers" = Some (Json (VArr l)) ∧
  forallb wellFormedUser l = true ∧
  hasAdmin l = true.

(** What [safeGetLocalStorage(key, [])] returns for a key other than
    'blogUsers'. *)
Definition storedOr (key : string) (w : World) : value :=
  match localStorage w !! key with
  | Some (Json v) => v
  | _ => VArr []
  end.

(** The value is an array: its [length] can be read. *)
Definition isArray (v : value) : bool :=
  match v with
  | VArr _ => true
  | _ => false
  end.

(** [w'] differs from [w] in backup keys of the storage only. *)
Definition sameButBackups (w w' : World) : Prop :=
  ∃ ls, w' = withLocalStorage ls w ∧
        ∀ k, String.prefix "blogDataBackup" k = false →
             ls !! k = localStorage w !! k.

(** The stored tables are as the application leaves them: a well-formed
    user table [l], and arrays (or nothing) for articles and comments. *)
Definition steadyStore (w : World) (l : list value) : Prop :=
  steadyUsers w l ∧
  isArray (storedOr "blogArticles" w) = true ∧
  isArray (storedOr "blogComments" w) = true.

(** *** The articles and their order *)

(** The article has a date the comparator can use. *)
Definition isDated (a : value) : bool :=
  match createdAtOf a with
  | Ok _ => true
  | _ => false
  end.

Definition dateKey (a : value) : Z :=
  match createdAtOf a with
  | Ok t => t
  | _ => 0
  end.

(** What the sort makes of an array of dated articles. *)
Definition sortedNewest (l : list value) : list value :=
  (foldr insertByDate [] ((fun a => (dateKey a, a)) <$> l)).*2.

(** An article as the rendering methods need it: a date the comparator can
    use, and a [title] and a [content] that are strings. *)
Definition isArticle (a : value) : bool :=
  isDated a && isText (field "title" a) && isText (field "content" a).

(** The articles in memory can be rendered, which leaves them as [sorted]. *)
Definition rendersTo (w : World) (sorted : list value) : Prop :=
  ∃ l, articles w = VArr l ∧ forallb isArticle l = true ∧
       sorted = sortedNewest l.

(** [a] may stand before [b] in an array that is sorted newest first. *)
Definition notOlder (a b : value) : Prop := dateKey b <= dateKey a.

(** The articles of [l] that were created at [t], in the order of [l]. *)
Definition datedAt (t : Z) (l : list value) : list value :=
  List.filter (fun a => dateKey a =? t) l.

(** An article created at [t]. *)
Definition articleAt (name : string) (t : Z) : value :=
  VObj [("id", VStr name); ("title", VStr name); ("content", VStr "Text");
        ("createdAt", VIso t)].

(** Four articles, two of them of one time. *)
Definition shelf : list value :=
  [articleAt "a" 10; articleAt "b" 30; articleAt "c" 10; articleAt "d" 20].

(** *** Sessions *)

(** Some entry of [l] has the name of the session [s]. *)
Definition nameIn (s : value) (l : list value) : bool :=
  existsb (fun u => sameString (field "username" u) (field "username" s)) l.

(** The session has no expiry, or one that [now] has not passed. *)
Definition unexpired (now : Z) (s : value) : Prop :=
  truthy (field "sessionExpiry" s) = false ∨
  ∃ n, field "sessionExpiry" s = VNum n ∧ now <= n.

(** Nobody is logged in, in memory and in the storage. *)
Definition loggedOut (l : list value) (w : World) : World :=
  mkWorld (articles w) (VArr l) (comments w) VNull
          (<["blogUser" := Json VNull]> (localStorage w))
          (sessionStorage w) (timers w) (notifications w).

(** What [safeGetLocalStorage('blogUser', null)] returns in [w]. *)
Definition storedSession (w : World) : value :=
  match localStorage w !! "blogUser" with
  | Some (Json v) => v
  | _ => VNull
  end.

(** A session that [checkLoginStatus] accepts; its [loginTime] is a number. *)
Definition numericSession : value :=
  VObj [("id", VStr "u1"); ("username", VStr "bob"); ("isAdmin", VBool false);
        ("email", VStr "bob@example.org"); ("loginTime", VNum 1006);
        ("sessionExpiry", VNum (1007 + day))].

(** [exampleWorld] with [numericSession] stored, and one article in memory. *)
Definition returningWorld : World :=
  mkWorld (VArr [article1]) (VArr []) (VArr []) VNull
    (<["blogUser" := Json numericSession]> (localStorage exampleWorld)) ∅ [] [].

Definition statusClock (t : Z) : StatusClock := Build_StatusClock t (t + 1) (t + 2).

(** A session whose expiry has passed, and one of a user that was deleted. *)
Definition expiredWorld : World :=
  withLocalStorage
    (<["blogUser" := Json numericSession]> (localStorage exampleWorld)) emptyWorld.

Definition orphanWorld : World :=
  withLocalStorage
    (<["blogUser" := Json numericSession]>
       {["blogUsers" := Json (VArr [adminAccount 0])]}) emptyWorld.

(** *** Registration *)

(** The tests of lines 2234-2277 on the four input fields all pass. *)
Definition registrationInputOk
    (usernameValue emailValue password confirmPassword : string) : bool :=
  let username := trim usernameValue in
  let email := trim emailValue in
  negb (bool_decide (username = "") || bool_decide (email = "")
        || bool_decide (password = "") || bool_decide (confirmPassword = ""))
  && negb ((String.length username <? 3)%nat || (20 <? String.length username)%nat)
  && wordOnly username
  && validateEmail email
  && negb (String.length password <? 6)%nat
  && letterAndDigit password
  && bool_decide (password = confirmPassword).

(** Some entry of [l] has the value [s] under the key [k]. *)
Definition taken (k s : string) (l : list value) : bool :=
  existsb (fun u => eqStr (field k u) s) l.

(** The state a registration leaves. *)
Definition registeredWorld (newId : string) (createdNow loginNow : Z)
    (username email password : string) (l sorted : list value) (w : World)
  : World :=
  let us := VArr (l ++ [newUserRecord newId createdNow username email password]) in
  let session := registeredSession newId loginNow username email in
  mkWorld (VArr sorted) us (comments w) session
    (<["blogUser" := stringify session]>
       (<["blogUsers" := stringify us]> (localStorage w)))
    (sessionStorage w) (timers w)
    (notifications w ++ [Notice MsgRegistered Success 3000 true]).

Definition names (l : list value) : list value := List.map (field "username") l.

(** The state of a first visit after the administrator was created. *)
Definition freshWorld : World :=
  mkWorld (VArr []) (VArr [adminAccount 0]) (VArr []) VNull
    {["blogUsers" := Json (VArr [adminAccount 0])]} ∅ [] [].

(** *** Users *)

(** One turn of the loop of [batchUnlockUsers] on the user table. *)
Definition unlockStep (l : list value) (name : string) : list value :=
  match findRef (propIs "username" name) l with
  | Ok (Some (i, VObj fs)) => <[i := VObj (setField "isLocked" (VBool false) fs)]> l
  | _ => l
  end.

(** A user table the store adapter returns as it is, and stores as it is. *)
Definition soundUsers (l : list value) : Prop :=
  forallb isJson l = true ∧ forallb wellFormedUser l = true ∧ hasAdmin l = true.

(** [bob] locked out until 5000 is in memory and in the storage. *)
Definition lockedOutWorld : World :=
  mkWorld (VArr []) (VArr [adminAccount 0; bobLocked]) (VArr []) VNull
    {["blogUsers" := Json (VArr [adminAccount 0; bobLocked])]} ∅ [] [].

(** A user whose password is "Aa1234". *)
Definition alice : value :=
  VObj [("id", VStr "u2"); ("username", VStr "alice");
        ("email", VStr "alice@example.org");
        ("password", VStr (hashPassword "Aa1234"));
        ("isAdmin", VBool false); ("createdAt", VIso 11);
        ("lastLogin", VNull); ("loginAttempts", VNum 0);
        ("lockedUntil", VNull)].

(** The administrator's entry was given another digest. *)
Definition tamperedAdmin : value :=
  VObj [("id", VStr "admin-original"); ("username", VStr "zcr");
        ("password", VStr "1234abcd"); ("isAdmin", VBool true);
        ("email", VStr "zcr@blog.com"); ("createdAt", VIso 0)].

(** The page is one of the pages of a table of [n] users. *)
Definition validPage (currentUserPage : option Z) (n : nat) : Prop :=
  1 <= pageOr1 currentUserPage <= totalPages n.

(** The pages [1], ..., [k]. *)
Definition firstPages (k : nat) : list (option Z) :=
  (fun p : nat => Some (Z.of_nat (S p))) <$> seq 0 k.

(** *** Articles *)

(** The articles whose [id] is not [articleId]. *)
Definition otherArticles (articleId : string) (l : list value) : list value :=
  List.filter (fun a => negb (eqStr (field "id" a) articleId)) l.

(** Two articles in memory, the older first; a guest is looking. *)
Definition article2 : value :=
  VObj [("id", VStr "a2"); ("title", VStr "Again"); ("category", VStr "life");
        ("content", VStr "Second post"); ("createdAt", VIso 9);
        ("views", VNum 0)].

Definition comment1 : value :=
  VObj [("id", VStr "c1"); ("articleId", VStr "a1"); ("author", VStr "Al");
        ("content", VStr "Hi"); ("createdAt", VIso 20); ("isAdmin", VNull);
        ("isPinned", VBool false)].

Definition libraryWorld : World :=
  mkWorld (VArr [article1; article2]) (VArr [adminAccount 0; bob])
    (VArr [comment1]) VNull
    {["blogArticles" := Json (VArr [article1; article2]);
      "blogComments" := Json (VArr [comment1])]} ∅ [] [].




(** The state [incrementViewsSafely] leaves when it counts a view: [m] is
    the memory, [l] the stored collection. *)
Definition viewedWorld (w : World) (lockTimestamp : Z) (articleId : string)
    (m : list value) (j : nat) (l : list value) (i : nat) (article' : value)
  : World :=
  mkWorld (VArr (<[j := article']> m)) (users w) (comments w) (currentUser w)
    (<["blogArticles" := stringify (VArr (<[i := article']> l))]>
       (<[lockKey articleId := Json (VNum lockTimestamp)]> (localStorage w)))
    (<[viewedKey articleId := "true"]> (sessionStorage w))
    (timers w ++ [lockKey articleId]) (notifications w).



(** The counter of the article is missing. *)
Definition lacksViews (a : value) : bool :=
  match field "views" a with
  | VUndefined | VNull => true
  | _ => false
  end.

(** An article whose counter is a number, or is missing. *)
Definition countsViews (a : value) : bool :=
  isObject a &&
  match field "views" a with
  | VNum _ | VUndefined | VNull => true
  | _ => false
  end.

(** The counter of the article is a number. *)
Definition hasViews (a : value) : bool :=
  isObject a && match field "views" a with VNum _ => true | _ => false end.

(** The article after the repair of line 1083. *)
Definition repaired (a : value) : value :=
  if lacksViews a then withViews 0 a else a.

Definition viewsOf (a : value) : Z :=
  match field "views" a with
  | VNum n => n
  | _ => 0
  end.

Definition sumViews (l : list value) : Z := foldr (fun a t => viewsOf a + t) 0 l.

Definition missingViews (l : list value) : nat := length (List.filter lacksViews l).

(** The counter of the article, 0 when it has none, is not negative. *)
Definition viewsNotNegative (a : value) : bool := 0 <=? viewsOf a.

(** The counter of the first article is missing. *)
Definition uncounted : value :=
  VObj [("id", VStr "a0"); ("title", VStr "Draft"); ("category", VStr "tech");
        ("content", VStr "Text"); ("createdAt", VIso 3)].

(** *** The comment form *)

(** The form holds an article, a nickname and a comment of 2 to 1000
    characters, white space at both ends not counted. *)
Definition commentAccepted (articleId : option string)
    (authorValue contentValue : string) : bool :=
  match articleId with
  | Some a =>
      negb (bool_decide (a = "")) && negb (bool_decide (trim authorValue = ""))
      && (2 <=? String.length (trim contentValue))%nat
      && (String.length (trim contentValue) <=? 1000)%nat
  | None => false
  end.

(** The comments of one article, in the order of the collection. *)
Definition commentsOf (articleId : string) (cs : list value) : list value :=
  List.filter (fun c => eqStr (field "articleId" c) articleId) cs.

(** The state a stored comment leaves. *)
Definition postedWorld (new : value) (cs : list value) (w : World) : World :=
  mkWorld (articles w) (users w) (VArr (cs ++ [new])) (currentUser w)
    (<["blogComments" := stringify (VArr (cs ++ [new]))]> (localStorage w))
    (sessionStorage w) (timers w)
    (notifications w ++ [Notice MsgCommentPosted Success 2500 true]).

Definition comment2 : value :=
  VObj [("id", VStr "c2"); ("articleId", VStr "a1"); ("author", VStr "Bo");
        ("content", VStr "Again"); ("createdAt", VIso 21); ("isAdmin", VNull);
        ("isPinned", VBool false)].

(** The administrator is logged in; two comments are in memory. *)
Definition moderatorWorld : World :=
  withComments (VArr [comment1; comment2]) adminWorld.

(** ** Proofs *)

(** *** Values, searches and the monad *)

Lemma lookupField_setField_eq k x fs :
  lookupField k (setField k x fs) = Some x.
Proof.
  induction fs as [|[k' v] fs IH]; simpl.
  - rewrite bool_decide_eq_true_2; done.
  - destruct (bool_decide (k' = k)) eqn:E; simpl.
    + rewrite bool_decide_eq_true_2; done.
    + rewrite E. exact IH.
Qed.

Lemma lookupField_setField_ne k k' x fs :
  k ≠ k' → lookupField k' (setField k x fs) = lookupField k' fs.
Proof.
  intros Hne. induction fs as [|[k0 v] fs IH]; simpl.
  - rewrite bool_decide_eq_false_2; done.
  - destruct (bool_decide (k0 = k)) eqn:E; simpl.
    + apply bool_decide_eq_true_1 in E. subst k0.
      rewrite !bool_decide_eq_false_2; done.
    + destruct (bool_decide (k0 = k')); [done | exact IH].
Qed.

Lemma field_setField_eq k x fs : field k (VObj (setField k x fs)) = x.
Proof. unfold field; simpl. by rewrite lookupField_setField_eq. Qed.

Lemma field_setField_ne k k' x fs :
  k ≠ k' → field k' (VObj (setField k x fs)) = field k' (VObj fs).
Proof. intros. unfold field; simpl. by rewrite lookupField_setField_ne. Qed.

Lemma getProp_obj fs k : getProp (VObj fs) k = Ok (field k (VObj fs)).
Proof. reflexivity. Qed.

Lemma getProp_truthy v k :
  truthy v = true → k ≠ "length" → getProp v k = Ok (field k v).
Proof.
  intros Hv Hk. unfold field.
  destruct v; try done; simpl; by rewrite ?bool_decide_eq_false_2.
Qed.

Lemma getProp_nonNull v k :
  nonNull v = true → k ≠ "length" → getProp v k = Ok (field k v).
Proof.
  intros Hv Hk. unfold field.
  destruct v; try done; simpl; by rewrite ?bool_decide_eq_false_2.
Qed.

Lemma eqStr_true v s : eqStr v s = true → v = VStr s.
Proof.
  destruct v; simpl; try done. intros H. apply bool_decide_eq_true_1 in H.
  by subst.
Qed.

Lemma eqNum_length (l : list value) :
  eqNum (VNum (Z.of_nat (length l))) 0 = bool_decide (l = []).
Proof. by destruct l. Qed.

(** An element whose property [k] is the string [s] is an object. *)
Lemma propIs_true k s x :
  propIs k s x = Ok true → ∃ fs, x = VObj fs ∧ lookupField k fs = Some (VStr s).
Proof.
  unfold propIs. destruct x; simpl; try discriminate.
  - case_bool_decide; simpl; discriminate.
  - case_bool_decide; simpl; discriminate.
  - case_bool_decide; simpl; discriminate.
  - destruct (lookupField k fields) as [v|] eqn:E; simpl; [|discriminate].
    destruct v; simpl; try discriminate.
    case_bool_decide; [|discriminate]. subst. eauto.
Qed.

Lemma propIs_nonNull k s x :
  nonNull x = true → k ≠ "length" → propIs k s x = Ok (eqStr (field k x) s).
Proof. intros Hx Hk. unfold propIs. by rewrite getProp_nonNull. Qed.

Lemma propIs_object k s x :
  isObject x = true → propIs k s x = Ok (eqStr (field k x) s).
Proof. by destruct x. Qed.

Lemma propIsNot_object k s x :
  isObject x = true → propIsNot k s x = Ok (negb (eqStr (field k x) s)).
Proof. by destruct x. Qed.

Lemma propNotIn_object k sel x :
  isObject x = true → propNotIn k sel x = Ok (negb (includes sel (field k x))).
Proof. by destruct x. Qed.

Lemma findRef_Some p l i x :
  findRef p l = Ok (Some (i, x)) → l !! i = Some x ∧ p x = Ok true.
Proof.
  revert i. induction l as [|y l IH]; intros i; simpl; [discriminate|].
  destruct (p y) as [[]| |] eqn:E; simpl; try discriminate.
  - intros [= <- <-]. done.
  - destruct (findRef p l) as [[[j z]|]| |]; simpl; try discriminate.
    intros [= <- <-]. simpl. apply IH. done.
Qed.

Lemma findRef_propIs k s l i x :
  findRef (propIs k s) l = Ok (Some (i, x)) →
  l !! i = Some x ∧ ∃ fs, x = VObj fs ∧ lookupField k fs = Some (VStr s).
Proof.
  intros H. apply findRef_Some in H as [? ?]. split; [done|].
  by apply propIs_true.
Qed.

(** Writing back, into the slot [find] pointed to, an element that still
    satisfies the test leaves the search where it was. *)
Lemma findRef_insert p l i x y :
  findRef p l = Ok (Some (i, x)) → p y = Ok true →
  findRef p (<[i := y]> l) = Ok (Some (i, y)).
Proof.
  revert i. induction l as [|z l IH]; intros i; simpl; [discriminate|].
  destruct (p z) as [[]| |] eqn:E; simpl; try discriminate.
  - intros [= <- <-] Hy. simpl. rewrite Hy. done.
  - destruct (findRef p l) as [[[j z']|]| |] eqn:F; simpl; try discriminate.
    intros [= <- <-] Hy. simpl. rewrite E. simpl.
    rewrite (IH j); [done|done|done].
Qed.

(** Replacing the element of slot [j] by one that answers the test alike
    leaves the search at the same slot. *)
Lemma findRef_insert_keep p l j x y :
  l !! j = Some x → p y = p x →
  findRef p (<[j := y]> l) =
  match findRef p l with
  | Ok (Some (i, z)) => Ok (Some (i, if decide (i = j) then y else z))
  | r => r
  end.
Proof.
  revert j. induction l as [|z l IH]; intros [|j]; simpl; try done.
  - intros [= ->] ->. destruct (p x) as [[]| |]; simpl; try done.
    by destruct (findRef p l) as [[[i z']|]| |].
  - intros Hj Hy. destruct (p z) as [[]| |]; simpl; try done.
    rewrite (IH j Hj Hy).
    destruct (findRef p l) as [[[i z']|]| |]; simpl; try done.
    by destruct (decide (i = j)); destruct (decide (S i = S j)); try lia.
Qed.

Lemma findRef_objects k s l :
  forallb isObject l = true → ∃ r, findRef (propIs k s) l = Ok r.
Proof.
  induction l as [|x l IH]; simpl; [eauto|].
  intros H. apply andb_prop in H as [Hx Hl].
  rewrite (propIs_object _ _ _ Hx). simpl.
  destruct (eqStr _ _); [eauto|].
  destruct (IH Hl) as [r ->]. simpl. eauto.
Qed.

Lemma findRef_filtered_out (gone : value → bool) s l :
  forallb isObject l = true → gone (VStr s) = true →
  findRef (propIs "username" s)
          (List.filter (fun u => negb (gone (field "username" u))) l) = Ok None.
Proof.
  intros Hl Hg. induction l as [|x l IH]; simpl; [done|].
  simpl in Hl. apply andb_prop in Hl as [Hx Hl].
  destruct (gone (field "username" x)) eqn:E; simpl; [by apply IH|].
  rewrite (propIs_object _ _ _ Hx). simpl.
  destruct (eqStr (field "username" x) s) eqn:F.
  - apply eqStr_true in F. congruence.
  - rewrite IH by done. done.
Qed.

(** On a list of objects a callback that reads a property never throws. *)
Lemma filter_objects (f : value → bool) (p : value → outcome bool) l :
  (∀ x, isObject x = true → p x = Ok (f x)) →
  forallb isObject l = true →
  JS.filter p l = Ok (List.filter f l).
Proof.
  intros Hp. induction l as [|x l IH]; simpl; [done|].
  intros H. apply andb_prop in H as [Hx Hl].
  rewrite (Hp x Hx). simpl. rewrite (IH Hl). simpl.
  by destruct (f x).
Qed.

Lemma isObject_insert l i x :
  forallb isObject l = true → isObject x = true →
  forallb isObject (<[i := x]> l) = true.
Proof.
  revert i. induction l as [|y l IH]; intros [|i]; simpl; try done.
  - intros H Hx. apply andb_prop in H as [_ H]. by rewrite Hx.
  - intros H Hx. apply andb_prop in H as [-> H]. simpl. by apply IH.
Qed.

Lemma jsonOf_isJson v : isJson v = true → jsonOf v = Some v.
Proof.
  revert v. fix IH 1. intros [| | | | | |l|fs]; simpl; try done.
  - intros H. do 2 f_equal.
    induction l as [|x l IHl]; simpl in *; [done|].
    apply andb_prop in H as [Hx Hl].
    rewrite (IH x Hx). simpl. f_equal. by apply IHl.
  - intros H. do 2 f_equal.
    induction fs as [|[k x] fs IHfs]; simpl in *; [done|].
    apply andb_prop in H as [Hx Hl].
    rewrite (IH x Hx). f_equal. by apply IHfs.
Qed.

Lemma stringify_isJson v : isJson v = true → stringify v = Json v.
Proof. intros H. unfold stringify. by rewrite jsonOf_isJson. Qed.


Lemma isJson_lookup l i x :
  forallb isJson l = true → l !! i = Some x → isJson x = true.
Proof.
  revert i. induction l as [|y l IH]; intros [|i]; simpl; try done.
  - intros H [= ->]. by apply andb_prop in H as [? _].
  - intros H. apply andb_prop in H as [_ H]. by apply IH.
Qed.

Lemma isJson_setField k x fs :
  forallb (fun kx => isJson kx.2) fs = true → isJson x = true →
  forallb (fun kx => isJson kx.2) (setField k x fs) = true.
Proof.
  intros H Hx. induction fs as [|[k' y] fs IH]; simpl in *.
  - by rewrite Hx.
  - apply andb_prop in H as [Hy H].
    destruct (bool_decide (k' = k)); simpl.
    + by rewrite Hx, H.
    + by rewrite Hy, IH.
Qed.

Lemma trimEnd_idem s : trimEnd (trimEnd s) = trimEnd s.
Proof.
  induction s as [|a s IH]; simpl; [done|].
  destruct (isSpace a && bool_decide (trimEnd s = "")) eqn:E; [done|].
  simpl. rewrite IH, E. done.
Qed.

Lemma trimStart_head s :
  trimStart s = "" ∨ ∃ a r, trimStart s = String a r ∧ isSpace a = false.
Proof.
  induction s as [|a s IH]; simpl; [by left|].
  destruct (isSpace a) eqn:E; [done|]. right. eauto.
Qed.

Lemma trimStart_trimEnd a r :
  isSpace a = false → trimStart (trimEnd (String a r)) = trimEnd (String a r).
Proof. intros E. simpl. rewrite E. simpl. by rewrite E. Qed.

Lemma trim_idem s : trim (trim s) = trim s.
Proof.
  unfold trim. destruct (trimStart_head s) as [-> | (a & r & -> & E)]; [done|].
  rewrite trimStart_trimEnd by done. apply trimEnd_idem.
Qed.

(** The digest of the administrator's password. *)
Example hashPassword_admin : hashPassword "20120508" = "746573d4".
Proof. reflexivity. Qed.

Lemma run_bind {A B} (m : M A) (f : A → M B) w a w' :
  m w = (Ok a, w') → (m ≫= f) w = f a w'.
Proof. intros H. unfold mbind, M_bind. by rewrite H. Qed.

Lemma bind_lift {A B} (o : outcome A) (f : A → M B) w a :
  o = Ok a → (lift o ≫= f) w = f a w.
Proof. intros ->. reflexivity. Qed.

Ltac mrun :=
  unfold mbind, mret, M_bind, M_ret, outcome_bind, outcome_ret, lift, get, modify;
  cbn -[stringify setField].

Lemma withUsers_id w : withUsers (users w) w = w.
Proof. by destruct w. Qed.

Lemma withLocalStorage_id w : withLocalStorage (localStorage w) w = w.
Proof. by destruct w. Qed.

(** *** The monad, one step at a time *)

Lemma bind_get {A B} (f : World → A) (k : A → M B) w :
  (get f ≫= k) w = k (f w) w.
Proof. reflexivity. Qed.

Lemma bind_modify {B} (f : World → World) (k : unit → M B) w :
  (modify f ≫= k) w = k tt (f w).
Proof. reflexivity. Qed.

Lemma bind_ret {A B} (a : A) (k : A → M B) w : (mret a ≫= k) w = k a w.
Proof. reflexivity. Qed.

Lemma bind_bind {A B C} (m : M A) (f : A → M B) (g : B → M C) w :
  ((m ≫= f) ≫= g) w = (m ≫= (fun a => f a ≫= g)) w.
Proof.
  unfold mbind, M_bind. destruct (m w) as [[a| |] w']; reflexivity.
Qed.

Lemma bind_notify {B} m t d a (k : unit → M B) w :
  (showNotification m t d a ≫= k) w
  = k tt (withNotifications (notifications w ++ [Notice m t d a]) w).
Proof. reflexivity. Qed.

Lemma bind_set {B} key v (k : bool → M B) w :
  (safeSetLocalStorage key v ≫= k) w
  = k true (withLocalStorage (<[key := stringify v]> (localStorage w)) w).
Proof. reflexivity. Qed.

Ltac mstep :=
  repeat first
    [ rewrite bind_bind | rewrite bind_get | rewrite bind_modify
    | rewrite bind_ret | rewrite bind_notify | rewrite bind_set ].

Lemma bind_remove {B} key (k : unit → M B) w :
  (removeItem key ≫= k) w
  = k tt (withLocalStorage (delete key (localStorage w)) w).
Proof. reflexivity. Qed.

(** *** Rendering *)

Lemma insertByDate_perm x l : insertByDate x l ≡ₚ x :: l.
Proof.
  induction l as [|y l IH]; cbn [insertByDate]; [done|].
  destruct (y.1 <=? x.1); [done|].
  rewrite IH. apply Permutation_swap.
Qed.

Lemma sortByDate_perm (k : list (Z * value)) : foldr insertByDate [] k ≡ₚ k.
Proof.
  induction k as [|x k IH]; cbn [foldr]; [done|].
  by rewrite insertByDate_perm, IH.
Qed.

Lemma sortedNewest_perm l : sortedNewest l ≡ₚ l.
Proof.
  unfold sortedNewest. rewrite sortByDate_perm.
  rewrite <- list_fmap_compose. by rewrite list_fmap_id.
Qed.

Lemma keysOf_dated l :
  forallb isDated l = true → keysOf l = Ok ((fun a => (dateKey a, a)) <$> l).
Proof.
  induction l as [|a l IH]; cbn [forallb keysOf fmap list_fmap]; [done|].
  intros H. apply andb_prop in H as [Ha Hl]. rewrite (IH Hl).
  unfold isDated, dateKey in *. by destruct (createdAtOf a).
Qed.

Lemma sortedNewest_short l : (length l < 2)%nat → sortedNewest l = l.
Proof. destruct l as [|a [|b l]]; cbn [length]; [done|done|lia]. Qed.

Lemma newestFirst_dated l :
  forallb isDated l = true → newestFirst l = Ok (sortedNewest l).
Proof.
  intros H. unfold newestFirst.
  destruct (length l <? 2)%nat eqn:E.
  - apply Nat.ltb_lt in E. by rewrite sortedNewest_short.
  - by rewrite keysOf_dated.
Qed.

Lemma sortArticles_spec w l :
  articles w = VArr l → forallb isDated l = true →
  sortArticles w = (Ok tt, withArticles (VArr (sortedNewest l)) w).
Proof.
  intros Ha Hl. unfold sortArticles. mstep. rewrite Ha.
  rewrite (bind_lift _ _ _ l) by done.
  rewrite (bind_lift _ _ _ _ (newestFirst_dated _ Hl)). reflexivity.
Qed.

Lemma isDated_object a : isDated a = true → isObject a = true.
Proof.
  unfold isDated, createdAtOf. by destruct a.
Qed.

Lemma dated_objects l : forallb isDated l = true → forallb isObject l = true.
Proof.
  induction l as [|a l IH]; simpl; [done|].
  intros H. apply andb_prop in H as [Ha Hl].
  by rewrite (isDated_object _ Ha), IH.
Qed.

Lemma forallb_perm {A} (p : A → bool) l l' :
  l ≡ₚ l' → forallb p l = forallb p l'.
Proof.
  induction 1; simpl; try congruence.
  - by rewrite !andb_assoc, (andb_comm (p y)).
Qed.

Lemma sortedNewest_dated l :
  forallb isDated l = true → forallb isDated (sortedNewest l) = true.
Proof. intros H. by rewrite (forallb_perm _ _ _ (sortedNewest_perm l)). Qed.

Lemma insertByDate_sorted x k :
  StronglySorted (fun p q : Z * value => q.1 <= p.1) k →
  StronglySorted (fun p q : Z * value => q.1 <= p.1) (insertByDate x k).
Proof.
  induction 1 as [|y k Hk IH Hy]; cbn [insertByDate].
  - by repeat constructor.
  - destruct (y.1 <=? x.1) eqn:E.
    + apply Z.leb_le in E. constructor; [by constructor|].
      constructor; [done|]. eapply Forall_impl; [exact Hy|].
      intros q Hq; cbn in *. lia.
    + apply Z.leb_gt in E. constructor; [done|].
      rewrite insertByDate_perm. constructor; [lia|done].
Qed.

Lemma sortByDate_sorted (k : list (Z * value)) :
  StronglySorted (fun p q : Z * value => q.1 <= p.1) (foldr insertByDate [] k).
Proof.
  induction k as [|x k IH]; cbn [foldr]; [constructor|].
  by apply insertByDate_sorted.
Qed.

Lemma insertByDate_stable t x k :
  List.filter (fun p : Z * value => p.1 =? t) (insertByDate x k)
  = List.filter (fun p : Z * value => p.1 =? t) (x :: k).
Proof.
  induction k as [|y k IH]; cbn [insertByDate]; [done|].
  destruct (y.1 <=? x.1) eqn:E; [done|]. apply Z.leb_gt in E.
  cbn [List.filter] in *. rewrite IH.
  destruct (x.1 =? t) eqn:Ex, (y.1 =? t) eqn:Ey; try done.
  apply Z.eqb_eq in Ex, Ey. lia.
Qed.

Lemma sortByDate_stable t (k : list (Z * value)) :
  List.filter (fun p : Z * value => p.1 =? t) (foldr insertByDate [] k)
  = List.filter (fun p : Z * value => p.1 =? t) k.
Proof.
  induction k as [|x k IH]; cbn [foldr]; [done|].
  rewrite insertByDate_stable. cbn [List.filter]. by rewrite IH.
Qed.

Lemma keyed_sorted (k : list (Z * value)) :
  Forall (fun p => p.1 = dateKey p.2) k →
  StronglySorted (fun p q : Z * value => q.1 <= p.1) k →
  StronglySorted notOlder k.*2.
Proof.
  intros Hk. induction 1 as [|y k Hs IH Hy]; cbn [fmap list_fmap]; [constructor|].
  apply Forall_cons in Hk as [Hy1 Hk]. constructor; [by apply IH|].
  apply Forall_fmap. rewrite Forall_forall in *. intros q Hq. unfold notOlder.
  cbn. rewrite <- Hy1, <- (Hk q Hq). by apply Hy.
Qed.

Lemma keyed_filter t (k : list (Z * value)) :
  Forall (fun p => p.1 = dateKey p.2) k →
  datedAt t k.*2 = (List.filter (fun p : Z * value => p.1 =? t) k).*2.
Proof.
  unfold datedAt.
  induction 1 as [|y k Hy Hk IH]; cbn [fmap list_fmap List.filter]; [done|].
  rewrite <- Hy. destruct (y.1 =? t); cbn [fmap list_fmap]; by rewrite IH.
Qed.

Lemma keyed_dates l :
  Forall (fun p : Z * value => p.1 = dateKey p.2) ((fun a => (dateKey a, a)) <$> l).
Proof. apply Forall_fmap. by apply Forall_true. Qed.

Lemma keyed_values l : ((fun a => (dateKey a, a)) <$> l).*2 = l.
Proof. rewrite <- list_fmap_compose. by rewrite list_fmap_id. Qed.

Lemma sortedNewest_sorted l : StronglySorted notOlder (sortedNewest l).
Proof.
  unfold sortedNewest. apply keyed_sorted; [|apply sortByDate_sorted].
  rewrite sortByDate_perm. apply keyed_dates.
Qed.

Lemma sortedNewest_stable t l : datedAt t (sortedNewest l) = datedAt t l.
Proof.
  unfold sortedNewest. rewrite keyed_filter.
  2:{ rewrite sortByDate_perm. apply keyed_dates. }
  rewrite sortByDate_stable, <- keyed_filter by apply keyed_dates.
  by rewrite keyed_values.
Qed.

(** A sorted array is left as it is. *)
Lemma insertByDate_head x (k : list (Z * value)) :
  Forall (fun y => y.1 <= x.1) k → insertByDate x k = x :: k.
Proof.
  destruct 1 as [|y k Hy _]; cbn [insertByDate]; [done|].
  by rewrite (proj2 (Z.leb_le _ _) Hy).
Qed.

Lemma sortByDate_id (k : list (Z * value)) :
  StronglySorted (fun p q : Z * value => q.1 <= p.1) k →
  foldr insertByDate [] k = k.
Proof.
  induction 1 as [|x k Hk IH Hx]; cbn [foldr]; [done|].
  rewrite IH. by apply insertByDate_head.
Qed.

Lemma keyed_back (k : list (Z * value)) :
  Forall (fun p => p.1 = dateKey p.2) k →
  (fun a => (dateKey a, a)) <$> k.*2 = k.
Proof.
  induction 1 as [|[t a] k Hy Hk IH]; cbn [fmap list_fmap]; [done|].
  cbn [fst snd] in *. subst t. f_equal. exact IH.
Qed.

Lemma sortedNewest_idem l : sortedNewest (sortedNewest l) = sortedNewest l.
Proof.
  unfold sortedNewest. rewrite keyed_back.
  - by rewrite sortByDate_id by apply sortByDate_sorted.
  - rewrite sortByDate_perm. apply keyed_dates.
Qed.

(** Articles can be rendered. *)
Lemma isArticle_dated a : isArticle a = true → isDated a = true.
Proof. unfold isArticle. intros H. by repeat apply andb_prop in H as [H _]. Qed.

Lemma isArticle_object a : isArticle a = true → isObject a = true.
Proof. intros H. by apply isDated_object, isArticle_dated. Qed.

Lemma forallb_impl {A} (p q : A → bool) l :
  (∀ x, p x = true → q x = true) → forallb p l = true → forallb q l = true.
Proof.
  intros Hpq. induction l as [|x l IH]; cbn [forallb]; [done|].
  intros H. apply andb_prop in H as [Hx Hl]. by rewrite (Hpq x Hx), IH.
Qed.

Lemma articles_dated l : forallb isArticle l = true → forallb isDated l = true.
Proof. apply forallb_impl, isArticle_dated. Qed.

Lemma articles_objects l : forallb isArticle l = true → forallb isObject l = true.
Proof. apply forallb_impl, isArticle_object. Qed.

Lemma objects_nonNull l : forallb isObject l = true → forallb nonNull l = true.
Proof. apply forallb_impl. by intros []. Qed.

Lemma forallb_take {A} (p : A → bool) n l :
  forallb p l = true → forallb p (take n l) = true.
Proof.
  revert n. induction l as [|x l IH]; intros [|n]; cbn [forallb take]; try done.
  intros H. apply andb_prop in H as [-> Hl]. by rewrite IH.
Qed.

Lemma forallb_filter {A} (p f : A → bool) l :
  forallb p l = true → forallb p (List.filter f l) = true.
Proof.
  induction l as [|x l IH]; cbn [forallb List.filter]; [done|].
  intros H. apply andb_prop in H as [Hx Hl].
  destruct (f x); cbn [forallb]; by rewrite ?Hx, IH.
Qed.

Lemma sortedNewest_articles l :
  forallb isArticle l = true → forallb isArticle (sortedNewest l) = true.
Proof. intros H. by rewrite (forallb_perm _ _ _ (sortedNewest_perm l)). Qed.

Lemma each_forallb (p : value → bool) f l :
  (∀ x, p x = true → f x = Ok tt) → forallb p l = true → each f l = Ok tt.
Proof.
  intros Hf. induction l as [|x l IH]; cbn [forallb each]; [done|].
  intros H. apply andb_prop in H as [Hx Hl]. by rewrite (Hf x Hx), IH.
Qed.

Lemma read_nonNull k x : k ≠ "length" → nonNull x = true → read k x = Ok tt.
Proof. intros Hk Hx. unfold read. by rewrite getProp_nonNull. Qed.

Lemma each_read k l :
  k ≠ "length" → forallb nonNull l = true → each (read k) l = Ok tt.
Proof. intros Hk. apply each_forallb. intros x. by apply read_nonNull. Qed.

Lemma createArticleCard_article a :
  isArticle a = true → createArticleCard a = Ok tt.
Proof.
  intros H. pose proof (isArticle_object _ H) as Ho.
  destruct a as [| | | | | | |fs]; try done.
  unfold isArticle in H. apply andb_prop in H as [_ Hc].
  unfold createArticleCard, read. rewrite !getProp_obj.
  change (Ok (field "createdAt" (VObj fs)) ≫= (fun _ => Ok tt)) with (Ok tt).
  cbn [mbind outcome_bind]. unfold mbind, outcome_bind. by rewrite Hc.
Qed.

Lemma each_cards l :
  forallb isArticle l = true → each createArticleCard l = Ok tt.
Proof. apply each_forallb, createArticleCard_article. Qed.

Lemma searchable_article a : isArticle a = true → searchable a = true.
Proof.
  intros H. pose proof (isArticle_object _ H) as Ho.
  destruct a as [| | | | | | |fs]; try done.
  unfold isArticle in H. apply andb_prop in H as [H Hc].
  apply andb_prop in H as [Hd Ht].
  unfold searchable. rewrite !getProp_obj. unfold isDated in Hd.
  destruct (createdAtOf (VObj fs)); try done. by rewrite Ht, Hc.
Qed.

Lemma withArticles_id w : withArticles (articles w) w = w.
Proof. by destruct w. Qed.

Lemma updateStats_spec w l :
  articles w = VArr l → forallb nonNull l = true → updateStats w = (Ok tt, w).
Proof.
  intros Ha Hl. unfold updateStats. mstep. rewrite Ha.
  rewrite (bind_lift _ _ _ l) by done.
  rewrite (bind_lift _ _ _ tt) by (by apply each_read).
  unfold lift. by rewrite each_read.
Qed.

Lemma renderRecentArticles_spec w l :
  articles w = VArr l → forallb isArticle l = true →
  renderRecentArticles w = (Ok tt, withArticles (VArr (sortedNewest l)) w).
Proof.
  intros Ha Hl. unfold renderRecentArticles.
  erewrite run_bind; [|by apply sortArticles_spec, articles_dated].
  mstep. cbn [articles withArticles].
  rewrite (bind_lift _ _ _ (sortedNewest l)) by done.
  unfold lift. by rewrite each_cards by by apply forallb_take, sortedNewest_articles.
Qed.

Lemma showSectionHome_spec w sorted :
  rendersTo w sorted →
  showSectionHome w = (Ok tt, withArticles (VArr sorted) w).
Proof.
  intros (l & Ha & Hl & ->). unfold showSectionHome.
  erewrite run_bind; [|by apply renderRecentArticles_spec].
  apply (updateStats_spec _ (sortedNewest l)); [done|].
  by apply objects_nonNull, articles_objects, sortedNewest_articles.
Qed.

(** What was rendered can be rendered again, and stays as it is. *)
Lemma rendersTo_again w w' sorted :
  rendersTo w sorted → articles w' = VArr sorted → rendersTo w' sorted.
Proof.
  intros (l & Ha & Hl & ->) Ha'. exists (sortedNewest l).
  split; [done|]. split; [by apply sortedNewest_articles|].
  by rewrite sortedNewest_idem.
Qed.

Lemma rendersTo_articles w w' sorted :
  articles w' = articles w → rendersTo w sorted → rendersTo w' sorted.
Proof. intros E (l & Ha & H). exists l. by rewrite E. Qed.


Lemma renderMyArticles_spec w l :
  articles w = VArr l → forallb isArticle l = true →
  renderMyArticles w = (Ok tt, withArticles (VArr (sortedNewest l)) w).
Proof.
  intros Ha Hl. unfold renderMyArticles. mstep. rewrite Ha.
  rewrite (bind_lift _ _ _ l) by done.
  destruct l as [|a l'].
  { unfold mret, M_ret. change (sortedNewest []) with (@nil value).
    by rewrite <- Ha, withArticles_id. }
  set (l := a :: l') in *.
  erewrite run_bind; [|by apply sortArticles_spec, articles_dated].
  mstep. cbn [articles withArticles].
  rewrite (bind_lift _ _ _ (sortedNewest l)) by done.
  unfold lift. rewrite each_read; [done..|].
  by apply objects_nonNull, articles_objects, sortedNewest_articles.
Qed.

Lemma renderArticles_spec currentFilter searchTerm w l :
  articles w = VArr l → forallb isArticle l = true →
  renderArticles currentFilter searchTerm w =
  (Ok tt,
   if bool_decide (currentFilter = "all") && bool_decide (searchTerm = "")
   then withArticles (VArr (sortedNewest l)) w else w).
Proof.
  intros Ha Hl. unfold renderArticles.
  destruct (bool_decide (currentFilter = "all") && bool_decide (searchTerm = ""))
    eqn:E.
  - erewrite run_bind; [|by apply sortArticles_spec, articles_dated].
    mstep. cbn [articles withArticles].
    rewrite (bind_lift _ _ _ (sortedNewest l)) by done.
    unfold lift, createArticleListItem.
    by rewrite each_cards by by apply sortedNewest_articles.
  - mstep. rewrite Ha. rewrite (bind_lift _ _ _ l) by done.
    set (kept := if bool_decide (currentFilter = "all") then l
                 else List.filter (fun a => eqStr (field "category" a) currentFilter) l).
    assert (forallb isArticle kept = true) as Hk.
    { unfold kept. destruct (bool_decide _); [done|]. by apply forallb_filter. }
    rewrite (bind_lift _ _ _ kept).
    2:{ unfold kept. destruct (bool_decide (currentFilter = "all")); [done|].
        apply filter_objects; [|by apply articles_objects].
        intros x Hx. by apply propIs_object. }
    destruct (bool_decide (searchTerm = "")).
    + rewrite (bind_lift _ _ _ _ (newestFirst_dated _ (articles_dated _ Hk))).
      unfold lift, createArticleListItem.
      by rewrite each_cards by by apply sortedNewest_articles.
    + unfold lift.
      by rewrite (forallb_impl _ _ _ searchable_article Hk).
Qed.

Lemma renderAdminDashboard_spec w l us cs :
  articles w = VArr l → users w = VArr us → comments w = VArr cs →
  renderAdminDashboard w = (Ok tt, w).
Proof.
  intros Ha Hu Hc. unfold renderAdminDashboard.
  mstep. rewrite Ha. rewrite (bind_lift _ _ _ (VNum (Z.of_nat (length l)))) by done.
  mstep. rewrite Hu. rewrite (bind_lift _ _ _ (VNum (Z.of_nat (length us)))) by done.
  mstep. rewrite Hc. by rewrite (bind_lift _ _ _ (VNum (Z.of_nat (length cs)))).
Qed.

Lemma filter_nonNull k s l :
  k ≠ "length" → forallb nonNull l = true →
  JS.filter (propIs k s) l = Ok (List.filter (fun x => eqStr (field k x) s) l).
Proof.
  intros Hk. induction l as [|x l IH]; cbn [forallb JS.filter List.filter]; [done|].
  intros H. apply andb_prop in H as [Hx Hl].
  rewrite (propIs_nonNull _ _ _ Hx Hk), (IH Hl).
  cbn [mbind outcome_bind]. unfold mbind, outcome_bind.
  by destruct (eqStr (field k x) s).
Qed.

Lemma renderComments_spec articleId w cs :
  comments w = VArr cs → forallb nonNull cs = true →
  renderComments articleId w = (Ok tt, w).
Proof.
  intros Hc Hcs. unfold renderComments.
  assert ((cs0 ← get comments; l ← lift (arrayOf cs0);
           lift (each (read "articleId") l)) w = (Ok tt, w)) as Hread.
  { mstep. rewrite Hc. rewrite (bind_lift _ _ _ cs) by done.
    unfold lift. by rewrite each_read. }
  destruct articleId; try exact Hread.
  unfold loadArticleComments. mstep. rewrite Hc.
  rewrite (bind_lift _ _ _ cs) by done.
  unfold lift. by rewrite filter_nonNull.
Qed.

(** Rendering changes nothing but [this.articles], however it ends. *)
Lemma sortArticles_frame w : ∃ r a, sortArticles w = (r, withArticles a w).
Proof.
  unfold sortArticles. mstep.
  destruct (arrayOf (articles w)) as [l| |] eqn:E1;
    [|by exists Throw, (articles w); rewrite withArticles_id; unfold lift, mbind, M_bind
     |by exists Unmodelled, (articles w); rewrite withArticles_id;
         unfold lift, mbind, M_bind].
  rewrite (bind_lift _ _ _ l) by done.
  destruct (newestFirst l) as [l'| |] eqn:E2;
    [|by exists Throw, (articles w); rewrite withArticles_id; unfold lift, mbind, M_bind
     |by exists Unmodelled, (articles w); rewrite withArticles_id;
         unfold lift, mbind, M_bind].
  rewrite (bind_lift _ _ _ l') by done. by eexists _, _.
Qed.

Lemma lift_frame {A} (o : outcome A) w a :
  ∃ r, (lift o ≫= fun _ => mret tt) (withArticles a w) = (r, withArticles a w).
Proof. unfold lift, mbind, M_bind. destruct o; by eexists. Qed.

Lemma updateStats_frame w : ∃ r, updateStats w = (r, w).
Proof.
  unfold updateStats. mstep. unfold lift, mbind, M_bind.
  destruct (arrayOf (articles w)); [|by eexists..].
  destruct (each (read "category") a); [|by eexists..]. by eexists.
Qed.

Lemma renderRecentArticles_frame w :
  ∃ r a, renderRecentArticles w = (r, withArticles a w).
Proof.
  unfold renderRecentArticles.
  destruct (sortArticles_frame w) as (r & a & Hs).
  unfold mbind at 1, M_bind at 1. rewrite Hs.
  destruct r as [[]| |]; [|by eexists _, _..].
  mstep. unfold lift, mbind, M_bind. cbn [articles withArticles].
  destruct (arrayOf a); [|by eexists _, _..].
  by destruct (each _ _); eexists _, _.
Qed.

Lemma showSectionHome_frame w :
  ∃ r a, showSectionHome w = (r, withArticles a w).
Proof.
  unfold showSectionHome.
  destruct (renderRecentArticles_frame w) as (r & a & Hs).
  unfold mbind at 1, M_bind at 1. rewrite Hs.
  destruct r as [[]| |]; [|by eexists _, _..].
  destruct (updateStats_frame (withArticles a w)) as (r' & ->). by eexists _, _.
Qed.

(** X9.  The three rendering methods sort [this.articles] itself.  When
    every article has a [createdAt] that the comparator can take as a time
    and a [title] and a [content] that are strings, [renderRecentArticles],
    [renderMyArticles] and, with no filter and no search term,
    [renderArticles] return normally and leave the same state: the array
    holds the same articles, none is older than one that follows it, and
    articles of one time keep the order they had; nothing else changes, so
    the stored order stays. *)
Theorem rendering_sorts_newest_first w l :
  articles w = VArr l → forallb isArticle l = true →
  ∃ l', renderRecentArticles w = (Ok tt, withArticles (VArr l') w) ∧
        renderMyArticles w = (Ok tt, withArticles (VArr l') w) ∧
        renderArticles "all" "" w = (Ok tt, withArticles (VArr l') w) ∧
        l' ≡ₚ l ∧
        StronglySorted notOlder l' ∧
        ∀ t, datedAt t l' = datedAt t l.
Proof.
  intros Ha Hl. exists (sortedNewest l).
  split; [by apply renderRecentArticles_spec|].
  split; [by apply renderMyArticles_spec|].
  split; [by rewrite (renderArticles_spec _ _ _ _ Ha Hl)|].
  split; [apply sortedNewest_perm|].
  split; [apply sortedNewest_sorted|]. intros t. apply sortedNewest_stable.
Qed.

Lemma rendering_sorts_newest_first_witness :
  ∃ l', renderRecentArticles (withArticles (VArr shelf) emptyWorld)
        = (Ok tt, withArticles (VArr l') (withArticles (VArr shelf) emptyWorld)) ∧
        renderMyArticles (withArticles (VArr shelf) emptyWorld)
        = (Ok tt, withArticles (VArr l') (withArticles (VArr shelf) emptyWorld)) ∧
        renderArticles "all" "" (withArticles (VArr shelf) emptyWorld)
        = (Ok tt, withArticles (VArr l') (withArticles (VArr shelf) emptyWorld)) ∧
        l' ≡ₚ shelf ∧
        StronglySorted notOlder l' ∧
        ∀ t, datedAt t l' = datedAt t shelf.
Proof.
  apply (rendering_sorts_newest_first (withArticles (VArr shelf) emptyWorld) shelf);
    reflexivity.
Defined.

(** *** The store adapter *)

(** A read of a key other than 'blogUsers': the parsed value, or the
    default; nothing is written. *)
Lemma safeGetLocalStorage_other key d w :
  key ≠ "blogUsers" →
  safeGetLocalStorage key d w =
  (Ok match localStorage w !! key with
      | Some (Json v) => v
      | _ => d
      end, w).
Proof.
  intros Hk. unfold safeGetLocalStorage, tryCatch, getItem.
  rewrite (bool_decide_eq_false_2 _ Hk). mrun.
  destruct (localStorage w !! key) as [[v|o]|]; reflexivity.
Qed.

Lemma some_nonNull l :
  forallb nonNull l = true →
  some (propIs "username" "zcr") l = Ok (hasAdmin l).
Proof.
  unfold hasAdmin. induction l as [|x l IH]; [done|].
  cbn [forallb some existsb]. intros H. apply andb_prop in H as [Hx Hl].
  rewrite (propIs_nonNull _ _ x Hx) by done.
  cbn [mbind outcome_bind]. destruct (eqStr _ _); [done|]. by apply IH.
Qed.

(** [some] throws on the first [null] when no entry before it is the
    administrator's. *)
Lemma some_null pre post :
  forallb nonNull pre = true →
  hasAdmin pre = false →
  some (propIs "username" "zcr") (pre ++ VNull :: post) = Throw.
Proof.
  unfold hasAdmin. induction pre as [|x pre IH]; [done|].
  cbn [forallb existsb app some]. intros Hn Hs.
  apply andb_prop in Hn as [Hx Hn].
  apply orb_false_elim in Hs as [Hxs Hs].
  rewrite (propIs_nonNull _ _ x Hx) by done.
  cbn [mbind outcome_bind]. rewrite Hxs. by apply IH.
Qed.

Lemma validUser_spec x : validUser x = Ok (wellFormedUser x).
Proof.
  unfold validUser, wellFormedUser.
  destruct (truthy x && bool_decide (typeOf x = TObject)) eqn:E; [|done].
  apply andb_prop in E as [Ht Ho].
  assert (nonNull x = true) as Hn by (by destruct x).
  rewrite !getProp_nonNull by done. simpl.
  by destruct (truthy (field "username" x)).
Qed.

Lemma filter_validUser l :
  JS.filter validUser l = Ok (List.filter wellFormedUser l).
Proof.
  induction l as [|x l IH]; simpl; [done|].
  rewrite validUser_spec. simpl. rewrite IH. simpl.
  by destruct (wellFormedUser x).
Qed.

Lemma memoryNonEmpty_spec w mem :
  users w = VArr mem →
  memoryNonEmpty w = (Ok (negb (bool_decide (mem = []))), w).
Proof.
  intros H. unfold memoryNonEmpty. mrun. rewrite H. simpl.
  by destruct mem.
Qed.

(** The repair policy of the key 'blogUsers', for a stored array and a
    memory without [null] entries. *)
Lemma safeGetLocalStorage_users_policy d w parsed mem :
  localStorage w !! "blogUsers" = Some (Json (VArr parsed)) →
  users w = VArr mem →
  forallb nonNull parsed = true → forallb nonNull mem = true →
  safeGetLocalStorage "blogUsers" d w =
  if lostUsers parsed mem
  then (Ok (VArr mem),
        withLocalStorage (<["blogUsers" := stringify (VArr mem)]> (localStorage w)) w)
  else
    let validUsers := List.filter wellFormedUser parsed in
    if bool_decide (length validUsers = length parsed)
    then (Ok (VArr parsed), w)
    else (Ok (VArr validUsers),
          withLocalStorage
            (<["blogUsers" := stringify (VArr validUsers)]> (localStorage w)) w).
Proof.
  intros Hstored Hmem Hp Hm.
  pose proof (some_nonNull _ Hp) as Sp. pose proof (some_nonNull _ Hm) as Sm.
  unfold safeGetLocalStorage, tryCatch, getItem, checkUsers, restoreUsers,
    setItem, someOf, lostUsers.
  unfold mbind, mret, M_bind, M_ret, outcome_bind, lift, get, modify.
  change (bool_decide ("blogUsers" = "blogUsers")) with true.
  rewrite Hstored. cbn [parse getProp].
  change (bool_decide ("length" = "length")) with true. cbv beta iota.
  rewrite eqNum_length.
  destruct (bool_decide (parsed = [])) eqn:Ep;
    destruct (bool_decide (mem = [])) eqn:Em;
    destruct (hasAdmin parsed) eqn:Ha; destruct (hasAdmin mem) eqn:Hb;
    try (apply bool_decide_eq_true_1 in Ep; subst parsed; discriminate);
    try (apply bool_decide_eq_true_1 in Em; subst mem; discriminate);
    repeat first
      [ progress cbv beta iota
      | rewrite Hmem
      | rewrite (memoryNonEmpty_spec w _ Hmem)
      | rewrite Em
      | rewrite Sp | rewrite Sm | rewrite filter_validUser
      | progress cbn [arrayOf negb andb orb] ];
    try reflexivity;
    try (destruct (bool_decide (length _ = _)); reflexivity).
Qed.

Lemma wellFormed_nonNull l :
  forallb wellFormedUser l = true → forallb nonNull l = true.
Proof.
  induction l as [|x l IH]; simpl; [done|].
  intros H. apply andb_prop in H as [Hx Hl]. rewrite (IH Hl).
  by destruct x.
Qed.

Lemma filter_wellFormed l :
  forallb wellFormedUser l = true → List.filter wellFormedUser l = l.
Proof.
  induction l as [|x l IH]; simpl; [done|].
  intros H. apply andb_prop in H as [-> Hl]. by rewrite IH.
Qed.

Lemma safeGetLocalStorage_users_steady d w l :
  steadyUsers w l →
  safeGetLocalStorage "blogUsers" d w = (Ok (VArr l), w).
Proof.
  intros (Hstored & Hwf & Hadmin).
  pose proof (some_nonNull _ (wellFormed_nonNull _ Hwf)) as Sp.
  unfold safeGetLocalStorage, tryCatch, getItem, checkUsers, restoreUsers,
    setItem, someOf.
  unfold mbind, mret, M_bind, M_ret, outcome_bind, lift, get, modify.
  change (bool_decide ("blogUsers" = "blogUsers")) with true.
  rewrite Hstored. cbn [parse getProp].
  change (bool_decide ("length" = "length")) with true. cbv beta iota.
  rewrite eqNum_length.
  destruct l as [|x l]; [discriminate Hadmin|].
  change (bool_decide (x :: l = [])) with false. cbv beta iota.
  cbn [arrayOf]. rewrite Sp, Hadmin. cbn [negb]. cbv beta iota.
  rewrite filter_validUser, (filter_wellFormed _ Hwf).
  rewrite bool_decide_eq_true_2 by done. reflexivity.
Qed.

(** C7.  When the stored user table holds a [null] entry and no entry
    before it is the administrator's, the read of 'blogUsers' resolves the
    default value and writes nothing, whatever the mirror [this.users]
    holds: check 2 (line 257) reads [user.username] on the [null] entry and
    throws, before the mirror is written back and before the filter of line
    271 is reached. *)
Theorem safeGetLocalStorage_null_entry d w pre post :
  localStorage w !! "blogUsers" = Some (Json (VArr (pre ++ VNull :: post))) →
  forallb nonNull pre = true →
  hasAdmin pre = false →
  safeGetLocalStorage "blogUsers" d w = (Ok d, w).
Proof.
  intros Hstored Hn Hadmin.
  unfold safeGetLocalStorage, tryCatch, getItem, checkUsers, someOf.
  unfold mbind, mret, M_bind, M_ret, outcome_bind, lift, get, modify.
  change (bool_decide ("blogUsers" = "blogUsers")) with true.
  rewrite Hstored. cbn [parse getProp arrayOf].
  rewrite (some_null pre post Hn Hadmin).
  change (bool_decide ("length" = "length")) with true. cbn iota.
  rewrite eqNum_length.
  rewrite bool_decide_eq_false_2 by (by destruct pre).
  reflexivity.
Qed.

Lemma safeGetLocalStorage_null_entry_witness :
  (lostUsers [VNull] [adminAccount 0; bob] = true ∧
   safeGetLocalStorage "blogUsers" (VArr []) nullEntryWorld
     = (Ok (VArr []), nullEntryWorld)) ∧
  (List.filter wellFormedUser [VNull; adminAccount 0; bob] = [adminAccount 0; bob] ∧
   safeGetLocalStorage "blogUsers" (VArr []) nullFirstWorld
     = (Ok (VArr []), nullFirstWorld)).
Proof.
  split; (split; [vm_compute; reflexivity|]).
  - apply (safeGetLocalStorage_null_entry (VArr []) nullEntryWorld [] []);
      reflexivity.
  - apply (safeGetLocalStorage_null_entry (VArr []) nullFirstWorld []
             [adminAccount 0; bob]); reflexivity.
Defined.

(** *** The integrity check leaves a steady store as it is, backups apart *)

Lemma lookup_foldr_delete (m : gmap string raw) ks k :
  k ∉ ks → foldr delete m ks !! k = m !! k.
Proof.
  induction ks as [|x ks IH]; simpl; [done|].
  intros H. apply not_elem_of_cons in H as [Hne Hks].
  rewrite lookup_delete_ne by done. by apply IH.
Qed.

Lemma prefix_shorter s1 s2 k :
  String.prefix (s1 +:+ s2) k = true → String.prefix s1 k = true.
Proof.
  revert k. induction s1 as [|a s1 IH]; intros k; simpl.
  - by destruct k.
  - destruct k as [|b k]; [done|]. simpl.
    destruct (Ascii.ascii_dec a b); [apply IH|done].
Qed.

Lemma prefix_backup k :
  String.prefix "blogDataBackup_" k = true → String.prefix "blogDataBackup" k = true.
Proof. apply (prefix_shorter "blogDataBackup" "_"). Qed.

Lemma cleanupOldBackups_frame w :
  ∃ w', cleanupOldBackups w = (Ok tt, w') ∧ sameButBackups w w'.
Proof.
  unfold cleanupOldBackups, modify.
  destruct (5 <? length _)%nat.
  - eexists. split; [reflexivity|]. eexists. split; [reflexivity|].
    intros k Hk. apply lookup_foldr_delete. intros Hin.
    apply elem_of_take in Hin as (i & Hin & _).
    apply list_elem_of_lookup_2 in Hin.
    rewrite merge_sort_Permutation in Hin.
    apply list_elem_of_In, filter_In in Hin as [_ Hp].
    apply prefix_backup in Hp. congruence.
  - eexists. split; [reflexivity|]. exists (localStorage w).
    split; [by rewrite withLocalStorage_id|done].
Qed.

Lemma sameButBackups_refl w : sameButBackups w w.
Proof. exists (localStorage w). split; [by rewrite withLocalStorage_id|done]. Qed.

Lemma sameButBackups_trans w1 w2 w3 :
  sameButBackups w1 w2 → sameButBackups w2 w3 → sameButBackups w1 w3.
Proof.
  intros (ls & -> & H1) (ls' & -> & H2). exists ls'. split; [done|].
  intros k Hk. rewrite (H2 k Hk). simpl. by apply H1.
Qed.

Lemma sameButBackups_steady w w' l :
  sameButBackups w w' → steadyUsers w l → steadyUsers w' l.
Proof.
  intros (ls & -> & H) (Hs & Hwf & Ha). split; [|done].
  simpl. by rewrite H.
Qed.

Lemma createDataBackup_frame now w l :
  steadyUsers w l →
  ∃ w', createDataBackup now w = (Ok tt, w') ∧ sameButBackups w w'.
Proof.
  intros Hs. unfold createDataBackup, tryCatch.
  rewrite (run_bind _ _ _ _ _ (safeGetLocalStorage_users_steady _ w l Hs)).
  rewrite (run_bind _ _ _ _ _ (safeGetLocalStorage_other "blogArticles" _ w ltac:(done))).
  rewrite (run_bind _ _ _ _ _ (safeGetLocalStorage_other "blogComments" _ w ltac:(done))).
  rewrite (run_bind _ _ _ _ _ (safeGetLocalStorage_other "blogUser" _ w ltac:(done))).
  unfold mbind at 1, M_bind at 1, setItem at 1, modify at 1.
  match goal with |- context [cleanupOldBackups ?w1] =>
    destruct (cleanupOldBackups_frame w1) as (w' & -> & Hw') end.
  exists w'. split; [done|].
  eapply sameButBackups_trans; [|exact Hw'].
  eexists. split; [reflexivity|]. intros k Hk.
  apply lookup_insert_ne. intros <-. discriminate.
Qed.

Lemma validateDataIntegrity_frame nowAdmin nowBackup w l :
  steadyUsers w l →
  isArray (storedOr "blogArticles" w) = true →
  isArray (storedOr "blogComments" w) = true →
  ∃ w', validateDataIntegrity nowAdmin nowBackup w = (Ok tt, w') ∧
        sameButBackups w w'.
Proof.
  intros Hs Ha Hc. unfold validateDataIntegrity, tryCatch.
  rewrite (run_bind _ _ _ _ _ (safeGetLocalStorage_users_steady _ w l Hs)).
  destruct Hs as (Hst & Hwf & Hadm).
  assert (someOf (propIs "username" "zcr") (VArr l) = Ok true) as Hsome.
  { unfold someOf. simpl. rewrite (some_nonNull _ (wellFormed_nonNull _ Hwf)).
    by rewrite Hadm. }
  rewrite (bind_lift _ _ _ _ Hsome). cbv beta iota.
  unfold mbind at 1, M_bind at 1, mret at 1, M_ret at 1.
  rewrite (run_bind _ _ _ _ _ (safeGetLocalStorage_other "blogArticles" _ w ltac:(done))).
  fold (storedOr "blogArticles" w).
  destruct (storedOr "blogArticles" w) as [| | | | | |la|]; try discriminate.
  rewrite (bind_lift _ _ _ (VNum (Z.of_nat (length la)))) by done.
  rewrite (run_bind _ _ _ _ _ (safeGetLocalStorage_other "blogComments" _ w ltac:(done))).
  fold (storedOr "blogComments" w).
  destruct (storedOr "blogComments" w) as [| | | | | |lc|]; try discriminate.
  rewrite (bind_lift _ _ _ (VNum (Z.of_nat (length lc)))) by done.
  destruct (createDataBackup_frame nowBackup w l) as (w' & -> & Hw'); [done|].
  eauto.
Qed.

Lemma findRef_admin l :
  forallb nonNull l = true → hasAdmin l = true →
  ∃ i x, findRef (propIs "username" "zcr") l = Ok (Some (i, x)).
Proof.
  unfold hasAdmin. induction l as [|y l IH]; simpl; [done|].
  intros H Ha. apply andb_prop in H as [Hy Hl].
  rewrite (propIs_nonNull _ _ y Hy) by done. cbn [mbind outcome_bind].
  destruct (eqStr (field "username" y) "zcr"); [eauto|].
  destruct (IH Hl Ha) as (i & x & ->). simpl. eauto.
Qed.

(** In a state whose stored user table is well formed, the reloads of
    lines 1978-1997 put that table in memory and touch backup keys only. *)
Lemma resyncUsers_steady c username w l :
  steadyUsers w l →
  isArray (storedOr "blogArticles" w) = true →
  isArray (storedOr "blogComments" w) = true →
  ∃ w1, resyncUsers c username w = (Ok tt, w1) ∧
        users w1 = VArr l ∧
        sameButBackups (withUsers (VArr l) w) w1.
Proof.
  intros Hs Ha Hc. unfold resyncUsers.
  destruct (validateDataIntegrity_frame (integrityAdminAt c) (backupAt c) w l
              Hs Ha Hc) as (w' & Hrun & Hw').
  rewrite (run_bind _ _ _ _ _ Hrun).
  pose proof (sameButBackups_steady _ _ _ Hw' Hs) as Hs'.
  rewrite (run_bind _ _ _ _ _ (safeGetLocalStorage_users_steady _ w' l Hs')).
  unfold mbind at 1, M_bind at 1, modify at 1.
  rewrite (bind_lift _ _ _ l) by done.
  destruct Hs as (Hst & Hwf & Hadm).
  destruct (findRef_admin l (wellFormed_nonNull _ Hwf) Hadm) as (i & x & Hfind).
  rewrite (bind_lift _ _ _ _ Hfind).
  change (bool_decide (Some (i, x) = None)) with false. cbn [andb].
  unfold mbind at 1, M_bind at 1, mret at 1, M_ret at 1.
  assert (steadyUsers (withUsers (VArr l) w') l) as Hs'' by exact Hs'.
  rewrite (run_bind _ _ _ _ _ (safeGetLocalStorage_users_steady _ _ l Hs'')).
  unfold modify. eexists. split; [reflexivity|]. split; [done|].
  destruct Hw' as (ls & -> & Hls). exists ls. split; [done|]. exact Hls.
Qed.

(** The session key is not a backup key. *)
Lemma sameButBackups_session w w' :
  sameButBackups w w' →
  localStorage w' !! "blogUser" = localStorage w !! "blogUser" ∧
  currentUser w' = currentUser w ∧
  notifications w' = notifications w ∧
  articles w' = articles w.
Proof. intros (ls & -> & H). split; [by apply H|done]. Qed.

(** What the three login theorems share: the state [w1] in which the name
    is looked up. *)
Lemma login_steady c usernameValue w l :
  steadyStore w l →
  ∃ w1, resyncUsers c (trim usernameValue) w = (Ok tt, w1) ∧
        users w1 = VArr l ∧
        localStorage w1 !! "blogUser" = localStorage w !! "blogUser" ∧
        currentUser w1 = currentUser w ∧
        notifications w1 = notifications w ∧
        articles w1 = articles w.
Proof.
  intros (Hs & Ha & Hc).
  destruct (resyncUsers_steady c (trim usernameValue) w l Hs Ha Hc)
    as (w1 & Hrun & Hus & Hsame).
  exists w1. split; [done|]. split; [done|].
  by apply sameButBackups_session in Hsame.
Qed.

(** *** Login *)

Lemma lockElapsed_test c v :
  lockElapsed c v →
  (if truthy v then dateAfter (lockCheckAt c) v else Ok false) = Ok false.
Proof. intros [-> | ->]; [done|]. by destruct (truthy v). Qed.

Lemma lockHolds_test c v t :
  lockHolds c v t →
  (if truthy v then dateAfter (lockCheckAt c) v else Ok false) = Ok true.
Proof.
  intros (-> & Ht & Hlt). unfold dateAfter.
  destruct v; try (rewrite Ht; cbn [mbind outcome_bind];
                   unfold mbind, outcome_bind; f_equal; apply Z.ltb_lt; lia).
  simpl in Ht. destruct (validTime n); [|done].
  injection Ht as ->. f_equal. cbn [andb]. apply Z.ltb_lt. lia.
Qed.

Lemma orZeroPlusOne_number v k :
  numberOrZero v = Some k →
  - 9007199254740992 <= k < 9007199254740992 →
  orZeroPlusOne v = Ok (k + 1).
Proof.
  unfold numberOrZero, orZeroPlusOne. destruct (jsOr v (VNum 0)); try done.
  intros [= ->] Hk.
  assert (exact k && exact (k + 1) = true) as ->; [|done].
  unfold exact, maxSafe. apply andb_true_intro.
  split; apply andb_true_intro; split; apply Z.leb_le; lia.
Qed.

Lemma ceilMinutes_spec x :
  60000 * (ceilMinutes x - 1) < x <= 60000 * ceilMinutes x.
Proof. unfold ceilMinutes. Z.div_mod_to_equations. lia. Qed.

(** What [handleLoginScreen] does once the input passed the two tests of
    lines 1967-1976, the user table is reloaded and the name is found. *)
Lemma login_reaches_user c usernameValue password w w1 l i user :
  trim usernameValue ≠ "" →
  (6 <= String.length password)%nat →
  resyncUsers c (trim usernameValue) w = (Ok tt, w1) →
  users w1 = VArr l →
  findRef (propIs "username" (trim usernameValue)) l = Ok (Some (i, user)) →
  handleLoginScreen c usernameValue password w =
  (lockedUntil ← lift (getProp user "lockedUntil");
   locked ← lift (if truthy lockedUntil
                  then dateAfter (lockCheckAt c) lockedUntil
                  else Ok false);
   if locked : bool
   then t ← lift (dateOf lockedUntil);
        showNotification (MsgAccountLocked (ceilMinutes (t - remainingAt c)))
                         Error 0 false
   else
     stored ← lift (getProp user "password");
     if eqStr stored (hashPassword password)
     then loginSucceeds c l i user
     else loginFails c l i user) w1.
Proof.
  intros Hname Hpw Hsync Husers Hfound.
  unfold handleLoginScreen.
  rewrite (bool_decide_eq_false_2 _ Hname).
  assert (password ≠ "") as Hne by (intros ->; simpl in Hpw; lia).
  rewrite (bool_decide_eq_false_2 _ Hne). cbn [orb].
  assert ((String.length password <? 6)%nat = false) as ->
    by (apply Nat.ltb_ge; lia).
  rewrite (run_bind _ _ _ _ _ Hsync).
  unfold mbind at 1, M_bind at 1, get at 1. rewrite Husers.
  rewrite (bind_lift _ _ _ l) by done.
  rewrite (bind_lift _ _ _ _ Hfound).
  reflexivity.
Qed.


Lemma newSession_loggedIn c fs :
  newSession c (loggedIn c (VObj fs)) = Ok (sessionOf c (VObj fs)).
Proof.
  unfold newSession, loggedIn, sessionOf. rewrite !getProp_obj.
  cbn [mbind outcome_bind]. unfold mbind, outcome_bind.
  by rewrite !field_setField_ne.
Qed.

(** A login with the right password, up to the rendering of the home
    section. *)
Lemma login_session c usernameValue password w w1 l i user :
  trim usernameValue ≠ "" →
  (6 <= String.length password)%nat →
  resyncUsers c (trim usernameValue) w = (Ok tt, w1) →
  users w1 = VArr l →
  findRef (propIs "username" (trim usernameValue)) l = Ok (Some (i, user)) →
  lockElapsed c (field "lockedUntil" user) →
  field "password" user = VStr (hashPassword password) →
  handleLoginScreen c usernameValue password w =
  (showSectionHome;;
   showNotification (MsgLoginSuccess (truthy (field "isAdmin" user)))
                    Success 2500 true) (sessionWorld c w1 l i user).
Proof.
  intros Hname Hpw Hsync Husers Hfound Hlock Hpass.
  rewrite (login_reaches_user _ _ _ _ _ _ _ _ Hname Hpw Hsync Husers Hfound).
  destruct (findRef_propIs _ _ _ _ _ Hfound) as [_ (fs & -> & Hn)].
  rewrite (bind_lift _ _ _ _ (getProp_obj _ _)).
  erewrite bind_lift; last by apply lockElapsed_test.
  cbv beta iota.
  rewrite (bind_lift _ _ _ _ (getProp_obj _ _)), Hpass.
  unfold eqStr. rewrite bool_decide_eq_true_2 by done.
  unfold loginSucceeds.
  rewrite (bind_lift _ _ _ (VObj (setField "loginAttempts" (VNum 0) fs))) by done.
  rewrite (bind_lift _ _ _ (VObj (setField "lockedUntil" VNull
                                    (setField "loginAttempts" (VNum 0) fs)))) by done.
  rewrite (bind_lift _ _ _ (loggedIn c (VObj fs))) by done.
  mstep. rewrite (bind_lift _ _ _ _ (newSession_loggedIn c fs)).
  mstep. unfold mbind at 1, M_bind at 1.
  change (showSectionHome _) with (showSectionHome (sessionWorld c w1 l i (VObj fs))).
  unfold mbind at 2, M_bind at 2.
  by destruct (showSectionHome (sessionWorld c w1 l i (VObj fs))) as [[[]| |] w2].
Qed.

Lemma login_success c usernameValue password w w1 l i user sorted :
  trim usernameValue ≠ "" →
  (6 <= String.length password)%nat →
  resyncUsers c (trim usernameValue) w = (Ok tt, w1) →
  users w1 = VArr l →
  findRef (propIs "username" (trim usernameValue)) l = Ok (Some (i, user)) →
  lockElapsed c (field "lockedUntil" user) →
  field "password" user = VStr (hashPassword password) →
  rendersTo w1 sorted →
  handleLoginScreen c usernameValue password w
  = (Ok tt, loggedInWorld c w1 l i user sorted).
Proof.
  intros Hname Hpw Hsync Husers Hfound Hlock Hpass Hr.
  rewrite (login_session _ _ _ _ _ _ _ _ Hname Hpw Hsync Husers Hfound Hlock Hpass).
  rewrite (run_bind _ _ _ tt (withArticles (VArr sorted) (sessionWorld c w1 l i user)));
    [reflexivity|].
  apply showSectionHome_spec. by apply (rendersTo_articles w1).
Qed.

(** The session is open and stored however the rendering ends. *)
Lemma login_success_state c usernameValue password w w1 l i user :
  trim usernameValue ≠ "" →
  (6 <= String.length password)%nat →
  resyncUsers c (trim usernameValue) w = (Ok tt, w1) →
  users w1 = VArr l →
  findRef (propIs "username" (trim usernameValue)) l = Ok (Some (i, user)) →
  lockElapsed c (field "lockedUntil" user) →
  field "password" user = VStr (hashPassword password) →
  ∃ r a ns,
    handleLoginScreen c usernameValue password w
    = (r, withNotifications ns (withArticles a (sessionWorld c w1 l i user))).
Proof.
  intros Hname Hpw Hsync Husers Hfound Hlock Hpass.
  rewrite (login_session _ _ _ _ _ _ _ _ Hname Hpw Hsync Husers Hfound Hlock Hpass).
  destruct (showSectionHome_frame (sessionWorld c w1 l i user)) as (r & a & Hs).
  unfold mbind, M_bind. rewrite Hs.
  destruct r as [[]| |]; by eexists _, a, _.
Qed.


Lemma login_locked c usernameValue password w w1 l i user t :
  trim usernameValue ≠ "" →
  (6 <= String.length password)%nat →
  resyncUsers c (trim usernameValue) w = (Ok tt, w1) →
  users w1 = VArr l →
  findRef (propIs "username" (trim usernameValue)) l = Ok (Some (i, user)) →
  lockHolds c (field "lockedUntil" user) t →
  handleLoginScreen c usernameValue password w = (Ok tt, lockedWorld c w1 t).
Proof.
  intros Hname Hpw Hsync Husers Hfound Hlock.
  rewrite (login_reaches_user _ _ _ _ _ _ _ _ Hname Hpw Hsync Husers Hfound).
  destruct (findRef_propIs _ _ _ _ _ Hfound) as [_ (fs & -> & _)].
  rewrite (bind_lift _ _ _ _ (getProp_obj _ _)).
  erewrite bind_lift; last by eapply lockHolds_test.
  cbv beta iota.
  destruct Hlock as (_ & Ht & _).
  rewrite (bind_lift _ _ _ _ Ht).
  reflexivity.
Qed.

(** A session whose [loginTime] is not a number is rejected, whatever the
    clock is. *)
Lemma validateUserObject_needs_number now v :
  (∀ t, field "loginTime" v ≠ VNum t) → validateUserObject now v = Ok false.
Proof.
  intros Hlt. unfold validateUserObject.
  destruct (negb (truthy v) || negb (bool_decide (typeOf v = TObject))) eqn:E;
    [done|].
  destruct v; cbn in E; rewrite ?orb_true_r in E; try discriminate.
  - reflexivity.
  - unfold field in Hlt. cbn in *.
    match goal with |- (if ?b then _ else _) = _ => destruct b end; [done|].
    destruct (default VUndefined (lookupField "loginTime" fields)) eqn:F;
      try done.
    by destruct (Hlt n).
Qed.

Lemma exampleWorld_steady : steadyStore exampleWorld [adminAccount 0; bob].
Proof. repeat split; vm_compute; reflexivity. Qed.

(** C1.  A login with valid credentials (the trimmed name is in the stored
    table, the stored digest is the digest of the password, no lock is
    running) makes the session the current user and persists it under
    'blogUser', and it returns normally whenever the articles in memory can
    be rendered.  The session's [loginTime] is the ISO string of the clock
    (line 2037) and its [sessionExpiry] the number read from the clock plus
    24 hours (line 2038).  [validateUserObject], which wants a [loginTime]
    of type number (line 1005), answers [false] on that session at every
    clock value, on the object in memory and on the one read back from the
    storage: it does not answer [true]. *)
Theorem login_session_fails_validation
    c usernameValue password w l i user :
  steadyStore w l →
  trim usernameValue ≠ "" →
  (6 <= String.length password)%nat →
  findRef (propIs "username" (trim usernameValue)) l = Ok (Some (i, user)) →
  lockElapsed c (field "lockedUntil" user) →
  field "password" user = VStr (hashPassword password) →
  ∃ r w2 session,
    handleLoginScreen c usernameValue password w = (r, w2) ∧
    (∀ sorted, rendersTo w sorted → r = Ok tt) ∧
    currentUser w2 = session ∧
    localStorage w2 !! "blogUser" = Some (stringify session) ∧
    field "username" session = VStr (trim usernameValue) ∧
    field "loginTime" session = VIso (loginTimeAt c) ∧
    field "sessionExpiry" session = VNum (expiryAt c + 86400000) ∧
    (∀ now, validateUserObject now session = Ok false) ∧
    (∀ now stored, parse (stringify session) = Ok stored →
                   validateUserObject now stored = Ok false).
Proof.
  intros Hsteady Hname Hpw Hfound Hlock Hpass.
  destruct (login_steady c usernameValue w l Hsteady)
    as (w1 & Hsync & Husers & _ & _ & _ & Harts).
  destruct (login_success_state c usernameValue password w w1 l i user)
    as (r & a & ns & Hrun); try done.
  exists r, (withNotifications ns (withArticles a (sessionWorld c w1 l i user))),
    (sessionOf c user).
  split; [exact Hrun|]. split.
  { intros sorted Hr.
    pose proof (login_success c usernameValue password w w1 l i user sorted
                  Hname Hpw Hsync Husers Hfound Hlock Hpass
                  (rendersTo_articles w w1 sorted Harts Hr)) as H.
    rewrite Hrun in H. by injection H. }
  split; [done|]. split; [by simpl; rewrite lookup_insert_eq|].
  split.
  { destruct (findRef_propIs _ _ _ _ _ Hfound) as [_ (fs & -> & Hn)].
    change (field "username" (VObj fs) = VStr (trim usernameValue)).
    unfold field. simpl. by rewrite Hn. }
  split; [done|]. split; [done|]. split.
  - intros now. by apply validateUserObject_needs_number.
  - intros now stored Hs. apply validateUserObject_needs_number.
    intros t. revert Hs. unfold stringify, sessionOf. simpl.
    destruct (jsonOf (field "id" user)), (jsonOf (field "username" user)),
      (jsonOf (field "isAdmin" user)), (jsonOf (field "email" user));
      simpl; intros [= <-]; done.
Qed.

Lemma login_session_fails_validation_witness :
  ∃ w2 session,
    handleLoginScreen exampleClock "bob" "secret1" exampleWorld = (Ok tt, w2) ∧
    currentUser w2 = session ∧
    localStorage w2 !! "blogUser" = Some (stringify session) ∧
    field "username" session = VStr (trim "bob") ∧
    field "loginTime" session = VIso 1006 ∧
    field "sessionExpiry" session = VNum (1007 + 86400000) ∧
    (∀ now, validateUserObject now session = Ok false) ∧
    (∀ now stored, parse (stringify session) = Ok stored →
                   validateUserObject now stored = Ok false).
Proof.
  destruct (login_session_fails_validation exampleClock "bob" "secret1"
              exampleWorld [adminAccount 0; bob] 1%nat bob)
    as (r & w2 & session & Hrun & Hok & H).
  - repeat split; vm_compute; reflexivity.
  - vm_compute. discriminate.
  - vm_compute. lia.
  - vm_compute. reflexivity.
  - left. reflexivity.
  - vm_compute. reflexivity.
  - exists w2, session. split; [|exact H].
    rewrite Hrun. f_equal. apply (Hok []). exists []. by repeat split.
Defined.




(** C10.  Login never reads [isLocked]: for a user whose [isLocked] is
    [true], whose [lockedUntil] is falsy or not after the clock, and whose
    stored digest is the digest of the password, login creates the session,
    persists it, renders the home section (the articles in memory being
    such that it can be rendered), shows the success notice, and leaves
    [isLocked] [true]. *)
Theorem login_ignores_isLocked c usernameValue password w l i user sorted :
  steadyStore w l →
  trim usernameValue ≠ "" →
  (6 <= String.length password)%nat →
  findRef (propIs "username" (trim usernameValue)) l = Ok (Some (i, user)) →
  field "isLocked" user = VBool true →
  lockElapsed c (field "lockedUntil" user) →
  field "password" user = VStr (hashPassword password) →
  rendersTo w sorted →
  ∃ w2 user',
    handleLoginScreen c usernameValue password w = (Ok tt, w2) ∧
    currentUser w2 = sessionOf c user ∧
    field "username" (currentUser w2) = VStr (trim usernameValue) ∧
    localStorage w2 !! "blogUser" = Some (stringify (sessionOf c user)) ∧
    users w2 = VArr (<[i := user']> l) ∧
    field "isLocked" user' = VBool true ∧
    articles w2 = VArr sorted ∧
    notifications w2 =
      (notifications w ++
         [Notice (MsgLoginSuccess (truthy (field "isAdmin" user))) Success 2500 true])%list.
Proof.
  intros Hsteady Hname Hpw Hfound Hflag Hlock Hpass Hr.
  destruct (login_steady c usernameValue w l Hsteady)
    as (w1 & Hsync & Husers & _ & _ & Hnote & Harts).
  exists (loggedInWorld c w1 l i user sorted), (loggedIn c user).
  split.
  { eapply login_success; try done. by apply (rendersTo_articles w). }
  destruct (findRef_propIs _ _ _ _ _ Hfound) as [_ (fs & -> & Hn)].
  split; [done|]. split.
  { change (field "username" (VObj fs) = VStr (trim usernameValue)).
    unfold field. simpl. by rewrite Hn. }
  split; [by cbn; rewrite lookup_insert_eq|]. split; [done|].
  split; [|split; [done|by cbn; rewrite Hnote]].
  unfold loggedIn. by rewrite !field_setField_ne.
Qed.

Lemma login_ignores_isLocked_witness :
  field "isLocked" (toggled bob) = VBool true ∧
  ∃ w2 user',
    handleLoginScreen exampleClock "bob" "secret1" bobLockedByAdmin = (Ok tt, w2) ∧
    currentUser w2 = sessionOf exampleClock (toggled bob) ∧
    field "username" (currentUser w2) = VStr (trim "bob") ∧
    localStorage w2 !! "blogUser"
      = Some (stringify (sessionOf exampleClock (toggled bob))) ∧
    users w2 = VArr (<[1%nat := user']> [adminAccount 0; toggled bob]) ∧
    field "isLocked" user' = VBool true ∧
    articles w2 = VArr [] ∧
    notifications w2 =
      (notifications bobLockedByAdmin ++
         [Notice (MsgLoginSuccess (truthy (field "isAdmin" (toggled bob))))
                 Success 2500 true])%list.
Proof.
  split; [reflexivity|].
  apply (login_ignores_isLocked exampleClock "bob" "secret1" bobLockedByAdmin
           [adminAccount 0; toggled bob] 1%nat (toggled bob) []).
  - repeat split; vm_compute; reflexivity.
  - vm_compute. discriminate.
  - vm_compute. lia.
  - vm_compute. reflexivity.
  - reflexivity.
  - left. reflexivity.
  - reflexivity.
  - exists []. by repeat split.
Defined.

(** Five wrong passwords in a row lock the account; a minute later the right
    password is refused; two hours later it is accepted and the counter is
    back at zero. *)
Example lockout_scenario :
  let attempt c password w := (handleLoginScreen c "bob" password w).2 in
  let wrong := attempt exampleClock "wrong-password" in
  let w5 := wrong (wrong (wrong (wrong (wrong exampleWorld)))) in
  let w6 := attempt (clockFrom 61000) "secret1" w5 in
  let w7 := attempt laterClock "secret1" w6 in
  List.map text (notifications w6) =
    [MsgWrongPassword 4; MsgWrongPassword 3; MsgWrongPassword 2;
     MsgWrongPassword 1; MsgLockedOut; MsgAccountLocked 30] ∧
  currentUser w6 = VNull ∧
  List.map (field "loginAttempts") (match users w6 with VArr l => l | _ => [] end)
    = [VNum 0; VNum 5] ∧
  field "username" (currentUser w7) = VStr "bob" ∧
  List.map (field "loginAttempts") (match users w7 with VArr l => l | _ => [] end)
    = [VNum 0; VNum 0].
Proof. vm_compute. repeat split. Qed.

(** *** The view counter *)

Lemma lockKey_not_articles a : lockKey a ≠ "blogArticles".
Proof. discriminate. Qed.


Lemma updateViewsWithLock_counts t now a w l i article k :
  tooFrequent (localStorage w !! lockKey a) now = false →
  localStorage w !! "blogArticles" = Some (Json (VArr l)) →
  findRef (propIs "id" a) l = Ok (Some (i, article)) →
  numberOrZero (field "views" article) = Some k →
  - 9007199254740992 <= k < 9007199254740992 →
  updateViewsWithLock t now a w =
  (Ok (withViews (k + 1) article),
   countedWorld w t a l i (withViews (k + 1) article)).
Proof.
  intros Hfree Hstored Hfound Hviews Hbound.
  destruct (findRef_propIs _ _ _ _ _ Hfound) as [_ (fs & -> & _)].
  unfold updateViewsWithLock, getItem, tryFinally.
  unfold mbind at 1, M_bind at 1, get at 1. rewrite Hfree.
  unfold mbind at 1, M_bind at 1, setItem at 1, modify at 1.
  unfold mbind at 1, M_bind at 1.
  rewrite safeGetLocalStorage_other by done.
  cbn [localStorage withLocalStorage].
  rewrite lookup_insert_ne by apply lockKey_not_articles.
  rewrite Hstored.
  rewrite (bind_lift _ _ _ l) by done.
  rewrite (bind_lift _ _ _ _ Hfound).
  rewrite (bind_lift _ _ _ _ (getProp_obj _ _)).
  rewrite (bind_lift _ _ _ _ (orZeroPlusOne_number _ _ Hviews Hbound)).
  unfold safeSetLocalStorage, scheduleRelease, setItem. mrun. reflexivity.
Qed.


Lemma incrementViewsSafely_viewed t now a w :
  viewed a w = true →
  incrementViewsSafely t now a w = (Ok (ViewResult false VNull), w).
Proof.
  unfold viewed, incrementViewsSafely. intros H. mrun. by rewrite H.
Qed.







Lemma field_withViews_eq n fs : field "views" (withViews n (VObj fs)) = VNum n.
Proof. apply field_setField_eq. Qed.









(** *** Comments *)

Lemma sessionAdminFlag_spec cu :
  sessionAdminFlag cu = Ok (if truthy cu then field "isAdmin" cu else cu).
Proof.
  unfold sessionAdminFlag. destruct (truthy cu) eqn:E; [|done].
  by apply getProp_truthy.
Qed.

Lemma notAdmin_spec w :
  notAdmin w = (Ok (negb (sessionIsAdmin (currentUser w))), w).
Proof.
  unfold notAdmin, sessionIsAdmin. mrun. rewrite sessionAdminFlag_spec.
  destruct (truthy (currentUser w)) eqn:E; [done|]. simpl. by rewrite E.
Qed.

Lemma submitComment_accepts newId now articleId author content w cs :
  articleId ≠ "" → author ≠ "" →
  (2 <= String.length content <= 1000)%nat →
  comments w = VArr cs →
  forallb nonNull cs = true →
  let all := VArr (cs ++ [newComment newId now articleId author content (currentUser w)]) in
  submitComment newId now articleId author content w =
  (Ok true,
   mkWorld (articles w) (users w) all (currentUser w)
     (<["blogComments" := stringify all]> (localStorage w))
     (sessionStorage w) (timers w)
     (notifications w ++ [Notice MsgCommentPosted Success 2500 true])).
Proof.
  intros Ha Hau Hlen Hcs Hnn all. unfold submitComment.
  assert (content ≠ "") as Hc by (intros ->; simpl in Hlen; lia).
  rewrite !bool_decide_eq_false_2 by done. cbn [orb].
  assert ((String.length content <? 2)%nat = false) as -> by (apply Nat.ltb_ge; lia).
  assert ((1000 <? String.length content)%nat = false) as -> by (apply Nat.ltb_ge; lia).
  mstep. rewrite (bind_lift _ _ _ _ (sessionAdminFlag_spec _)).
  mstep. rewrite Hcs. rewrite (bind_lift _ _ _ cs) by done.
  unfold saveComments. mstep.
  erewrite run_bind.
  2:{ apply (renderComments_spec _ _
               (cs ++ [newComment newId now articleId author content (currentUser w)]));
      [reflexivity|]. by rewrite forallb_app, Hnn. }
  reflexivity.
Qed.

Lemma submitComment_rejects newId now articleId author content w :
  (String.length content < 2 ∨ 1000 < String.length content)%nat →
  ∃ note,
    submitComment newId now articleId author content w =
    (Ok false, withNotifications (notifications w ++ [note]) w) ∧
    level note = Error.
Proof.
  intros Hlen. unfold submitComment, showNotification.
  destruct (_ || _ || _); [mrun; eexists; split; reflexivity|].
  destruct (String.length content <? 2)%nat eqn:E1;
    [mrun; eexists; split; reflexivity|].
  destruct (1000 <? String.length content)%nat eqn:E2;
    [mrun; eexists; split; reflexivity|].
  apply Nat.ltb_ge in E1, E2. lia.
Qed.

Lemma pinComment_denied commentId w :
  sessionIsAdmin (currentUser w) = false →
  pinComment commentId w =
  (Ok tt, withNotifications
            (notifications w ++ [Notice MsgPinCommentDenied Error 4000 true]) w).
Proof.
  intros H. unfold pinComment.
  rewrite (run_bind _ _ _ _ _ (notAdmin_spec w)), H. reflexivity.
Qed.

Lemma deleteComment_denied confirmed commentId w :
  sessionIsAdmin (currentUser w) = false →
  deleteComment confirmed commentId w =
  (Ok tt, withNotifications
            (notifications w ++ [Notice MsgDeleteCommentDenied Error 4000 true]) w).
Proof.
  intros H. unfold deleteComment.
  rewrite (run_bind _ _ _ _ _ (notAdmin_spec w)), H. reflexivity.
Qed.

(** C8.  [submitComment] tests the length of the content as it is passed,
    white space at both ends counted, and stores the content trimmed.  For
    a non-empty [articleId] and author and a collection without [null]
    entries: a length from 2 to 1000, bounds included, is accepted, the
    comment with the trimmed content is appended and the collection
    persisted; a length below 2 or above 1000 is rejected with one error
    notice and no other change. *)
Theorem submitComment_boundary newId now articleId author content w cs :
  articleId ≠ "" → author ≠ "" →
  comments w = VArr cs →
  forallb nonNull cs = true →
  ((2 <= String.length content <= 1000)%nat →
   ∃ comment w',
     submitComment newId now articleId author content w = (Ok true, w') ∧
     comments w' = VArr (cs ++ [comment]) ∧
     field "content" comment = VStr (trim content) ∧
     field "articleId" comment = VStr articleId ∧
     localStorage w' !! "blogComments" = Some (stringify (comments w'))) ∧
  ((String.length content < 2 ∨ 1000 < String.length content)%nat →
   ∃ note,
     submitComment newId now articleId author content w
     = (Ok false, withNotifications (notifications w ++ [note]) w) ∧
     level note = Error).
Proof.
  intros Ha Hau Hcs Hnn. split.
  - intros Hlen. eexists _, _.
    split; [by apply submitComment_accepts|].
    split; [done|]. split; [done|]. split; [done|].
    by cbn; rewrite lookup_insert_eq.
  - apply submitComment_rejects.
Qed.

Lemma submitComment_boundary_witness :
  (∃ comment w',
     submitComment "comment_1" 500 "a1" "Al" "Hi" emptyWorld = (Ok true, w') ∧
     comments w' = VArr ([] ++ [comment]) ∧
     field "content" comment = VStr (trim "Hi") ∧
     field "articleId" comment = VStr "a1" ∧
     localStorage w' !! "blogComments" = Some (stringify (comments w'))) ∧
  (∃ comment w',
     submitComment "comment_1" 500 "a1" "Al" (letters 1000) emptyWorld
     = (Ok true, w') ∧
     comments w' = VArr ([] ++ [comment]) ∧
     field "content" comment = VStr (trim (letters 1000)) ∧
     field "articleId" comment = VStr "a1" ∧
     localStorage w' !! "blogComments" = Some (stringify (comments w'))) ∧
  (∃ note,
     submitComment "comment_1" 500 "a1" "Al" "H" emptyWorld
     = (Ok false, withNotifications (notifications emptyWorld ++ [note]) emptyWorld) ∧
     level note = Error) ∧
  (∃ note,
     submitComment "comment_1" 500 "a1" "Al" (letters 1001) emptyWorld
     = (Ok false, withNotifications (notifications emptyWorld ++ [note]) emptyWorld) ∧
     level note = Error).
Proof.
  assert ("a1" ≠ "") as H1 by discriminate.
  assert ("Al" ≠ "") as H2 by discriminate.
  assert (comments emptyWorld = VArr []) as H3 by reflexivity.
  assert (forallb nonNull [] = true) as H4 by reflexivity.
  split; [|split; [|split]].
  - apply (proj1 (submitComment_boundary "comment_1" 500 "a1" "Al" "Hi"
                    emptyWorld [] H1 H2 H3 H4)).
    vm_compute. lia.
  - apply (proj1 (submitComment_boundary "comment_1" 500 "a1" "Al" (letters 1000)
                    emptyWorld [] H1 H2 H3 H4)).
    vm_compute. lia.
  - apply (proj2 (submitComment_boundary "comment_1" 500 "a1" "Al" "H"
                    emptyWorld [] H1 H2 H3 H4)).
    vm_compute. lia.
  - apply (proj2 (submitComment_boundary "comment_1" 500 "a1" "Al" (letters 1001)
                    emptyWorld [] H1 H2 H3 H4)).
    vm_compute. lia.
Defined.

(** The trimmed length does not decide: a content of a blank and one letter
    has the trimmed length 1 and is accepted, stored as that one letter; two
    blanks before 1000 letters have the trimmed length 1000 and are
    rejected. *)
Lemma trimmed_length_counterexample :
  String.length (trim " H") = 1%nat ∧
  (submitComment "comment_1" 500 "a1" "Al" " H" emptyWorld).1 = Ok true ∧
  List.map (field "content")
    (match comments (submitComment "comment_1" 500 "a1" "Al" " H" emptyWorld).2 with
     | VArr l => l
     | _ => []
     end) = [VStr "H"] ∧
  String.length (trim ("  " +:+ letters 1000)) = 1000%nat ∧
  (submitComment "comment_1" 500 "a1" "Al" ("  " +:+ letters 1000) emptyWorld).1
    = Ok false ∧
  comments (submitComment "comment_1" 500 "a1" "Al" ("  " +:+ letters 1000)
              emptyWorld).2 = VArr [].
Proof. vm_compute. repeat split. Qed.

(** *** User administration *)

Lemma lockUser_toggles name w l i user :
  name ≠ "zcr" →
  users w = VArr l →
  findRef (propIs "username" name) l = Ok (Some (i, user)) →
  let us := VArr (<[i := toggled user]> l) in
  lockUser name w =
  (Ok tt,
   mkWorld (articles w) us (comments w) (currentUser w)
     (<["blogUsers" := stringify us]> (localStorage w))
     (sessionStorage w) (timers w)
     (notifications w ++
        [Notice (MsgUserLocked name (negb (truthy (field "isLocked" user))))
                Success 3000 true])).
Proof.
  intros Hn Hus Hfound us. unfold lockUser.
  rewrite (bool_decide_eq_false_2 _ Hn).
  unfold mbind at 1, M_bind at 1, get at 1. rewrite Hus.
  rewrite (bind_lift _ _ _ l) by done.
  rewrite (bind_lift _ _ _ _ Hfound).
  destruct (findRef_propIs _ _ _ _ _ Hfound) as [_ (fs & -> & _)].
  unfold safeSetLocalStorage, showNotification, setItem. mrun. reflexivity.
Qed.

Lemma lockUser_admin w :
  lockUser "zcr" w =
  (Ok tt, withNotifications
            (notifications w ++ [Notice MsgCannotLockAdmin Error 3000 true]) w).
Proof. reflexivity. Qed.

Lemma deleteUser_admin confirmed w :
  deleteUser confirmed "zcr" w =
  (Ok tt, withNotifications
            (notifications w ++ [Notice MsgCannotDeleteAdmin Error 3000 true]) w).
Proof. reflexivity. Qed.

Lemma logoutIf_spec test w :
  logoutIf test w =
  (Ok tt, loggedOutIf (truthy (currentUser w)
                       && test (field "username" (currentUser w))) w).
Proof.
  unfold logoutIf, loggedOutIf.
  unfold mbind at 1, M_bind at 1, get at 1.
  destruct (truthy (currentUser w)) eqn:E.
  - assert ("username" ≠ "length") as Hk by discriminate.
    rewrite (bind_lift _ _ _ _ (getProp_truthy _ _ E Hk)).
    cbn [andb].
    destruct (test _); [|done].
    unfold safeSetLocalStorage, setItem. mrun. reflexivity.
  - rewrite (bind_lift _ _ _ (currentUser w)) by done. done.
Qed.

Lemma deleteUser_deletes name w l cs i user :
  name ≠ "zcr" →
  users w = VArr l → comments w = VArr cs →
  forallb isObject l = true → forallb isObject cs = true →
  findRef (propIs "username" name) l = Ok (Some (i, user)) →
  deleteUser true name w =
  (Ok tt, deletedWorld (fun v => eqStr v name)
            (Notice (MsgUserDeleted name) Success 3000 true) l cs w).
Proof.
  intros Hn Hus Hcs Hl Hc Hfound. unfold deleteUser.
  rewrite (bool_decide_eq_false_2 _ Hn).
  unfold mbind at 1, M_bind at 1, get at 1. rewrite Hus.
  rewrite (bind_lift _ _ _ l) by done.
  rewrite (bind_lift _ _ _ _ Hfound). cbv beta iota.
  erewrite bind_lift;
    last by (apply filter_objects; [apply propIsNot_object|done]).
  unfold mbind at 1, M_bind at 1, modify at 1.
  unfold mbind at 1, M_bind at 1, get at 1.
  cbn [comments withUsers]. rewrite Hcs.
  rewrite (bind_lift _ _ _ cs) by done.
  erewrite bind_lift;
    last by (apply filter_objects; [apply propIsNot_object|done]).
  unfold mbind at 1, M_bind at 1, modify at 1.
  unfold mbind at 1, M_bind at 1. rewrite logoutIf_spec.
  unfold deletedWorld, saveUsersAndComments, safeSetLocalStorage, showNotification,
    setItem.
  cbn [currentUser withComments withUsers].
  destruct (truthy (currentUser w) && _); mrun; reflexivity.
Qed.

Lemma batchDeleteUsers_deletes sel w l cs :
  sel ≠ [] →
  users w = VArr l → comments w = VArr cs →
  forallb isObject l = true → forallb isObject cs = true →
  batchDeleteUsers sel true w =
  (Ok tt, deletedWorld (includes sel)
            (Notice (MsgUsersDeleted (length sel)) Success 3000 true) l cs w).
Proof.
  intros Hn Hus Hcs Hl Hc. unfold batchDeleteUsers.
  destruct sel as [|s sel]; [done|].
  unfold mbind at 1, M_bind at 1, get at 1. rewrite Hus.
  rewrite (bind_lift _ _ _ l) by done.
  erewrite bind_lift;
    last by (apply filter_objects; [apply propNotIn_object|done]).
  unfold mbind at 1, M_bind at 1, modify at 1.
  unfold mbind at 1, M_bind at 1, get at 1.
  cbn [comments withUsers]. rewrite Hcs.
  rewrite (bind_lift _ _ _ cs) by done.
  erewrite bind_lift;
    last by (apply filter_objects; [apply propNotIn_object|done]).
  unfold mbind at 1, M_bind at 1, modify at 1.
  unfold mbind at 1, M_bind at 1. rewrite logoutIf_spec.
  unfold deletedWorld, saveUsersAndComments, safeSetLocalStorage, showNotification,
    setItem.
  cbn [currentUser withComments withUsers].
  destruct (truthy (currentUser w) && _); mrun; reflexivity.
Qed.

Lemma lockStep_objects l name :
  forallb isObject l = true → forallb isObject (lockStep l name) = true.
Proof.
  intros H. unfold lockStep.
  destruct (findRef _ l) as [[[i [| | | | | | |fs]]|]| |]; try done.
  by apply isObject_insert.
Qed.

Lemma lockOne_spec name w l :
  users w = VArr l → forallb isObject l = true →
  lockOne name w = (Ok tt, withUsers (VArr (lockStep l name)) w).
Proof.
  intros Hus Hl. unfold lockOne, lockStep.
  unfold mbind at 1, M_bind at 1, get at 1. rewrite Hus.
  rewrite (bind_lift _ _ _ l) by done.
  destruct (findRef_objects "username" name l Hl) as [r Hr].
  rewrite (bind_lift _ _ _ _ Hr). rewrite Hr.
  destruct r as [[i user]|].
  - destruct (findRef_propIs _ _ _ _ _ Hr) as [_ (fs & -> & _)]. reflexivity.
  - rewrite <- Hus. by rewrite withUsers_id.
Qed.

Lemma forEach_lockOne sel w l :
  users w = VArr l → forallb isObject l = true →
  forEach lockOne sel w = (Ok tt, withUsers (VArr (foldl lockStep l sel)) w).
Proof.
  revert w l. induction sel as [|name sel IH]; intros w l Hus Hl; simpl.
  - rewrite <- Hus. by rewrite withUsers_id.
  - rewrite (run_bind _ _ _ _ _ (lockOne_spec name w l Hus Hl)).
    rewrite (IH _ (lockStep l name)); [done|done|by apply lockStep_objects].
Qed.

Lemma lockStep_keeps_search l name i x :
  findRef (propIs "username" "zcr") l = Ok (Some (i, x)) →
  ∃ y, findRef (propIs "username" "zcr") (lockStep l name) = Ok (Some (i, y)) ∧
       (field "isLocked" x = VBool true → field "isLocked" y = VBool true) ∧
       (name = "zcr" → field "isLocked" y = VBool true).
Proof.
  intros Hx. unfold lockStep.
  destruct (findRef (propIs "username" name) l) as [[[j u]|]| |] eqn:E;
    try (exists x; split; [done|]; split; [done|]; intros ->; congruence).
  destruct (findRef_propIs _ _ _ _ _ E) as [Hj (fs & -> & Hname)].
  rewrite (findRef_insert_keep _ _ _ _ _ Hj).
  2:{ unfold propIs. simpl. by rewrite lookupField_setField_ne. }
  rewrite Hx. eexists. split; [reflexivity|].
  destruct (decide (i = j)) as [->|Hne].
  - split; intros; apply field_setField_eq.
  - split; [done|]. intros ->. congruence.
Qed.

Lemma lockAll_locks_admin sel l i x :
  findRef (propIs "username" "zcr") l = Ok (Some (i, x)) →
  (field "isLocked" x = VBool true ∨ "zcr" ∈ sel) →
  adminLockedAt (foldl lockStep l sel) i.
Proof.
  revert l x. induction sel as [|name sel IH]; intros l x Hx Hcase; simpl.
  - destruct Hcase as [H|H]; [by exists x|by apply not_elem_of_nil in H].
  - destruct (lockStep_keeps_search l name i x Hx) as (y & Hy & Hkeep & Hset).
    apply (IH _ y Hy).
    destruct Hcase as [H|H]; [left; auto|].
    apply elem_of_cons in H as [<-|H]; [left; auto|by right].
Qed.

Lemma batchLockUsers_locks sel w l :
  sel ≠ [] → users w = VArr l → forallb isObject l = true →
  let us := VArr (foldl lockStep l sel) in
  batchLockUsers sel true w =
  (Ok tt,
   mkWorld (articles w) us (comments w) (currentUser w)
     (<["blogUsers" := stringify us]> (localStorage w))
     (sessionStorage w) (timers w)
     (notifications w ++ [Notice (MsgUsersLocked (length sel)) Success 3000 true])).
Proof.
  intros Hn Hus Hl us. unfold batchLockUsers.
  destruct sel as [|s sel]; [done|].
  rewrite (run_bind _ _ _ _ _ (forEach_lockOne _ w l Hus Hl)).
  unfold safeSetLocalStorage, showNotification, setItem. mrun. reflexivity.
Qed.

Lemma editUser_edits email name w l i user :
  email ≠ "" → validateEmail email = true →
  users w = VArr l →
  findRef (propIs "username" name) l = Ok (Some (i, user)) →
  ∃ user',
    let us := VArr (<[i := user']> l) in
    editUser (Some email) name w =
    (Ok tt,
     mkWorld (articles w) us (comments w) (currentUser w)
       (<["blogUsers" := stringify us]> (localStorage w))
       (sessionStorage w) (timers w)
       (notifications w ++ [Notice MsgUserUpdated Success 3000 true])) ∧
    field "email" user' = VStr email ∧
    (∀ f, f ≠ "email" → field f user' = field f user).
Proof.
  intros He Hv Hus Hfound.
  destruct (findRef_propIs _ _ _ _ _ Hfound) as [_ (fs & -> & _)].
  exists (VObj (setField "email" (VStr email) fs)). split; [|split].
  - unfold editUser.
    unfold mbind at 1, M_bind at 1, get at 1. rewrite Hus.
    rewrite (bind_lift _ _ _ l) by done.
    rewrite (bind_lift _ _ _ _ Hfound). cbv beta iota.
    rewrite Hv, (bool_decide_eq_false_2 _ He). cbn [negb andb].
    unfold safeSetLocalStorage, showNotification, setItem, jsOr. mrun.
    rewrite (bool_decide_eq_false_2 _ He). reflexivity.
  - apply field_setField_eq.
  - intros f Hf. by apply field_setField_ne.
Qed.

(** C2.  With the administrator 'zcr' in the user table, [deleteUser] and
    [lockUser] on 'zcr' show a notice and change nothing else.  The batch
    operations have no such guard: with 'zcr' among the selected names,
    [batchDeleteUsers] persists a table without the administrator and
    [batchLockUsers] persists a table in which the administrator's
    [isLocked] is [true]. *)
Theorem admin_guard_missing_in_batch_operations w l cs i admin sel :
  users w = VArr l → comments w = VArr cs →
  forallb isObject l = true → forallb isObject cs = true →
  findRef (propIs "username" "zcr") l = Ok (Some (i, admin)) →
  "zcr" ∈ sel →
  (∀ confirmed, ∃ note,
     deleteUser confirmed "zcr" w
     = (Ok tt, withNotifications (notifications w ++ [note]) w)) ∧
  (∃ note,
     lockUser "zcr" w
     = (Ok tt, withNotifications (notifications w ++ [note]) w)) ∧
  (∃ w' l',
     batchDeleteUsers sel true w = (Ok tt, w') ∧
     users w' = VArr l' ∧
     localStorage w' !! "blogUsers" = Some (stringify (VArr l')) ∧
     findRef (propIs "username" "zcr") l' = Ok None) ∧
  (∃ w' l',
     batchLockUsers sel true w = (Ok tt, w') ∧
     users w' = VArr l' ∧
     localStorage w' !! "blogUsers" = Some (stringify (VArr l')) ∧
     adminLockedAt l' i).
Proof.
  intros Hus Hcs Hl Hc Hfound Hsel.
  assert (sel ≠ []) as Hne by (intros ->; by apply not_elem_of_nil in Hsel).
  split; [|split; [|split]].
  - intros confirmed. eexists. apply deleteUser_admin.
  - eexists. apply lockUser_admin.
  - eexists _, _. split; [by apply batchDeleteUsers_deletes|].
    unfold deletedWorld, loggedOutIf.
    split; [by destruct (_ && _)|]. split.
    + cbn [localStorage withNotifications withLocalStorage].
      rewrite lookup_insert_ne by done. by rewrite lookup_insert_eq.
    + apply findRef_filtered_out; [done|].
      simpl. by apply bool_decide_eq_true_2.
  - eexists _, _. split; [by apply batchLockUsers_locks|].
    split; [done|]. split; [by cbn; rewrite lookup_insert_eq|].
    eapply lockAll_locks_admin; [done|by right].
Qed.

Lemma admin_guard_missing_in_batch_operations_witness :
  (∃ w' l',
     batchDeleteUsers ["bob"; "zcr"] true adminWorld = (Ok tt, w') ∧
     users w' = VArr l' ∧
     localStorage w' !! "blogUsers" = Some (stringify (VArr l')) ∧
     findRef (propIs "username" "zcr") l' = Ok None) ∧
  (∃ w' l',
     batchLockUsers ["bob"; "zcr"] true adminWorld = (Ok tt, w') ∧
     users w' = VArr l' ∧
     localStorage w' !! "blogUsers" = Some (stringify (VArr l')) ∧
     adminLockedAt l' 0).
Proof.
  apply (admin_guard_missing_in_batch_operations adminWorld
           [adminAccount 0; bob] [] 0%nat (adminAccount 0) ["bob"; "zcr"]).
  - reflexivity.
  - reflexivity.
  - reflexivity.
  - reflexivity.
  - vm_compute. reflexivity.
  - apply list_elem_of_In. vm_compute. tauto.
Defined.

(** C3.  With no administrator session (nobody logged in, or [isAdmin]
    falsy), [pinComment] and [deleteComment] show the permission notice and
    change nothing else.  [lockUser], [deleteUser] and [editUser] do not
    read the session: on an existing user other than 'zcr' they toggle the
    flag, remove the user, overwrite the email, and persist the table. *)
Theorem permission_gate_missing_in_user_operations
    w l cs i user name email :
  sessionIsAdmin (currentUser w) = false →
  name ≠ "zcr" →
  users w = VArr l → comments w = VArr cs →
  forallb isObject l = true → forallb isObject cs = true →
  findRef (propIs "username" name) l = Ok (Some (i, user)) →
  email ≠ "" → validateEmail email = true →
  (∀ commentId,
     pinComment commentId w
     = (Ok tt, withNotifications
                 (notifications w ++ [Notice MsgPinCommentDenied Error 4000 true]) w)) ∧
  (∀ confirmed commentId,
     deleteComment confirmed commentId w
     = (Ok tt, withNotifications
                 (notifications w ++ [Notice MsgDeleteCommentDenied Error 4000 true]) w)) ∧
  (∃ w',
     lockUser name w = (Ok tt, w') ∧
     users w' = VArr (<[i := toggled user]> l) ∧
     field "isLocked" (toggled user) = VBool (negb (truthy (field "isLocked" user))) ∧
     localStorage w' !! "blogUsers" = Some (stringify (users w'))) ∧
  (∃ w' l',
     deleteUser true name w = (Ok tt, w') ∧
     users w' = VArr l' ∧
     findRef (propIs "username" name) l' = Ok None ∧
     localStorage w' !! "blogUsers" = Some (stringify (users w'))) ∧
  (∃ w' user',
     editUser (Some email) name w = (Ok tt, w') ∧
     users w' = VArr (<[i := user']> l) ∧
     field "email" user' = VStr email ∧
     localStorage w' !! "blogUsers" = Some (stringify (users w'))).
Proof.
  intros Hs Hn Hus Hcs Hl Hc Hfound He Hv.
  split; [intros; by apply pinComment_denied|].
  split; [intros; by apply deleteComment_denied|].
  split; [|split].
  - eexists. split; [by apply lockUser_toggles|].
    destruct (findRef_propIs _ _ _ _ _ Hfound) as [_ (fs & -> & _)].
    split; [done|]. split; [apply field_setField_eq|].
    by cbn; rewrite lookup_insert_eq.
  - eexists _, _. split; [by eapply deleteUser_deletes|].
    unfold deletedWorld, loggedOutIf.
    split; [by destruct (_ && _)|]. split.
    + apply (findRef_filtered_out (fun v => eqStr v name)); [done|].
      simpl. by apply bool_decide_eq_true_2.
    + destruct (_ && _); cbn;
        rewrite lookup_insert_ne by done; by rewrite lookup_insert_eq.
  - destruct (editUser_edits email name w l i user He Hv Hus Hfound)
      as (user' & Hrun & Hmail & _).
    eexists _, user'. split; [exact Hrun|]. split; [done|]. split; [done|].
    by cbn; rewrite lookup_insert_eq.
Qed.

Lemma permission_gate_missing_in_user_operations_witness :
  (∃ w',
     lockUser "bob" guestWorld = (Ok tt, w') ∧
     users w' = VArr (<[1%nat := toggled bob]> [adminAccount 0; bob]) ∧
     field "isLocked" (toggled bob) = VBool (negb (truthy (field "isLocked" bob))) ∧
     localStorage w' !! "blogUsers" = Some (stringify (users w'))) ∧
  (∃ w' l',
     deleteUser true "bob" guestWorld = (Ok tt, w') ∧
     users w' = VArr l' ∧
     findRef (propIs "username" "bob") l' = Ok None ∧
     localStorage w' !! "blogUsers" = Some (stringify (users w'))) ∧
  (∃ w' user',
     editUser (Some "x@y.zz") "bob" guestWorld = (Ok tt, w') ∧
     users w' = VArr (<[1%nat := user']> [adminAccount 0; bob]) ∧
     field "email" user' = VStr "x@y.zz" ∧
     localStorage w' !! "blogUsers" = Some (stringify (users w'))).
Proof.
  apply (permission_gate_missing_in_user_operations guestWorld
           [adminAccount 0; bob] [] 1%nat bob "bob" "x@y.zz").
  - reflexivity.
  - discriminate.
  - reflexivity.
  - reflexivity.
  - reflexivity.
  - reflexivity.
  - vm_compute. reflexivity.
  - discriminate.
  - vm_compute. reflexivity.
Defined.

(** *** The login status *)


Lemma clearSession_spec w :
  clearSession w =
  (Ok tt, withLocalStorage (<["blogUser" := Json VNull]> (localStorage w))
            (withCurrentUser VNull w)).
Proof. reflexivity. Qed.

Lemma someOf_users_steady w l :
  steadyUsers w l → someOf (propIs "username" "zcr") (VArr l) = Ok true.
Proof.
  intros (_ & Hwf & Hadmin). unfold someOf. cbn [arrayOf mbind outcome_bind].
  rewrite some_nonNull by (by apply wellFormed_nonNull). by rewrite Hadmin.
Qed.

(** The state in which [checkLoginStatus] validates the stored session. *)
Lemma checkLoginStatus_reaches c w l :
  steadyUsers w l →
  checkLoginStatus c w =
  (storedUser ← safeGetLocalStorage "blogUser" VNull;
   isValidUser ← lift (validateUserObject (validateAt c) storedUser);
   if isValidUser : bool then
     sessionExpiry ← lift (getProp storedUser "sessionExpiry");
     expired ← lift (if truthy sessionExpiry
                     then nowAfter (expiryCheckAt c) sessionExpiry
                     else Ok false);
     if expired : bool then
       clearSession;;
       showNotification MsgSessionExpired Info 4000 true
     else
       us'' ← get users;
       userExists ← lift (someOf (sameName storedUser) us'');
       if userExists : bool then
         modify (withCurrentUser storedUser);;
         showSectionHome
       else clearSession
   else clearSession) (withUsers (VArr l) w).
Proof.
  intros Hs. unfold checkLoginStatus.
  rewrite (run_bind _ _ _ _ _ (safeGetLocalStorage_users_steady _ _ _ Hs)).
  mstep.
  rewrite (bind_lift _ _ _ _ (someOf_users_steady _ _ Hs)). mstep.
  reflexivity.
Qed.

Lemma validateUserObject_object now s :
  validateUserObject now s = Ok true → isObject s = true.
Proof.
  unfold validateUserObject.
  destruct s; cbn; rewrite ?orb_true_r; try done.
Qed.

Lemma sameName_spec s x :
  isObject s = true → nonNull x = true →
  sameName s x = Ok (sameString (field "username" x) (field "username" s)).
Proof.
  intros Hs Hx. unfold sameName. rewrite (getProp_nonNull x) by done.
  by destruct s.
Qed.

Lemma someOf_sameName s l :
  isObject s = true → forallb nonNull l = true →
  someOf (sameName s) (VArr l) = Ok (nameIn s l).
Proof.
  intros Hs Hl. unfold someOf, nameIn. cbn [arrayOf mbind outcome_bind].
  induction l as [|x l IH]; [done|].
  cbn [forallb some existsb] in *. apply andb_prop in Hl as [Hx Hl].
  rewrite (sameName_spec s x) by done.
  cbn [mbind outcome_bind]. destruct (sameString _ _); [done|]. by apply IH.
Qed.

Lemma storedSession_get w0 w :
  localStorage w0 = localStorage w →
  safeGetLocalStorage "blogUser" VNull w0 = (Ok (storedSession w), w0).
Proof.
  intros H. rewrite safeGetLocalStorage_other by done.
  unfold storedSession. by rewrite H.
Qed.

Lemma unexpired_test now s :
  isObject s = true → unexpired now s →
  (sessionExpiry ← getProp s "sessionExpiry";
   if truthy sessionExpiry then nowAfter now sessionExpiry else Ok false)
  = Ok false.
Proof.
  intros Hs H. destruct s; try done. rewrite getProp_obj.
  cbn [mbind outcome_bind].
  destruct H as [->|(n & -> & Hn)]; [done|].
  destruct (truthy (VNum n)); [|done]. cbn.
  f_equal. apply Z.ltb_ge. lia.
Qed.

(** X1.  [checkLoginStatus] restores a stored session.  The stored user
    table is an array of well-formed users with the administrator among
    them; the record under 'blogUser' passes [validateUserObject], its
    [sessionExpiry] is falsy or not behind the clock, a user of the table
    bears its name, and the articles in memory are such that the home
    section can be rendered (each has a usable [createdAt] and a [title]
    and a [content] that are strings).  Then the call returns normally,
    the record is the current user, [this.users] is the stored table, the
    storage and the notices are as before, and [this.articles] is left
    sorted newest first by the rendering of the home section. *)
Theorem checkLoginStatus_restores c w l s sorted :
  steadyUsers w l →
  storedSession w = s →
  validateUserObject (validateAt c) s = Ok true →
  unexpired (expiryCheckAt c) s →
  nameIn s l = true →
  rendersTo w sorted →
  checkLoginStatus c w =
  (Ok tt, mkWorld (VArr sorted) (VArr l) (comments w) s (localStorage w)
            (sessionStorage w) (timers w) (notifications w)).
Proof.
  intros Hst Hs Hvalid Hexp Hname Hsort.
  pose proof (validateUserObject_object _ _ Hvalid) as Hobj.
  rewrite (checkLoginStatus_reaches _ _ _ Hst).
  rewrite (run_bind _ _ _ _ _ (storedSession_get (withUsers (VArr l) w) w eq_refl)). rewrite Hs.
  rewrite (bind_lift _ _ _ _ Hvalid). cbv beta iota.
  pose proof (unexpired_test _ _ Hobj Hexp) as Ht.
  destruct s as [| | | | | | |fs]; try done.
  rewrite getProp_obj in Ht |- *. cbn [mbind outcome_bind] in Ht.
  rewrite (bind_lift _ _ _ (field "sessionExpiry" (VObj fs))) by done.
  rewrite (bind_lift _ _ _ _ Ht). cbv beta iota. mstep.
  cbn [users withUsers].
  rewrite (bind_lift _ _ _ true).
  2:{ rewrite someOf_sameName; [by rewrite Hname|done|].
      apply wellFormed_nonNull, Hst. }
  cbv beta iota. mstep.
  rewrite (showSectionHome_spec _ sorted); [reflexivity|].
  by apply (rendersTo_articles w).
Qed.

Lemma checkLoginStatus_invalid c w l :
  steadyUsers w l →
  validateUserObject (validateAt c) (storedSession w) = Ok false →
  checkLoginStatus c w = (Ok tt, loggedOut l w).
Proof.
  intros Hst Hinv.
  rewrite (checkLoginStatus_reaches _ _ _ Hst).
  rewrite (run_bind _ _ _ _ _ (storedSession_get (withUsers (VArr l) w) w eq_refl)).
  rewrite (bind_lift _ _ _ _ Hinv). reflexivity.
Qed.

Lemma checkLoginStatus_expired c w l n :
  steadyUsers w l →
  validateUserObject (validateAt c) (storedSession w) = Ok true →
  field "sessionExpiry" (storedSession w) = VNum n → n ≠ 0 →
  n < expiryCheckAt c →
  checkLoginStatus c w =
  (Ok tt, withNotifications
            (notifications w ++ [Notice MsgSessionExpired Info 4000 true])
            (loggedOut l w)).
Proof.
  intros Hst Hvalid Hn Hn0 Hlt.
  rewrite (checkLoginStatus_reaches _ _ _ Hst).
  rewrite (run_bind _ _ _ _ _ (storedSession_get (withUsers (VArr l) w) w eq_refl)).
  pose proof (validateUserObject_object _ _ Hvalid) as Hobj.
  rewrite (bind_lift _ _ _ _ Hvalid). cbv beta iota.
  destruct (storedSession w) as [| | | | | | |fs]; try done.
  rewrite getProp_obj, Hn.
  rewrite (bind_lift _ _ _ (VNum n)) by done.
  rewrite (bind_lift _ _ _ true).
  2:{ cbn. destruct (n =? 0) eqn:E; [lia|]. cbn. f_equal. apply Z.ltb_lt. lia. }
  reflexivity.
Qed.

Lemma checkLoginStatus_unknown c w l :
  steadyUsers w l →
  validateUserObject (validateAt c) (storedSession w) = Ok true →
  unexpired (expiryCheckAt c) (storedSession w) →
  nameIn (storedSession w) l = false →
  checkLoginStatus c w = (Ok tt, loggedOut l w).
Proof.
  intros Hst Hvalid Hexp Hname.
  rewrite (checkLoginStatus_reaches _ _ _ Hst).
  rewrite (run_bind _ _ _ _ _ (storedSession_get (withUsers (VArr l) w) w eq_refl)).
  pose proof (validateUserObject_object _ _ Hvalid) as Hobj.
  rewrite (bind_lift _ _ _ _ Hvalid). cbv beta iota.
  pose proof (unexpired_test _ _ Hobj Hexp) as Ht.
  destruct (storedSession w) as [| | | | | | |fs] eqn:Es; try done.
  rewrite getProp_obj in Ht |- *. cbn [mbind outcome_bind] in Ht.
  rewrite (bind_lift _ _ _ (field "sessionExpiry" (VObj fs))) by done.
  rewrite (bind_lift _ _ _ _ Ht). cbv beta iota. mstep.
  cbn [users withUsers].
  rewrite (bind_lift _ _ _ false).
  2:{ rewrite someOf_sameName; [by rewrite Hname|done|].
      apply wellFormed_nonNull, Hst. }
  reflexivity.
Qed.

(** X2.  The three ways [checkLoginStatus] drops a stored session, the
    stored user table being well formed: the record under 'blogUser' fails
    [validateUserObject]; its [sessionExpiry] is a number other than 0
    that the clock has passed; no user of the table bears its name.  Each
    time the current user becomes [null], 'blogUser' is stored as [null],
    [this.users] is the stored table and the rest of the state is as
    before; only the expired session adds a notice (information, 4000 ms). *)
Theorem checkLoginStatus_clears c w l :
  steadyUsers w l →
  let s := storedSession w in
  (validateUserObject (validateAt c) s = Ok false →
   checkLoginStatus c w = (Ok tt, loggedOut l w)) ∧
  (∀ n, validateUserObject (validateAt c) s = Ok true →
        field "sessionExpiry" s = VNum n → n ≠ 0 → n < expiryCheckAt c →
        checkLoginStatus c w =
        (Ok tt, withNotifications
                  (notifications w ++ [Notice MsgSessionExpired Info 4000 true])
                  (loggedOut l w))) ∧
  (validateUserObject (validateAt c) s = Ok true →
   unexpired (expiryCheckAt c) s →
   nameIn s l = false →
   checkLoginStatus c w = (Ok tt, loggedOut l w)).
Proof.
  intros Hst s. split; [|split].
  - by apply checkLoginStatus_invalid.
  - intros n. by apply checkLoginStatus_expired.
  - by apply checkLoginStatus_unknown.
Qed.

Lemma forallb_insert {A} (p : A → bool) (l : list A) i x :
  forallb p l = true → p x = true → forallb p (<[i := x]> l) = true.
Proof.
  revert i. induction l as [|y l IH]; intros [|i] Hl Hx; simpl in *; try done.
  - apply andb_prop in Hl as [_ Hl]. by rewrite Hx.
  - apply andb_prop in Hl as [-> Hl]. by rewrite IH.
Qed.

Lemma hasAdmin_insert l i x y :
  l !! i = Some x → field "username" y = field "username" x →
  hasAdmin (<[i := y]> l) = hasAdmin l.
Proof.
  unfold hasAdmin. revert i. induction l as [|z l IH]; intros [|i] Hi Hy;
    simpl in *; try done.
  - injection Hi as ->. by rewrite Hy.
  - by rewrite (IH i).
Qed.

Lemma loggedIn_keeps c user f :
  f ≠ "lastLogin" → f ≠ "lockedUntil" → f ≠ "loginAttempts" →
  field f (loggedIn c user) = field f user.
Proof.
  intros H1 H2 H3. destruct user; try done. unfold loggedIn.
  by rewrite !field_setField_ne.
Qed.

Lemma loggedIn_wellFormed c user :
  wellFormedUser user = true → wellFormedUser (loggedIn c user) = true.
Proof.
  unfold wellFormedUser. rewrite !(loggedIn_keeps c user) by done.
  by destruct user.
Qed.

Lemma loggedIn_isJson c user : isJson user = true → isJson (loggedIn c user) = true.
Proof.
  destruct user; try done. cbn [loggedIn isJson]. intros H.
  by repeat apply isJson_setField.
Qed.

(** The session a login stores is one [validateUserObject] rejects. *)
Lemma stored_login_session c user :
  ∃ j, stringify (sessionOf c user) = Json j ∧
       ∀ now, validateUserObject now j = Ok false.
Proof.
  unfold stringify, sessionOf. cbn [jsonOf].
  eexists. split; [reflexivity|]. intros now.
  apply validateUserObject_needs_number. intros t.
  destruct (jsonOf (field "id" user)), (jsonOf (field "username" user)),
    (jsonOf (field "isAdmin" user)), (jsonOf (field "email" user));
    simpl; done.
Qed.

(** X3.  The session of a login does not survive [checkLoginStatus].  A
    login with valid credentials on a steady store makes the user the
    current user, and returns normally when the articles in memory can be
    rendered; [checkLoginStatus], run at any clock on the state the login
    left (as a reload of the page does), returns normally and leaves nobody
    logged in: the current user is [null] and 'blogUser' is stored as
    [null].  The [loginTime] the login wrote is an ISO string, and
    [validateUserObject] wants a number. *)
Theorem login_does_not_survive_reload
    c c' usernameValue password w l i user :
  steadyStore w l →
  forallb isJson l = true →
  trim usernameValue ≠ "" →
  (6 <= String.length password)%nat →
  findRef (propIs "username" (trim usernameValue)) l = Ok (Some (i, user)) →
  lockElapsed c (field "lockedUntil" user) →
  field "password" user = VStr (hashPassword password) →
  ∃ r w2 w3,
    handleLoginScreen c usernameValue password w = (r, w2) ∧
    (∀ sorted, rendersTo w sorted → r = Ok tt) ∧
    field "username" (currentUser w2) = VStr (trim usernameValue) ∧
    checkLoginStatus c' w2 = (Ok tt, w3) ∧
    currentUser w3 = VNull ∧
    localStorage w3 !! "blogUser" = Some (Json VNull).
Proof.
  intros Hsteady Hjson Hname Hpw Hfound Hlock Hpass.
  destruct (login_steady c usernameValue w l Hsteady)
    as (w1 & Hsync & Husers & _ & _ & _ & Harts).
  destruct (login_success_state c usernameValue password w w1 l i user)
    as (r & a & ns & Hrun); try done.
  destruct (findRef_propIs _ _ _ _ _ Hfound) as [Hi (fs & Hu & Hn)].
  destruct (stored_login_session c user) as (j & Hj & Hinvalid).
  set (l2 := <[i := loggedIn c user]> l).
  set (w2 := withNotifications ns (withArticles a (sessionWorld c w1 l i user))) in *.
  assert (steadyUsers w2 l2) as Hst2.
  { destruct Hsteady as ((_ & Hwf & Hadmin) & _). split; [|split].
    - unfold w2, sessionWorld. cbn [localStorage withNotifications withArticles].
      rewrite lookup_insert_ne by done. rewrite lookup_insert_eq.
      rewrite stringify_isJson; [done|]. cbn [isJson].
      apply forallb_insert; [done|]. apply loggedIn_isJson.
      by apply (isJson_lookup l i user Hjson).
    - apply forallb_insert; [done|]. apply loggedIn_wellFormed.
      rewrite forallb_forall in Hwf. apply Hwf.
      apply list_elem_of_In, list_elem_of_lookup. eauto.
    - unfold l2. rewrite (hasAdmin_insert _ _ user); [done|done|].
      by apply loggedIn_keeps. }
  exists r, w2, (loggedOut l2 w2).
  split; [exact Hrun|]. split.
  { intros sorted Hr.
    pose proof (login_success c usernameValue password w w1 l i user sorted
                  Hname Hpw Hsync Husers Hfound Hlock Hpass
                  (rendersTo_articles w w1 sorted Harts Hr)) as H.
    rewrite Hrun in H. by injection H. }
  split.
  { subst user. change (field "username" (VObj fs) = VStr (trim usernameValue)).
    unfold field. simpl. by rewrite Hn. }
  split; [|split; [done|by cbn; rewrite lookup_insert_eq]].
  apply checkLoginStatus_invalid; [done|].
  unfold storedSession, w2, sessionWorld.
  cbn [localStorage withNotifications withArticles].
  rewrite lookup_insert_eq, Hj. apply Hinvalid.
Qed.

Lemma login_does_not_survive_reload_witness :
  ∃ w2 w3,
    handleLoginScreen exampleClock "bob" "secret1" exampleWorld = (Ok tt, w2) ∧
    field "username" (currentUser w2) = VStr (trim "bob") ∧
    checkLoginStatus (statusClock 2000) w2 = (Ok tt, w3) ∧
    currentUser w3 = VNull ∧
    localStorage w3 !! "blogUser" = Some (Json VNull).
Proof.
  destruct (login_does_not_survive_reload exampleClock (statusClock 2000) "bob"
              "secret1" exampleWorld [adminAccount 0; bob] 1%nat bob)
    as (r & w2 & w3 & Hrun & Hok & H).
  - repeat split; vm_compute; reflexivity.
  - reflexivity.
  - vm_compute. discriminate.
  - vm_compute. lia.
  - vm_compute. reflexivity.
  - left. reflexivity.
  - vm_compute. reflexivity.
  - exists w2, w3. split; [|exact H].
    rewrite Hrun. f_equal. apply (Hok []). exists []. by repeat split.
Defined.

Lemma checkLoginStatus_restores_witness :
  checkLoginStatus (statusClock 2000) returningWorld =
  (Ok tt, mkWorld (VArr [article1]) (VArr [adminAccount 0; bob]) (VArr [])
            numericSession (localStorage returningWorld) ∅ [] []).
Proof.
  apply (checkLoginStatus_restores (statusClock 2000) returningWorld
           [adminAccount 0; bob] numericSession [article1]).
  - repeat split; vm_compute; reflexivity.
  - vm_compute. reflexivity.
  - vm_compute. reflexivity.
  - right. exists (1007 + day). split; [reflexivity|]. vm_compute. discriminate.
  - vm_compute. reflexivity.
  - exists [article1]. by repeat split.
Defined.

Lemma checkLoginStatus_clears_witness :
  checkLoginStatus (statusClock 2000) exampleWorld
    = (Ok tt, loggedOut [adminAccount 0; bob] exampleWorld) ∧
  checkLoginStatus (statusClock (2000 + day)) expiredWorld
    = (Ok tt, withNotifications [Notice MsgSessionExpired Info 4000 true]
                (loggedOut [adminAccount 0; bob] expiredWorld)) ∧
  checkLoginStatus (statusClock 2000) orphanWorld
    = (Ok tt, loggedOut [adminAccount 0] orphanWorld).
Proof.
  split; [|split].
  - refine (proj1 (checkLoginStatus_clears (statusClock 2000) exampleWorld
                     [adminAccount 0; bob] _) _).
    + repeat split; vm_compute; reflexivity.
    + vm_compute. reflexivity.
  - refine (proj1 (proj2 (checkLoginStatus_clears (statusClock (2000 + day))
                            expiredWorld [adminAccount 0; bob] _))
                  (1007 + day) _ _ _ _).
    + repeat split; vm_compute; reflexivity.
    + vm_compute. reflexivity.
    + vm_compute. reflexivity.
    + vm_compute. discriminate.
    + vm_compute. reflexivity.
  - refine (proj2 (proj2 (checkLoginStatus_clears (statusClock 2000) orphanWorld
                            [adminAccount 0] _)) _ _ _).
    + repeat split; vm_compute; reflexivity.
    + vm_compute. reflexivity.
    + right. exists (1007 + day). split; [reflexivity|]. vm_compute. discriminate.
    + vm_compute. reflexivity.
Defined.

(** *** The reset *)

Lemma safeGetLocalStorage_users_absent d w :
  localStorage w !! "blogUsers" = None → users w = VArr [] →
  safeGetLocalStorage "blogUsers" d w = (Ok d, w).
Proof.
  intros Hnone Hus.
  unfold safeGetLocalStorage, tryCatch, getItem. mstep. rewrite Hnone.
  change (bool_decide ("blogUsers" = "blogUsers")) with true. cbv beta iota.
  rewrite (run_bind _ _ _ _ _ (memoryNonEmpty_spec w [] Hus)). reflexivity.
Qed.

Lemma adminAccount_wellFormed now : wellFormedUser (adminAccount now) = true.
Proof. vm_compute. reflexivity. Qed.

Lemma adminAccount_stored now :
  stringify (VArr [adminAccount now]) = Json (VArr [adminAccount now]).
Proof. by apply stringify_isJson. Qed.

Lemma initializeAdminAccount_fresh now w :
  localStorage w !! "blogUsers" = None → users w = VArr [] →
  initializeAdminAccount now w =
  (Ok (VArr [adminAccount now]),
   withLocalStorage (<["blogUsers" := Json (VArr [adminAccount now])]> (localStorage w))
     (withUsers (VArr [adminAccount now]) w)).
Proof.
  intros Hnone Hus. unfold initializeAdminAccount.
  rewrite (run_bind _ _ _ _ _ (safeGetLocalStorage_users_absent _ _ Hnone Hus)).
  mstep. rewrite (bind_lift _ _ _ []) by done.
  rewrite (bind_lift _ _ _ None) by done. cbv beta iota. mstep.
  rewrite (bind_lift _ _ _ None) by done. cbv beta iota. mstep.
  cbn [users withUsers app]. rewrite adminAccount_stored. reflexivity.
Qed.

Lemma loadAllDataSafe_fresh w :
  localStorage w !! "blogArticles" = None →
  localStorage w !! "blogUsers" = None →
  localStorage w !! "blogComments" = None →
  localStorage w !! "blogUser" = None →
  users w = VArr [] →
  loadAllDataSafe w =
  (Ok true, mkWorld (VArr []) (VArr []) (VArr []) VNull (localStorage w)
              (sessionStorage w) (timers w) (notifications w)).
Proof.
  intros Ha Hu Hc Hs Hus. unfold loadAllDataSafe, tryCatch.
  rewrite (run_bind _ _ _ (VArr []) w).
  2:{ rewrite safeGetLocalStorage_other by done. by rewrite Ha. }
  rewrite (run_bind _ _ _ _ _ (safeGetLocalStorage_users_absent _ _ Hu Hus)).
  rewrite (run_bind _ _ _ (VArr []) w).
  2:{ rewrite safeGetLocalStorage_other by done. by rewrite Hc. }
  rewrite (run_bind _ _ _ VNull w).
  2:{ rewrite safeGetLocalStorage_other by done. by rewrite Hs. }
  reflexivity.
Qed.

(** X4.  [resetAllData], from every state, returns normally and leaves: no
    article, no comment and no session in memory; the fresh administrator
    account as the only user, in memory and under 'blogUsers'; [null]
    under 'blogUser'; no key 'blogArticles' and no key 'blogComments'; the
    other keys of the storage, the tab session and the timers as they
    were; and one more notice (information, 4000 ms). *)
Theorem resetAllData_leaves_only_admin adminAt c w :
  resetAllData adminAt c w =
  (Ok tt,
   mkWorld (VArr []) (VArr [adminAccount adminAt]) (VArr []) VNull
     (<["blogUser" := Json VNull]>
        (<["blogUsers" := Json (VArr [adminAccount adminAt])]>
           (delete "blogComments"
              (delete "blogArticles"
                 (delete "blogUsers" (delete "blogUser" (localStorage w)))))))
     (sessionStorage w) (timers w)
     (notifications w ++ [Notice MsgDataReset Info 4000 true])).
Proof.
  unfold resetAllData, tryCatch.
  rewrite !bind_remove. mstep.
  set (ls := delete "blogComments"
               (delete "blogArticles"
                  (delete "blogUsers" (delete "blogUser" (localStorage w))))).
  set (w0 := mkWorld (VArr []) (VArr []) (VArr []) VNull ls (sessionStorage w)
               (timers w) (notifications w)).
  match goal with
  | |- context [(loadAllDataSafe ≫= ?k) ?x] => change x with w0
  end.
  assert (ls !! "blogArticles" = None ∧ ls !! "blogUsers" = None ∧
          ls !! "blogComments" = None ∧ ls !! "blogUser" = None)
    as (Ha & Hu & Hc & Hs).
  { unfold ls. repeat split;
      repeat first [ by rewrite lookup_delete_eq
                   | rewrite lookup_delete_ne by done ]. }
  rewrite (run_bind _ _ _ _ _ (loadAllDataSafe_fresh w0 Ha Hu Hc Hs eq_refl)).
  cbn [localStorage sessionStorage timers notifications w0].
  erewrite run_bind; [|by apply initializeAdminAccount_fresh].
  cbn [localStorage withLocalStorage withUsers articles users comments
         currentUser sessionStorage timers notifications].
  erewrite run_bind.
  2:{ apply (checkLoginStatus_invalid _ _ [adminAccount adminAt]).
      - split; [by cbn; rewrite lookup_insert_eq|].
        split; [|reflexivity].
        cbn [forallb]. by rewrite (adminAccount_wellFormed adminAt).
      - unfold storedSession. cbn [localStorage withLocalStorage w0].
        rewrite lookup_insert_ne by done. by rewrite Hs. }
  reflexivity.
Qed.

(** *** Registration *)

Lemma someOf_propIs k s l :
  k ≠ "length" → forallb nonNull l = true →
  someOf (propIs k s) (VArr l) = Ok (taken k s l).
Proof.
  intros Hk Hl. unfold someOf, taken. cbn [arrayOf mbind outcome_bind].
  induction l as [|x l IH]; [done|].
  cbn [forallb some existsb] in *. apply andb_prop in Hl as [Hx Hl].
  rewrite (propIs_nonNull _ _ x Hx) by done.
  cbn [mbind outcome_bind]. destruct (eqStr _ _); [done|]. by apply IH.
Qed.

Lemma registrationInputOk_tests uv ev p cp :
  registrationInputOk uv ev p cp = true →
  bool_decide (trim uv = "") || bool_decide (trim ev = "")
    || bool_decide (p = "") || bool_decide (cp = "") = false ∧
  (String.length (trim uv) <? 3)%nat || (20 <? String.length (trim uv))%nat = false ∧
  wordOnly (trim uv) = true ∧ validateEmail (trim ev) = true ∧
  (String.length p <? 6)%nat = false ∧ letterAndDigit p = true ∧
  bool_decide (p = cp) = true.
Proof.
  unfold registrationInputOk. intros H.
  repeat (apply andb_prop in H as [H ?]).
  repeat split; try done; by apply negb_true_iff.
Qed.

Lemma register_accepts newId createdNow loginNow uv ev p cp w l sorted :
  registrationInputOk uv ev p cp = true →
  users w = VArr l → forallb nonNull l = true →
  taken "username" (trim uv) l = false →
  taken "email" (trim ev) l = false →
  rendersTo w sorted →
  handleRegisterScreen newId createdNow loginNow uv ev p cp w =
  (Ok tt, registeredWorld newId createdNow loginNow (trim uv) (trim ev) p l sorted w).
Proof.
  intros Hok Hus Hl Hname Hemail Hsort.
  destruct (registrationInputOk_tests _ _ _ _ Hok)
    as (H1 & H2 & H3 & H4 & H5 & H6 & H7).
  unfold handleRegisterScreen. rewrite H1, H2, H3, H4, H5, H6, H7. cbn [negb].
  mstep. rewrite Hus.
  rewrite (bind_lift _ _ _ false) by (by rewrite someOf_propIs, Hname).
  cbv beta iota.
  rewrite (bind_lift _ _ _ false) by (by rewrite someOf_propIs, Hemail).
  cbv beta iota.
  rewrite (bind_lift _ _ _ l) by done. mstep.
  erewrite run_bind.
  2:{ apply (showSectionHome_spec _ sorted). by apply (rendersTo_articles w). }
  reflexivity.
Qed.

(** X5.  A refused registration changes nothing.  When one of the tests on
    the four fields fails (a field is empty; the trimmed name has fewer
    than 3 or more than 20 characters, or a character that is no letter,
    digit or underscore; the email is refused by [validateEmail]; the
    password has fewer than 6 characters, lacks a letter or a digit, or
    differs from its confirmation), or the trimmed name or email is that
    of a user of the table, the call returns normally and adds one
    notice of level error; the users, the session and the storage are
    as before. *)
Theorem register_rejects newId createdNow loginNow uv ev p cp w l :
  users w = VArr l → forallb nonNull l = true →
  registrationInputOk uv ev p cp = false
  ∨ taken "username" (trim uv) l = true
  ∨ taken "email" (trim ev) l = true →
  ∃ note,
    handleRegisterScreen newId createdNow loginNow uv ev p cp w
    = (Ok tt, withNotifications (notifications w ++ [note]) w) ∧
    level note = Error.
Proof.
  intros Hus Hl Hbad. unfold handleRegisterScreen, registrationInputOk in *.
  destruct (bool_decide (trim uv = "") || bool_decide (trim ev = "")
            || bool_decide (p = "") || bool_decide (cp = "")); [by eexists|].
  destruct ((String.length (trim uv) <? 3)%nat || (20 <? String.length (trim uv))%nat);
    [by eexists|].
  destruct (wordOnly (trim uv)); [|by eexists].
  destruct (validateEmail (trim ev)); [|by eexists].
  destruct (String.length p <? 6)%nat; [by eexists|].
  destruct (letterAndDigit p); [|by eexists].
  destruct (bool_decide (p = cp)); [|by eexists].
  cbn [negb andb] in *. mstep. rewrite Hus.
  rewrite (bind_lift _ _ _ _ (someOf_propIs "username" (trim uv) l ltac:(done) Hl)).
  destruct (taken "username" (trim uv) l); [by eexists|].
  rewrite (bind_lift _ _ _ _ (someOf_propIs "email" (trim ev) l ltac:(done) Hl)).
  destruct (taken "email" (trim ev) l); [by eexists|].
  by destruct Hbad as [?|[?|?]].
Qed.

Lemma hexAux_nonempty fuel n acc : acc ≠ "" → hexAux fuel n acc ≠ "".
Proof.
  revert n acc. induction fuel as [|fuel IH]; intros n acc Hacc; [done|].
  cbn [hexAux]. destruct (n / 16 =? 0); [done|]. by apply IH.
Qed.

Lemma hashPassword_nonempty p : hashPassword p ≠ "".
Proof.
  unfold hashPassword, toString16. cbn [hexAux].
  destruct (_ =? 0); [done|]. by apply hexAux_nonempty.
Qed.

Lemma findRef_app_last k s l x :
  k ≠ "length" → forallb nonNull l = true →
  taken k s l = false → propIs k s x = Ok true →
  findRef (propIs k s) (l ++ [x]) = Ok (Some (length l, x)).
Proof.
  intros Hk Hl Ht Hx. unfold taken in Ht.
  induction l as [|y l IH]; cbn [app findRef length].
  - by rewrite Hx.
  - cbn [forallb existsb] in *. apply andb_prop in Hl as [Hy Hl].
    apply orb_false_elim in Ht as [Hyk Ht].
    rewrite (propIs_nonNull _ _ y Hy) by done. cbn [mbind outcome_bind].
    rewrite Hyk. by rewrite IH.
Qed.

Lemma forallb_snoc {A} (p : A → bool) l x :
  forallb p l = true → p x = true → forallb p (l ++ [x]) = true.
Proof. intros Hl Hx. rewrite forallb_app, Hl. simpl. by rewrite Hx. Qed.

Lemma hasAdmin_snoc l x : hasAdmin l = true → hasAdmin (l ++ [x]) = true.
Proof. unfold hasAdmin. intros H. by rewrite existsb_app, H. Qed.

Lemma registered_steady newId createdNow loginNow name email p l sorted w :
  name ≠ "" →
  forallb isJson l = true → forallb wellFormedUser l = true →
  hasAdmin l = true →
  isArray (storedOr "blogArticles" w) = true →
  isArray (storedOr "blogComments" w) = true →
  steadyStore (registeredWorld newId createdNow loginNow name email p l sorted w)
              (l ++ [newUserRecord newId createdNow name email p]).
Proof.
  intros Hname Hjson Hwf Hadmin Ha Hc. split; [split; [|split]|split].
  - unfold registeredWorld. cbn [localStorage].
    rewrite lookup_insert_ne by done. rewrite lookup_insert_eq.
    rewrite stringify_isJson; [done|]. cbn [isJson].
    apply forallb_snoc; [done|reflexivity].
  - apply forallb_snoc; [done|]. unfold wellFormedUser.
    change (field "username" (newUserRecord newId createdNow name email p))
      with (VStr name).
    change (field "password" (newUserRecord newId createdNow name email p))
      with (VStr (hashPassword p)).
    cbn [truthy newUserRecord typeOf].
    rewrite (bool_decide_eq_false_2 _ Hname).
    by rewrite (bool_decide_eq_false_2 _ (hashPassword_nonempty p)).
  - by apply hasAdmin_snoc.
  - unfold storedOr, registeredWorld in *. cbn [localStorage].
    by rewrite !lookup_insert_ne by done.
  - unfold storedOr, registeredWorld in *. cbn [localStorage].
    by rewrite !lookup_insert_ne by done.
Qed.

Lemma registrationInputOk_name uv ev p cp :
  registrationInputOk uv ev p cp = true →
  trim uv ≠ "" ∧ (6 <= String.length p)%nat.
Proof.
  intros H. destruct (registrationInputOk_tests _ _ _ _ H)
    as (H1 & _ & _ & _ & H5 & _).
  split.
  - intros E. by rewrite E in H1.
  - by apply Nat.ltb_ge.
Qed.

(** X6.  Who registered can log in.  After a registration that passes the
    tests of the form, with a name and an email no user of the table has
    (the table is well formed, with the administrator in it; the articles
    in memory are such that the home section can be rendered), a login
    with the same name and password returns normally and opens a session
    with the trimmed name, the identifier the registration generated, and
    [isAdmin] [false]. *)
Theorem register_then_login
    newId createdNow loginNow c uv ev p cp w l sorted :
  registrationInputOk uv ev p cp = true →
  users w = VArr l →
  forallb isJson l = true → forallb wellFormedUser l = true →
  hasAdmin l = true →
  isArray (storedOr "blogArticles" w) = true →
  isArray (storedOr "blogComments" w) = true →
  taken "username" (trim uv) l = false →
  taken "email" (trim ev) l = false →
  rendersTo w sorted →
  ∃ w1 w2,
    handleRegisterScreen newId createdNow loginNow uv ev p cp w = (Ok tt, w1) ∧
    handleLoginScreen c uv p w1 = (Ok tt, w2) ∧
    field "username" (currentUser w2) = VStr (trim uv) ∧
    field "isAdmin" (currentUser w2) = VBool false ∧
    field "id" (currentUser w2) = VStr newId.
Proof.
  intros Hok Hus Hjson Hwf Hadmin Ha Hc Hname Hemail Hsort.
  destruct (registrationInputOk_name _ _ _ _ Hok) as [Hne Hlen].
  pose proof (wellFormed_nonNull _ Hwf) as Hnn.
  set (new := newUserRecord newId createdNow (trim uv) (trim ev) p).
  set (w1 := registeredWorld newId createdNow loginNow (trim uv) (trim ev) p l
               sorted w).
  assert (steadyStore w1 (l ++ [new])) as Hsteady by (by apply registered_steady).
  destruct (login_steady c uv w1 _ Hsteady)
    as (w1' & Hsync & Husers & _ & _ & _ & Harts).
  assert (findRef (propIs "username" (trim uv)) (l ++ [new])
          = Ok (Some (length l, new))) as Hfound.
  { apply findRef_app_last; [done..|]. unfold propIs.
    change (getProp new "username") with (Ok (VStr (trim uv))).
    cbn [mbind outcome_bind eqStr]. by rewrite bool_decide_eq_true_2. }
  exists w1, (loggedInWorld c w1' (l ++ [new]) (length l) new sorted).
  split; [by apply register_accepts|]. split.
  - eapply login_success; try done; [by left|].
    by apply (rendersTo_again w).
  - repeat split; unfold loggedInWorld, sessionOf, field; cbn; done.
Qed.

Lemma register_then_login_witness :
  ∃ w1 w2,
    handleRegisterScreen "id1" 50 51 " carol " "carol@example.org" "secret1"
                         "secret1" freshWorld = (Ok tt, w1) ∧
    handleLoginScreen exampleClock " carol " "secret1" w1 = (Ok tt, w2) ∧
    field "username" (currentUser w2) = VStr (trim " carol ") ∧
    field "isAdmin" (currentUser w2) = VBool false ∧
    field "id" (currentUser w2) = VStr "id1".
Proof.
  apply (register_then_login "id1" 50 51 exampleClock " carol "
           "carol@example.org" "secret1" "secret1" freshWorld [adminAccount 0] []);
    [vm_compute; reflexivity..|].
  exists []. by repeat split.
Defined.

Lemma register_rejects_witness :
  ∃ note,
    handleRegisterScreen "id1" 50 51 "bob" "bob2@example.org" "secret1" "secret1"
                         guestWorld
    = (Ok tt, withNotifications (notifications guestWorld ++ [note]) guestWorld) ∧
    level note = Error.
Proof.
  apply (register_rejects "id1" 50 51 "bob" "bob2@example.org" "secret1" "secret1"
           guestWorld [adminAccount 0; bob]).
  - reflexivity.
  - reflexivity.
  - right. left. vm_compute. reflexivity.
Defined.

Lemma taken_false_notin s l :
  taken "username" s l = false → VStr s ∉ names l.
Proof.
  unfold taken, names. induction l as [|x l IH]; cbn [existsb List.map].
  - intros _. apply not_elem_of_nil.
  - intros H. apply orb_false_elim in H as [Hx Hl].
    apply not_elem_of_cons. split; [|by apply IH].
    intros E. rewrite <- E in Hx. cbn in Hx.
    by rewrite bool_decide_eq_true_2 in Hx.
Qed.

(** X7.  Registration keeps the user names distinct.  If no two users of the
    table have the same [username], that holds after
    [handleRegisterScreen], whatever the input: the table is as it was, or
    has one more entry, at its end, with the trimmed name and [isAdmin]
    [false]. *)
Theorem register_keeps_names_unique
    newId createdNow loginNow uv ev p cp w l :
  users w = VArr l → forallb nonNull l = true →
  NoDup (names l) →
  ∃ l', users (handleRegisterScreen newId createdNow loginNow uv ev p cp w).2
          = VArr l' ∧
        NoDup (names l') ∧
        (l' = l ∨ ∃ new, l' = (l ++ [new])%list ∧ field "username" new = VStr (trim uv)
                          ∧ field "isAdmin" new = VBool false).
Proof.
  intros Hus Hl Hnd. unfold handleRegisterScreen.
  repeat match goal with
         | |- context [if ?b then showNotification _ _ _ _ else _] =>
             destruct b; [by exists l; cbn; auto|]
         end.
  mstep. rewrite Hus.
  rewrite (bind_lift _ _ _ _ (someOf_propIs "username" (trim uv) l ltac:(done) Hl)).
  destruct (taken "username" (trim uv) l) eqn:Hname; [by exists l; cbn; auto|].
  rewrite (bind_lift _ _ _ _ (someOf_propIs "email" (trim ev) l ltac:(done) Hl)).
  destruct (taken "email" (trim ev) l); [by exists l; cbn; auto|].
  rewrite (bind_lift _ _ _ l) by done. mstep.
  match goal with |- context [(showSectionHome ≫= ?k) ?w0] =>
    destruct (showSectionHome_frame w0) as (r & a & Hr);
    unfold mbind at 1, M_bind at 1; rewrite Hr
  end.
  exists (l ++ [newUserRecord newId createdNow (trim uv) (trim ev) p])%list.
  split; [destruct r as [[]| |]; reflexivity|]. split.
  - unfold names. rewrite map_app. apply NoDup_app. split; [done|]. split.
    + intros x Hx Hx'. cbn in Hx'. apply list_elem_of_singleton in Hx'. subst x.
      by apply (taken_false_notin _ _ Hname).
    + cbn. apply NoDup_singleton.
  - right. by eexists.
Qed.

Lemma register_keeps_names_unique_witness :
  ∃ l', users (handleRegisterScreen "id1" 50 51 "carol" "carol@example.org"
                 "secret1" "secret1" guestWorld).2 = VArr l' ∧
        NoDup (names l') ∧
        (l' = [adminAccount 0; bob]
         ∨ ∃ new, l' = ([adminAccount 0; bob] ++ [new])%list
                  ∧ field "username" new = VStr (trim "carol")
                  ∧ field "isAdmin" new = VBool false).
Proof.
  apply (register_keeps_names_unique "id1" 50 51 "carol" "carol@example.org"
           "secret1" "secret1" guestWorld [adminAccount 0; bob]).
  - reflexivity.
  - reflexivity.
  - change (names [adminAccount 0; bob]) with [VStr "zcr"; VStr "bob"].
    apply NoDup_cons_2; [|apply NoDup_singleton].
    intros H%list_elem_of_singleton. discriminate.
Defined.

(** *** Unlocking in batch *)

Lemma wellFormed_objects l :
  forallb wellFormedUser l = true → forallb isObject l = true.
Proof.
  induction l as [|x l IH]; simpl; [done|].
  intros H. apply andb_prop in H as [Hx Hl]. rewrite (IH Hl).
  unfold wellFormedUser in Hx.
  apply andb_prop in Hx as [Hx _]. apply andb_prop in Hx as [Hx H3].
  apply andb_prop in Hx as [H1 H2].
  destruct x; try done; vm_compute in H2; discriminate.
Qed.

Lemma unlockOne_spec name w l :
  users w = VArr l → forallb isObject l = true →
  unlockOne name w = (Ok tt, withUsers (VArr (unlockStep l name)) w).
Proof.
  intros Hus Hl. unfold unlockOne, unlockStep.
  unfold mbind at 1, M_bind at 1, get at 1. rewrite Hus.
  rewrite (bind_lift _ _ _ l) by done.
  destruct (findRef_objects "username" name l Hl) as [r Hr].
  rewrite (bind_lift _ _ _ _ Hr). rewrite Hr.
  destruct r as [[i user]|].
  - destruct (findRef_propIs _ _ _ _ _ Hr) as [_ (fs & -> & _)]. reflexivity.
  - rewrite <- Hus. by rewrite withUsers_id.
Qed.

Lemma unlockStep_objects l name :
  forallb isObject l = true → forallb isObject (unlockStep l name) = true.
Proof.
  intros H. unfold unlockStep.
  destruct (findRef _ l) as [[[i [| | | | | | |fs]]|]| |]; try done.
  by apply isObject_insert.
Qed.

Lemma forEach_unlockOne sel w l :
  users w = VArr l → forallb isObject l = true →
  forEach unlockOne sel w = (Ok tt, withUsers (VArr (foldl unlockStep l sel)) w).
Proof.
  revert w l. induction sel as [|name sel IH]; intros w l Hus Hl; simpl.
  - rewrite <- Hus. by rewrite withUsers_id.
  - rewrite (run_bind _ _ _ _ _ (unlockOne_spec name w l Hus Hl)).
    rewrite (IH _ (unlockStep l name)); [done|done|by apply unlockStep_objects].
Qed.

Lemma batchUnlockUsers_unlocks sel w l :
  sel ≠ [] → users w = VArr l → forallb isObject l = true →
  let us := VArr (foldl unlockStep l sel) in
  batchUnlockUsers sel true w =
  (Ok tt,
   mkWorld (articles w) us (comments w) (currentUser w)
     (<["blogUsers" := stringify us]> (localStorage w))
     (sessionStorage w) (timers w)
     (notifications w ++ [Notice (MsgUsersUnlocked (length sel)) Success 3000 true])).
Proof.
  intros Hn Hus Hl us. unfold batchUnlockUsers.
  destruct sel as [|s sel]; [done|].
  rewrite (run_bind _ _ _ _ _ (forEach_unlockOne _ w l Hus Hl)).
  reflexivity.
Qed.

(** Writing [isLocked] changes no other property. *)
Lemma setLocked_keeps b fs f :
  f ≠ "isLocked" →
  field f (VObj (setField "isLocked" (VBool b) fs)) = field f (VObj fs).
Proof. intros H. by apply field_setField_ne. Qed.

Lemma setLocked_wellFormed b fs :
  wellFormedUser (VObj fs) = true →
  wellFormedUser (VObj (setField "isLocked" (VBool b) fs)) = true.
Proof. unfold wellFormedUser. by rewrite !setLocked_keeps. Qed.

Lemma unlockStep_keeps l name' n i x :
  soundUsers l →
  findRef (propIs "username" n) l = Ok (Some (i, x)) →
  soundUsers (unlockStep l name') ∧
  ∃ y, findRef (propIs "username" n) (unlockStep l name') = Ok (Some (i, y)) ∧
       ∀ f, f ≠ "isLocked" → field f y = field f x.
Proof.
  intros (Hjson & Hwf & Hadmin) Hx. unfold unlockStep.
  destruct (findRef (propIs "username" name') l) as [[[j u]|]| |] eqn:E;
    try (split; [done|]; by exists x).
  destruct (findRef_propIs _ _ _ _ _ E) as [Hj (fs & -> & Hname)].
  split; [split; [|split]|].
  - apply forallb_insert; [done|]. cbn [isJson].
    apply isJson_setField; [|done]. by apply (isJson_lookup l j (VObj fs) Hjson).
  - apply forallb_insert; [done|]. apply setLocked_wellFormed.
    rewrite forallb_forall in Hwf. apply Hwf.
    apply list_elem_of_In, list_elem_of_lookup. eauto.
  - rewrite (hasAdmin_insert _ _ (VObj fs)); [done|done|].
    by apply setLocked_keeps.
  - rewrite (findRef_insert_keep _ _ _ _ _ Hj).
    2:{ unfold propIs. simpl. by rewrite lookupField_setField_ne. }
    rewrite Hx. eexists. split; [reflexivity|].
    destruct (decide (i = j)) as [->|Hne]; [|done].
    destruct (findRef_Some _ _ _ _ Hx) as [Hi _]. rewrite Hj in Hi.
    injection Hi as <-. intros f Hf. by rewrite setLocked_keeps.
Qed.

Lemma unlockAll_keeps sel l n i x :
  soundUsers l →
  findRef (propIs "username" n) l = Ok (Some (i, x)) →
  soundUsers (foldl unlockStep l sel) ∧
  ∃ y, findRef (propIs "username" n) (foldl unlockStep l sel) = Ok (Some (i, y)) ∧
       ∀ f, f ≠ "isLocked" → field f y = field f x.
Proof.
  revert l x. induction sel as [|s sel IH]; intros l x Hl Hx; simpl.
  - split; [done|]. by exists x.
  - destruct (unlockStep_keeps l s n i x Hl Hx) as (Hl' & y & Hy & Hf).
    destruct (IH _ y Hl' Hy) as (Hl'' & z & Hz & Hf').
    split; [done|]. exists z. split; [done|].
    intros f Hne. rewrite Hf' by done. by apply Hf.
Qed.

(** X8.  Unlocking in batch does not lift the lock-out of the login.
    [batchUnlockUsers], confirmed, on a non-empty selection returns
    normally and sets [isLocked] to [false] on the selected users that
    exist; [lockedUntil] and [loginAttempts] stay.  So a user whose
    [lockedUntil] is a valid time ahead of the clock is refused by the
    login that follows, selected or not: the notices added are the one of
    the unlocking and the account-locked notice with the minutes that
    remain (the least [m] with the remaining time at most [m] minutes),
    and the session is as before. *)
Theorem unlock_keeps_login_lockout c sel uv p w l i user t :
  users w = VArr l → soundUsers l →
  isArray (storedOr "blogArticles" w) = true →
  isArray (storedOr "blogComments" w) = true →
  sel ≠ [] →
  trim uv ≠ "" → (6 <= String.length p)%nat →
  findRef (propIs "username" (trim uv)) l = Ok (Some (i, user)) →
  lockHolds c (field "lockedUntil" user) t →
  ∃ w1 w2 m,
    batchUnlockUsers sel true w = (Ok tt, w1) ∧
    (∃ user', findRef (propIs "username" (trim uv)) (foldl unlockStep l sel)
                = Ok (Some (i, user')) ∧
              users w1 = VArr (foldl unlockStep l sel) ∧
              field "lockedUntil" user' = field "lockedUntil" user ∧
              field "loginAttempts" user' = field "loginAttempts" user) ∧
    handleLoginScreen c uv p w1 = (Ok tt, w2) ∧
    currentUser w2 = currentUser w ∧
    notifications w2 =
      (notifications w ++
         [Notice (MsgUsersUnlocked (length sel)) Success 3000 true;
          Notice (MsgAccountLocked m) Error 0 false])%list ∧
    60000 * (m - 1) < t - remainingAt c <= 60000 * m.
Proof.
  intros Hus Hsound Ha Hc Hsel Hname Hpw Hfound Hlock.
  destruct (unlockAll_keeps sel l _ i user Hsound Hfound)
    as ((Hjson & Hwf & Hadmin) & y & Hy & Hf).
  set (l' := foldl unlockStep l sel) in *.
  pose proof (batchUnlockUsers_unlocks sel w l Hsel Hus
                (wellFormed_objects _ (proj1 (proj2 Hsound)))) as Hrun.
  cbv zeta in Hrun. fold l' in Hrun.
  match type of Hrun with _ = (_, ?x) => set (w1 := x) in * end.
  assert (steadyStore w1 l') as Hsteady.
  { split; [split; [|done]|split].
    - unfold w1. cbn [localStorage]. rewrite lookup_insert_eq.
      by rewrite stringify_isJson.
    - unfold storedOr, w1 in *. cbn [localStorage].
      by rewrite !lookup_insert_ne by done.
    - unfold storedOr, w1 in *. cbn [localStorage].
      by rewrite !lookup_insert_ne by done. }
  destruct (login_steady c uv w1 l' Hsteady)
    as (w1' & Hsync & Husers & _ & Hcu & Hnote & _).
  exists w1, (lockedWorld c w1' t), (ceilMinutes (t - remainingAt c)).
  split; [done|]. split.
  { exists y. split; [done|]. split; [done|]. split; by apply Hf. }
  split.
  { eapply login_locked; try done. by rewrite Hf. }
  split; [by unfold lockedWorld; cbn; rewrite Hcu|].
  split; [|apply ceilMinutes_spec].
  unfold lockedWorld. cbn [notifications withNotifications]. rewrite Hnote.
  unfold w1. cbn [notifications]. by rewrite <- app_assoc.
Qed.

Lemma unlock_keeps_login_lockout_witness :
  ∃ w1 w2 m,
    batchUnlockUsers ["bob"] true lockedOutWorld = (Ok tt, w1) ∧
    (∃ user', findRef (propIs "username" (trim "bob"))
                (foldl unlockStep [adminAccount 0; bobLocked] ["bob"])
                = Ok (Some (1%nat, user')) ∧
              users w1 = VArr (foldl unlockStep [adminAccount 0; bobLocked] ["bob"]) ∧
              field "lockedUntil" user' = field "lockedUntil" bobLocked ∧
              field "loginAttempts" user' = field "loginAttempts" bobLocked) ∧
    handleLoginScreen exampleClock "bob" "secret1" w1 = (Ok tt, w2) ∧
    currentUser w2 = currentUser lockedOutWorld ∧
    notifications w2 =
      (notifications lockedOutWorld ++
         [Notice (MsgUsersUnlocked (length ["bob"])) Success 3000 true;
          Notice (MsgAccountLocked m) Error 0 false])%list ∧
    60000 * (m - 1) < 5000 - remainingAt exampleClock <= 60000 * m.
Proof.
  apply (unlock_keeps_login_lockout exampleClock ["bob"] "bob" "secret1"
           lockedOutWorld [adminAccount 0; bobLocked] 1%nat bobLocked 5000).
  - reflexivity.
  - repeat split; vm_compute; reflexivity.
  - reflexivity.
  - reflexivity.
  - discriminate.
  - vm_compute. discriminate.
  - vm_compute. lia.
  - vm_compute. reflexivity.
  - repeat split; vm_compute; reflexivity.
Defined.

(** *** Articles *)

Lemma filter_dated (f : value → bool) l :
  forallb isDated l = true → forallb isDated (List.filter f l) = true.
Proof.
  induction l as [|a l IH]; simpl; [done|].
  intros H. apply andb_prop in H as [Ha Hl].
  destruct (f a); simpl; [rewrite Ha|]; by apply IH.
Qed.

(** Rendering once more after a rendering changes nothing. *)
Lemma rendered w l :
  articles w = VArr l → forallb isArticle l = true →
  (renderMyArticles;; renderRecentArticles;; updateStats) w
  = (Ok tt, withArticles (VArr (sortedNewest l)) w).
Proof.
  intros Ha Hl.
  erewrite run_bind; [|by apply renderMyArticles_spec].
  erewrite run_bind;
    [|by apply (renderRecentArticles_spec _ (sortedNewest l));
         [|apply sortedNewest_articles]].
  rewrite sortedNewest_idem.
  apply (updateStats_spec _ (sortedNewest l)); [done|].
  by apply objects_nonNull, articles_objects, sortedNewest_articles.
Qed.

Lemma deleteArticle_spec articleId w l :
  articles w = VArr l → forallb isArticle l = true →
  deleteArticle true articleId w =
  (Ok tt,
   mkWorld (VArr (sortedNewest (otherArticles articleId l))) (users w) (comments w)
     (currentUser w)
     (<["blogArticles" := stringify (VArr (otherArticles articleId l))]>
        (localStorage w))
     (sessionStorage w) (timers w)
     (notifications w ++ [Notice MsgArticleDeleted Success 3000 true])).
Proof.
  intros Ha Hl. unfold deleteArticle. mstep. rewrite Ha.
  rewrite (bind_lift _ _ _ l) by done.
  erewrite bind_lift;
    last by (apply filter_objects; [apply propIsNot_object|by apply articles_objects]).
  mstep. cbn [articles withArticles].
  erewrite (rendered _ (otherArticles articleId l)); [reflexivity|done|].
  by apply forallb_filter.
Qed.

Lemma otherArticles_spec articleId l :
  Forall (fun a => field "id" a ≠ VStr articleId) (otherArticles articleId l).
Proof.
  unfold otherArticles. induction l as [|a l IH]; simpl; [done|].
  destruct (eqStr (field "id" a) articleId) eqn:E; simpl; [done|].
  constructor; [|done]. intros H. rewrite H in E. cbn in E.
  by rewrite bool_decide_eq_true_2 in E.
Qed.

(** X10.  [deleteArticle], confirmed, every article in memory having a usable
    [createdAt] and a [title] and a [content] that are strings: the call
    returns normally, stores the articles of the memory whose [id] is not
    the given one, in their order, and leaves them in memory sorted newest
    first; no article of the given [id] remains.  The comments, in memory
    and in the storage, are as before, those of the deleted article too,
    and so is the session.  When the dialog is declined the state is as
    before. *)
Theorem deleteArticle_removes articleId w l :
  articles w = VArr l → forallb isArticle l = true →
  ∃ w',
    deleteArticle true articleId w = (Ok tt, w') ∧
    localStorage w' !! "blogArticles"
      = Some (stringify (VArr (otherArticles articleId l))) ∧
    articles w' = VArr (sortedNewest (otherArticles articleId l)) ∧
    Forall (fun a => field "id" a ≠ VStr articleId)
           (sortedNewest (otherArticles articleId l)) ∧
    comments w' = comments w ∧
    localStorage w' !! "blogComments" = localStorage w !! "blogComments" ∧
    currentUser w' = currentUser w ∧
    deleteArticle false articleId w = (Ok tt, w).
Proof.
  intros Ha Hl. eexists. split; [by apply deleteArticle_spec|].
  cbn [localStorage articles comments currentUser].
  split; [by rewrite lookup_insert_eq|]. split; [done|]. split.
  { rewrite sortedNewest_perm. apply otherArticles_spec. }
  split; [done|]. split; [by rewrite lookup_insert_ne|]. done.
Qed.

Lemma deleteArticle_removes_witness :
  ∃ w',
    deleteArticle true "a1" libraryWorld = (Ok tt, w') ∧
    localStorage w' !! "blogArticles" = Some (stringify (VArr [article2])) ∧
    articles w' = VArr [article2] ∧
    Forall (fun a => field "id" a ≠ VStr "a1") [article2] ∧
    comments w' = VArr [comment1] ∧
    localStorage w' !! "blogComments" = Some (Json (VArr [comment1])) ∧
    currentUser w' = VNull ∧
    deleteArticle false "a1" libraryWorld = (Ok tt, libraryWorld).
Proof.
  apply (deleteArticle_removes "a1" libraryWorld [article1; article2]);
    reflexivity.
Defined.


Lemma newArticle_article newId c1 c2 t cat ct :
  isArticle (newArticle newId c1 c2 t cat ct) = true.
Proof. reflexivity. Qed.













Lemma incrementViewsSafely_exact t now a w m j old l i article k :
  viewed a w = false →
  tooFrequent (localStorage w !! lockKey a) now = false →
  localStorage w !! "blogArticles" = Some (Json (VArr l)) →
  findRef (propIs "id" a) l = Ok (Some (i, article)) →
  numberOrZero (field "views" article) = Some k →
  - 9007199254740992 <= k < 9007199254740992 →
  articles w = VArr m →
  findRef (propIs "id" a) m = Ok (Some (j, old)) →
  incrementViewsSafely t now a w =
  (Ok (ViewResult true (withViews (k + 1) article)),
   viewedWorld w t a m j l i (withViews (k + 1) article)).
Proof.
  intros Hv Hfree Hstored Hfound Hviews Hbound Hm Hold.
  unfold incrementViewsSafely. mstep. fold (viewed a w). rewrite Hv.
  mstep.
  erewrite run_bind; [|by apply updateViewsWithLock_counts].
  destruct (findRef_propIs _ _ _ _ _ Hfound) as [_ (fs & -> & _)].
  cbn [withViews truthy]. mstep.
  cbn [articles countedWorld withSessionStorage]. rewrite Hm.
  rewrite (bind_lift _ _ _ m) by done. mstep.
  rewrite (bind_lift _ _ _ _ Hold). cbv beta iota. mstep. reflexivity.
Qed.

Lemma withViews_article n a : isArticle a = true → isArticle (withViews n a) = true.
Proof.
  destruct a; try done. unfold isArticle, isDated, createdAtOf, withViews.
  rewrite !getProp_obj. by rewrite !field_setField_ne.
Qed.

Lemma optionalAdmin_total cu : ∃ b, optionalAdmin cu = Ok b.
Proof.
  destruct cu; cbn; by eexists.
Qed.

Lemma syncAllViewDisplays_spec currentFilter searchTerm w l us cs :
  localStorage w !! "blogArticles" = Some (Json (VArr l)) →
  forallb isArticle l = true →
  users w = VArr us → comments w = VArr cs →
  syncAllViewDisplays currentFilter searchTerm w
  = (Ok tt, withArticles (VArr (sortedNewest l)) w).
Proof.
  intros Hstored Hl Hus Hcs. unfold syncAllViewDisplays.
  erewrite run_bind; [|by apply safeGetLocalStorage_other].
  rewrite Hstored. mstep.
  pose proof (objects_nonNull _ (articles_objects _ Hl)) as Hnn.
  erewrite run_bind; [|by apply (updateStats_spec _ l)].
  erewrite run_bind; [|by apply (renderRecentArticles_spec _ l)].
  erewrite run_bind;
    [|by apply (renderArticles_spec _ _ _ (sortedNewest l));
         [|apply sortedNewest_articles]].
  rewrite sortedNewest_idem.
  assert ((if bool_decide (currentFilter = "all") && bool_decide (searchTerm = "")
           then withArticles (VArr (sortedNewest l))
                  (withArticles (VArr (sortedNewest l)) (withArticles (VArr l) w))
           else withArticles (VArr (sortedNewest l)) (withArticles (VArr l) w))
          = withArticles (VArr (sortedNewest l)) w) as ->
    by (by destruct (_ && _)).
  mstep. destruct (optionalAdmin_total (currentUser w)) as (b & Hb).
  cbn [currentUser withArticles]. rewrite (bind_lift _ _ _ b Hb).
  destruct b; [|reflexivity].
  erewrite run_bind;
    [|by apply (renderMyArticles_spec _ (sortedNewest l));
         [|apply sortedNewest_articles]].
  rewrite sortedNewest_idem.
  by apply (renderAdminDashboard_spec _ (sortedNewest l) us cs).
Qed.

Lemma withViews_isJson n a : isJson a = true → isJson (withViews n a) = true.
Proof.
  destruct a; try done. cbn [withViews isJson]. intros H.
  by apply isJson_setField.
Qed.

(** X14.  [showArticle], the comments in memory being an array without
    [null] entries.  An identifier that no article of the memory has gives
    one notice (error, 5000 ms), no article, and no other change.  An
    article already viewed in this tab session is displayed as the memory
    has it, and the state is as before.  A first view that is not
    suppressed (no lock younger than a second, the article in the stored
    collection with [views] a number below 2^53 or missing), every stored
    article having a usable [createdAt] and a [title] and a [content] that
    are strings, displays the stored article with its [views] plus 1,
    stores the collection with that article updated, sets the marker, and
    leaves in memory the stored collection sorted newest first, whatever
    filter and search term are set. *)
Theorem showArticle_counts_once t now currentFilter searchTerm a w m :
  articles w = VArr m →
  (findRef (propIs "id" a) m = Ok None →
   showArticle t now currentFilter searchTerm a w =
   (Ok None, withNotifications
               (notifications w ++ [Notice MsgArticleNotFound Error 5000 true]) w)) ∧
  (∀ j old cs,
     findRef (propIs "id" a) m = Ok (Some (j, old)) →
     viewed a w = true →
     comments w = VArr cs → forallb nonNull cs = true →
     showArticle t now currentFilter searchTerm a w = (Ok (Some old), w)) ∧
  (∀ j old l i article k us cs,
     findRef (propIs "id" a) m = Ok (Some (j, old)) →
     viewed a w = false →
     tooFrequent (localStorage w !! lockKey a) now = false →
     localStorage w !! "blogArticles" = Some (Json (VArr l)) →
     forallb isJson l = true → forallb isArticle l = true →
     findRef (propIs "id" a) l = Ok (Some (i, article)) →
     numberOrZero (field "views" article) = Some k →
     - 9007199254740992 <= k < 9007199254740992 →
     users w = VArr us →
     comments w = VArr cs → forallb nonNull cs = true →
     ∃ w' article',
       showArticle t now currentFilter searchTerm a w = (Ok (Some article'), w') ∧
       field "views" article' = VNum (k + 1) ∧
       localStorage w' !! "blogArticles" = Some (Json (VArr (<[i := article']> l))) ∧
       articles w' = VArr (sortedNewest (<[i := article']> l)) ∧
       viewed a w' = true).
Proof.
  intros Hm. split; [|split].
  - intros Hnone. unfold showArticle. mstep. rewrite Hm.
    rewrite (bind_lift _ _ _ m) by done.
    rewrite (bind_lift _ _ _ _ Hnone). reflexivity.
  - intros j old cs Hold Hv Hcs Hnn. unfold showArticle. mstep. rewrite Hm.
    rewrite (bind_lift _ _ _ m) by done.
    rewrite (bind_lift _ _ _ _ Hold). cbv beta iota.
    rewrite (run_bind _ _ _ _ _ (incrementViewsSafely_viewed t now a w Hv)).
    cbn [increased updatedArticle]. mstep.
    by rewrite (run_bind _ _ _ _ _ (renderComments_spec _ w cs Hcs Hnn)).
  - intros j old l i article k us cs Hold Hv Hfree Hstored Hjson Hart Hfound Hk
      Hbound Hus Hcs Hnn.
    destruct (findRef_propIs _ _ _ _ _ Hfound) as [Hi (fs & -> & _)].
    set (article' := withViews (k + 1) (VObj fs)).
    assert (forallb isJson (<[i := article']> l) = true) as Hjson'.
    { apply forallb_insert; [done|]. apply withViews_isJson.
      by apply (isJson_lookup l i _ Hjson). }
    assert (forallb isArticle (<[i := article']> l) = true) as Hart'.
    { apply forallb_insert; [done|]. apply withViews_article.
      rewrite forallb_forall in Hart. apply Hart.
      apply list_elem_of_In, list_elem_of_lookup. eauto. }
    exists (mkWorld (VArr (sortedNewest (<[i := article']> l))) (users w)
              (comments w) (currentUser w)
              (<["blogArticles" := Json (VArr (<[i := article']> l))]>
                 (<[lockKey a := Json (VNum t)]> (localStorage w)))
              (<[viewedKey a := "true"]> (sessionStorage w))
              (timers w ++ [lockKey a]) (notifications w)), article'.
    split.
    { unfold showArticle. mstep. rewrite Hm.
      rewrite (bind_lift _ _ _ m) by done.
      rewrite (bind_lift _ _ _ _ Hold). cbv beta iota.
      erewrite run_bind; [|by eapply incrementViewsSafely_exact].
      cbn [increased updatedArticle]. fold article'. mstep.
      erewrite run_bind.
      2:{ apply (syncAllViewDisplays_spec _ _ _ (<[i := article']> l) us cs);
            [|done..].
          unfold viewedWorld. cbn [localStorage]. rewrite lookup_insert_eq.
          by rewrite (stringify_isJson (VArr _)). }
      erewrite run_bind; [|by apply (renderComments_spec _ _ cs)].
      unfold viewedWorld. cbn [withArticles]. rewrite (stringify_isJson (VArr _)) by done.
      reflexivity. }
    split; [apply field_withViews_eq|].
    cbn [localStorage articles]. split; [by rewrite lookup_insert_eq|].
    split; [done|]. unfold viewed. cbn [sessionStorage].
    by rewrite lookup_insert_eq.
Qed.

Lemma showArticle_counts_once_witness :
  showArticle 10000 10000 "tech" "post" "zz" viewWorld
    = (Ok None, withNotifications [Notice MsgArticleNotFound Error 5000 true]
                  viewWorld) ∧
  (∃ w' article',
     showArticle 10000 10000 "tech" "post" "a1" viewWorld = (Ok (Some article'), w') ∧
     field "views" article' = VNum (7 + 1) ∧
     localStorage w' !! "blogArticles"
       = Some (Json (VArr (<[0%nat := article']> [article1]))) ∧
     articles w' = VArr (sortedNewest (<[0%nat := article']> [article1])) ∧
     viewed "a1" w' = true ∧
     showArticle 20000 20000 "tech" "post" "a1" w' = (Ok (Some article'), w')).
Proof.
  destruct (showArticle_counts_once 10000 10000 "tech" "post" "zz" viewWorld
              [article1] eq_refl) as (H1 & _).
  destruct (showArticle_counts_once 10000 10000 "tech" "post" "a1" viewWorld
              [article1] eq_refl) as (_ & _ & H3).
  split; [by apply H1|].
  destruct (H3 0%nat article1 [article1] 0%nat article1 7 [] [])
    as (w' & article' & Hrun & Hviews & Hst & Hart & Hv); try reflexivity; [lia|].
  exists w', article'. repeat split; try assumption.
  destruct (showArticle_counts_once 20000 20000 "tech" "post" "a1" w'
              (sortedNewest (<[0%nat := article']> [article1])) Hart)
    as (_ & H2 & _).
  apply (H2 0%nat article' []); [|done| |reflexivity].
  - injection Hrun as <- <-. reflexivity.
  - injection Hrun as <- <-. reflexivity.
Defined.

(** *** The comment form *)

Lemma length_zero_empty s : String.length s = 0%nat → s = "".
Proof. by destruct s. Qed.

(** X15.  The comment form stores a comment exactly when it holds the
    identifier of an article, a nickname that is not blank and a text of 2
    to 1000 characters, white space at both ends not counted.  Then, the
    collection having no [null] entry, the comment, with the trimmed
    nickname and text, is appended to the collection and stored, and one
    notice (success) is added.  Otherwise one notice of level error is
    added and nothing else changes. *)
Theorem commentFormSubmit_boundary newId now articleId av cv w cs :
  comments w = VArr cs →
  (commentAccepted articleId av cv = true →
   forallb nonNull cs = true →
   ∃ a new,
     articleId = Some a ∧
     commentFormSubmit newId now articleId av cv w = (Ok true, postedWorld new cs w) ∧
     field "articleId" new = VStr a ∧
     field "author" new = VStr (trim av) ∧
     field "content" new = VStr (trim cv)) ∧
  (commentAccepted articleId av cv = false →
   ∃ note,
     commentFormSubmit newId now articleId av cv w
     = (Ok false, withNotifications (notifications w ++ [note]) w) ∧
     level note = Error).
Proof.
  intros Hcs. unfold commentAccepted, commentFormSubmit. split.
  - intros H Hnn. destruct articleId as [a|]; [|done].
    repeat (apply andb_prop in H as [H ?]).
    apply negb_true_iff in H, H2.
    apply Nat.leb_le in H0, H1.
    exists a, (newComment newId now a (trim av) (trim cv) (currentUser w)).
    split; [done|]. rewrite H, H2.
    assert (bool_decide (trim cv = "") = false) as ->.
    { apply bool_decide_eq_false_2. intros E. rewrite E in H1. simpl in H1. lia. }
    split.
    { apply submitComment_accepts; [by apply bool_decide_eq_false_1 in H
                                   |by apply bool_decide_eq_false_1 in H2
                                   |lia|done|done]. }
    unfold newComment, field. cbn. by rewrite !trim_idem.
  - intros H. destruct articleId as [a|]; [|by eexists].
    destruct (bool_decide (a = "")); [by eexists|].
    destruct (bool_decide (trim av = "")); [by eexists|].
    destruct (bool_decide (trim cv = "")) eqn:E; [by eexists|].
    cbn [negb andb] in H.
    apply submitComment_rejects.
    apply andb_false_iff in H as [H|H].
    + apply Nat.leb_gt in H. lia.
    + apply Nat.leb_gt in H. lia.
Qed.

Lemma commentFormSubmit_boundary_witness :
  (∃ a new,
     Some "a1" = Some a ∧
     commentFormSubmit "c9" 77 (Some "a1") " Al " " Hi " libraryWorld
       = (Ok true, postedWorld new [comment1] libraryWorld) ∧
     field "articleId" new = VStr a ∧
     field "author" new = VStr (trim " Al ") ∧
     field "content" new = VStr (trim " Hi ")) ∧
  (∃ note,
     commentFormSubmit "c9" 77 (Some "a1") " Al " " H " libraryWorld
     = (Ok false, withNotifications (notifications libraryWorld ++ [note])
                    libraryWorld) ∧
     level note = Error).
Proof.
  split.
  - refine (proj1 (commentFormSubmit_boundary "c9" 77 (Some "a1") " Al " " Hi "
                     libraryWorld [comment1] _) _ _); reflexivity.
  - refine (proj2 (commentFormSubmit_boundary "c9" 77 (Some "a1") " Al " " H "
                     libraryWorld [comment1] _) _); reflexivity.
Defined.

Lemma loadArticleComments_spec a w cs :
  comments w = VArr cs → forallb isObject cs = true →
  loadArticleComments a w = (Ok (commentsOf a cs), w).
Proof.
  intros Hcs Hobj. unfold loadArticleComments. mstep. rewrite Hcs.
  rewrite (bind_lift _ _ _ cs) by done.
  unfold lift. f_equal. apply filter_objects; [|done].
  intros x Hx. by apply propIs_object.
Qed.

(** X16.  A stored comment is found under its article, and only there.  After
    [submitComment] has accepted a comment for an article,
    [loadArticleComments] of that article returns the comments it had, in
    their order, followed by the new one; for every other article it
    returns what it returned before. *)
Theorem submit_then_load newId now a author content w cs :
  a ≠ "" → author ≠ "" →
  (2 <= String.length content <= 1000)%nat →
  comments w = VArr cs → forallb isObject cs = true →
  ∃ w' new,
    submitComment newId now a author content w = (Ok true, w') ∧
    field "content" new = VStr (trim content) ∧
    loadArticleComments a w' = (Ok (commentsOf a cs ++ [new])%list, w') ∧
    ∀ b, b ≠ a → loadArticleComments b w' = (Ok (commentsOf b cs), w').
Proof.
  intros Ha Hau Hlen Hcs Hobj.
  set (new := newComment newId now a author content (currentUser w)).
  exists (postedWorld new cs w), new.
  split; [by apply submitComment_accepts; [..|apply objects_nonNull]|].
  split; [done|].
  assert (forallb isObject (cs ++ [new])%list = true) as Hobj'
    by (apply forallb_snoc; [done|reflexivity]).
  split.
  - rewrite (loadArticleComments_spec a _ (cs ++ [new])%list) by done.
    unfold commentsOf. rewrite List.filter_app. cbn [List.filter].
    change (field "articleId" new) with (VStr a). cbn [eqStr].
    by rewrite bool_decide_eq_true_2.
  - intros b Hb.
    rewrite (loadArticleComments_spec b _ (cs ++ [new])%list) by done.
    unfold commentsOf. rewrite List.filter_app. cbn [List.filter].
    change (field "articleId" new) with (VStr a). cbn [eqStr].
    rewrite bool_decide_eq_false_2 by done. by rewrite app_nil_r.
Qed.

Lemma submit_then_load_witness :
  ∃ w' new,
    submitComment "c9" 77 "a2" "Al" "Hello" libraryWorld = (Ok true, w') ∧
    field "content" new = VStr (trim "Hello") ∧
    loadArticleComments "a2" w' = (Ok (commentsOf "a2" [comment1] ++ [new])%list, w') ∧
    ∀ b, b ≠ "a2" → loadArticleComments b w' = (Ok (commentsOf b [comment1]), w').
Proof.
  apply (submit_then_load "c9" 77 "a2" "Al" "Hello" libraryWorld [comment1]);
    try reflexivity; try discriminate.
  vm_compute. lia.
Defined.

(** X17.  The check made while typing and the check made on submission
    disagree.  A trimmed text of 2 to 4 characters, and one of at most 1000
    characters that is longer than the [maxlength] of the field (500 when
    the attribute is missing, not a number, or 0), is refused by
    [validateCommentInput] and stored by [submitComment], the collection
    of comments having no [null] entry. *)
Theorem live_validation_is_stricter newId now a author content maxlength w cs :
  a ≠ "" → author ≠ "" → trim content = content →
  comments w = VArr cs → forallb nonNull cs = true →
  ((2 <= String.length content < 5)%nat
   ∨ ((2 <= String.length content <= 1000)%nat
      ∧ maxLengthOr 500 maxlength < Z.of_nat (String.length content))) →
  validateCommentInput content maxlength = false ∧
  ∃ w', submitComment newId now a author content w = (Ok true, w') ∧
        comments w' =
          VArr (cs ++ [newComment newId now a author content (currentUser w)]).
Proof.
  intros Ha Hau Htrim Hcs Hnn Hlen. split.
  - unfold validateCommentInput. rewrite Htrim.
    destruct (Z.of_nat (String.length content) =? 0); [done|].
    destruct Hlen as [Hlen|[_ Hlen]].
    + assert ((Z.of_nat (String.length content) <? 5) = true) as ->
        by (apply Z.ltb_lt; lia). done.
    + destruct (Z.of_nat (String.length content) <? 5); [done|].
      apply Z.ltb_lt in Hlen. by rewrite Hlen.
  - exists (postedWorld (newComment newId now a author content (currentUser w))
              cs w).
    split; [|reflexivity].
    apply submitComment_accepts; try done.
    destruct Hlen as [Hlen|[Hlen _]]; lia.
Qed.

Lemma live_validation_is_stricter_witness :
  validateCommentInput "Hi" None = false ∧
  ∃ w', submitComment "c9" 77 "a1" "Al" "Hi" libraryWorld = (Ok true, w') ∧
        comments w' =
          VArr ([comment1] ++ [newComment "c9" 77 "a1" "Al" "Hi"
                                          (currentUser libraryWorld)]).
Proof.
  apply (live_validation_is_stricter "c9" 77 "a1" "Al" "Hi" None libraryWorld
           [comment1]); try reflexivity; try discriminate.
  left. vm_compute. lia.
Defined.

(** *** The pages of the user table *)

Ltac pages := unfold validPage, totalPages, pageSize in *;
              Z.div_mod_to_equations; lia.

Lemma slice_page {A} (s : Z) (l : list A) :
  0 <= s → slice s (s + pageSize) l = take 10 (drop (Z.to_nat s) l).
Proof.
  intros Hs. unfold slice, pageSize.
  assert ((s <? 0) = false) as -> by (apply Z.ltb_ge; lia).
  assert ((s + 10 <? 0) = false) as -> by (apply Z.ltb_ge; lia).
  destruct (decide (s <= Z.of_nat (length l))) as [Hle|Hgt].
  - rewrite (Z.min_l s) by lia.
    destruct (decide (s + 10 <= Z.of_nat (length l))) as [Hle'|Hgt'].
    + rewrite Z.min_l by lia. f_equal. lia.
    + rewrite Z.min_r by lia.
      rewrite !take_ge; [done| |]; rewrite length_drop; lia.
  - rewrite !Z.min_r by lia. rewrite Nat2Z.id.
    rewrite !drop_ge by lia. by rewrite !take_nil.
Qed.

Lemma pageOr1_some p : 1 <= p → pageOr1 (Some p) = p.
Proof.
  intros H. unfold pageOr1. destruct (p =? 0) eqn:E; [|done].
  apply Z.eqb_eq in E. lia.
Qed.

(** X18.  Turning pages stays within the table: when the current page (1
    while the field is unset) is one of the pages of the user table, it
    still is after [changeUserPage], whatever the step. *)
Theorem changeUserPage_stays_in_range p direction n :
  validPage p n → validPage (changeUserPage p direction n) n.
Proof.
  intros H. unfold changeUserPage.
  destruct ((1 <=? pageOr1 p + direction)
            && (pageOr1 p + direction <=? totalPages n)) eqn:E; [|done].
  apply andb_prop in E as [E1 E2]. apply Z.leb_le in E1, E2.
  unfold validPage. rewrite pageOr1_some by done. lia.
Qed.

Lemma changeUserPage_stays_in_range_witness :
  validPage (changeUserPage None 1 25) 25 ∧
  validPage (changeUserPage (Some 3) 1 25) 25 ∧
  changeUserPage (Some 3) 1 25 = Some 3.
Proof.
  split; [|split; [|reflexivity]].
  - apply (changeUserPage_stays_in_range None 1 25). vm_compute. split; discriminate.
  - apply (changeUserPage_stays_in_range (Some 3) 1 25). vm_compute.
    split; discriminate.
Defined.

(** X19.  The range shown under the user table is the page shown in it: on
    a page of the table, the users [renderUsersTable] takes are those at
    the positions [updateUserPagination] displays, first to last, counted
    from 1; they are at least 1 and at most 10. *)
Theorem page_shows_its_range p (l : list value) :
  validPage p (length l) →
  let '(first, last) := pageRange p (length l) in
  usersToShow p l = take (Z.to_nat (last - first + 1)) (drop (Z.to_nat (first - 1)) l) ∧
  Z.of_nat (length (usersToShow p l)) = last - first + 1 ∧
  1 <= last - first + 1 <= 10.
Proof.
  intros H. unfold pageRange, usersToShow.
  assert (1 <= pageOr1 p) as Hq by (unfold validPage in H; lia).
  assert (0 < Z.of_nat (length l)) as Hpos by pages.
  assert ((0 <? Z.of_nat (length l)) = true) as -> by (by apply Z.ltb_lt).
  rewrite slice_page by pages.
  set (q := pageOr1 p) in *.
  assert ((q - 1) * pageSize < Z.of_nat (length l)) as Hlt by pages.
  unfold pageSize in *.
  replace ((q - 1) * 10 + 1 - 1) with ((q - 1) * 10) by lia.
  assert (length (drop (Z.to_nat ((q - 1) * 10)) l)
          = Z.to_nat (Z.of_nat (length l) - (q - 1) * 10)) as Hd
    by (rewrite length_drop; lia).
  destruct (decide (q * 10 <= Z.of_nat (length l))) as [Hle|Hgt].
  - rewrite Z.min_l by lia.
    replace (Z.to_nat (q * 10 - ((q - 1) * 10 + 1) + 1)) with 10%nat by lia.
    split; [done|]. rewrite length_take, Hd. lia.
  - rewrite Z.min_r by lia.
    rewrite !take_ge by lia. split; [done|]. rewrite Hd. pages.
Qed.

Lemma page_shows_its_range_witness :
  let l := replicate 25 bob in
  usersToShow (Some 3) l = take 5 (drop 20 l) ∧
  Z.of_nat (length (usersToShow (Some 3) l)) = 25 - 21 + 1 ∧
  1 <= 25 - 21 + 1 <= 10.
Proof.
  apply (page_shows_its_range (Some 3) (replicate 25 bob)).
  vm_compute. split; discriminate.
Defined.

Lemma take_pages {A} (l : list A) k :
  concat ((fun p : nat => take 10 (drop (10 * p) l)) <$> seq 0 k) = take (10 * k) l.
Proof.
  induction k as [|k IH]; [by rewrite Nat.mul_0_r, take_0|].
  rewrite seq_S, fmap_app, concat_app, IH. cbn [fmap list_fmap concat plus].
  rewrite app_nil_r.
  replace (10 * S k)%nat with (10 * k + 10)%nat by lia.
  by rewrite take_take_drop.
Qed.

(** X20.  Every user is on one page: the users shown on the pages 1 to
    [Math.ceil(n / 10)], one page after the other, are the user table. *)
Theorem pages_partition (l : list value) :
  concat ((fun p => usersToShow p l) <$> firstPages (Z.to_nat (totalPages (length l))))
  = l.
Proof.
  unfold firstPages. rewrite <- list_fmap_compose.
  rewrite (list_fmap_ext _ (fun p : nat => take 10 (drop (10 * p) l))).
  - rewrite take_pages. apply take_ge. pages.
  - intros i p _. cbn [compose]. unfold usersToShow.
    rewrite pageOr1_some by lia. rewrite slice_page by (unfold pageSize; lia).
    do 2 f_equal. unfold pageSize. lia.
Qed.

(** X21.  A page beyond the end cannot be left.  [currentUserPage] is
    written by [changeUserPage] only; when the table has shrunk so that
    the current page is at least two pages past the last one, the table
    shows no user and neither a step forward nor a step back changes the
    page. *)
Theorem page_beyond_end_is_stuck p (l : list value) :
  totalPages (length l) + 2 <= pageOr1 p →
  usersToShow p l = [] ∧
  changeUserPage p 1 (length l) = p ∧
  changeUserPage p (-1) (length l) = p.
Proof.
  intros H. split; [|split].
  - unfold usersToShow. rewrite slice_page by pages.
    rewrite drop_ge by pages. apply take_nil.
  - unfold changeUserPage.
    assert ((pageOr1 p + 1 <=? totalPages (length l)) = false) as ->
      by (apply Z.leb_gt; lia).
    by rewrite andb_false_r.
  - unfold changeUserPage.
    assert ((pageOr1 p + -1 <=? totalPages (length l)) = false) as ->
      by (apply Z.leb_gt; lia).
    by rewrite andb_false_r.
Qed.

Lemma page_beyond_end_is_stuck_witness :
  let l := replicate 10 bob in
  usersToShow (Some 3) l = [] ∧
  changeUserPage (Some 3) 1 (length l) = Some 3 ∧
  changeUserPage (Some 3) (-1) (length l) = Some 3.
Proof.
  apply (page_beyond_end_is_stuck (Some 3) (replicate 10 bob)).
  vm_compute. discriminate.
Defined.

(** *** The digest and the administrator account *)

Lemma hashPassword_Aa_BB s :
  hashPassword (String "A" (String "a" s)) = hashPassword (String "B" (String "B" s)).
Proof. reflexivity. Qed.

(** X22.  Two passwords with one digest.  [hashPassword] gives 'Aa' and 'BB'
    followed by the same text the same digest, so a user whose password is
    'Aa' and four or more further characters is logged in with 'BB' and
    those characters, a different password: the handler returns normally
    with that user's session, the articles in memory being such that the
    home page renders (each with a usable [createdAt] and a [title] and a
    [content] that are strings). *)
Theorem login_accepts_colliding_password c uv s w l i user sorted :
  steadyStore w l →
  rendersTo w sorted →
  trim uv ≠ "" →
  (4 <= String.length s)%nat →
  findRef (propIs "username" (trim uv)) l = Ok (Some (i, user)) →
  lockElapsed c (field "lockedUntil" user) →
  field "password" user = VStr (hashPassword ("Aa" +:+ s)) →
  "Aa" +:+ s ≠ "BB" +:+ s ∧
  ∃ w2,
    handleLoginScreen c uv ("BB" +:+ s) w = (Ok tt, w2) ∧
    field "username" (currentUser w2) = VStr (trim uv).
Proof.
  intros Hsteady Hr Hname Hlen Hfound Hlock Hpass. split; [done|].
  destruct (login_steady c uv w l Hsteady)
    as (w1 & Hsync & Husers & _ & _ & _ & Harts).
  exists (loggedInWorld c w1 l i user sorted). split.
  - apply login_success; try done.
    + change (String.length ("BB" +:+ s)) with (S (S (String.length s))). lia.
    + by apply (rendersTo_articles w).
  - destruct (findRef_propIs _ _ _ _ _ Hfound) as [_ (fs & -> & Hn)].
    change (field "username" (VObj fs) = VStr (trim uv)).
    unfold field. simpl. by rewrite Hn.
Qed.

Lemma login_accepts_colliding_password_witness :
  "Aa" +:+ "1234" ≠ "BB" +:+ "1234" ∧
  ∃ w2,
    handleLoginScreen exampleClock "alice" ("BB" +:+ "1234")
                      (storing [adminAccount 0; alice]) = (Ok tt, w2) ∧
    field "username" (currentUser w2) = VStr (trim "alice").
Proof.
  apply (login_accepts_colliding_password exampleClock "alice" "1234"
           (storing [adminAccount 0; alice]) [adminAccount 0; alice] 1%nat alice
           []).
  - repeat split; vm_compute; reflexivity.
  - exists []. by repeat split.
  - vm_compute. discriminate.
  - vm_compute. lia.
  - vm_compute. reflexivity.
  - left. reflexivity.
  - reflexivity.
Defined.

Ltac not_listed :=
  let H := fresh in
  intros H; repeat (apply elem_of_cons in H as [H|H]; [discriminate|]);
  by apply elem_of_nil in H.

Lemma patchField_fold tfs ks fs b :
  ∃ fs' b',
    foldl (patchField (VObj tfs)) (Ok (VObj fs, b)) ks = Ok (VObj fs', b') ∧
    (b = true → b' = true) ∧
    ((∀ k, k ∈ ks → is_Some (lookupField k fs)) → fs' = fs ∧ b' = b) ∧
    (∀ k, k ∉ ks → lookupField k fs' = lookupField k fs).
Proof.
  revert fs b. induction ks as [|k ks IH]; intros fs b; cbn [foldl].
  - by exists fs, b.
  - unfold patchField at 2. cbn [mbind outcome_bind hasProp].
    destruct (bool_decide (is_Some (lookupField k fs))) eqn:E.
    + destruct (IH fs b) as (fs' & b' & Hrun & Hb & Hsame & Hp).
      exists fs', b'. split; [done|]. split; [done|]. split.
      * intros Hall. apply Hsame. intros k' Hk'. apply Hall. by right.
      * intros k' Hk'. apply Hp. intros H. apply Hk'. by right.
    + rewrite getProp_obj. cbn [mbind outcome_bind setProp].
      destruct (IH (setField k (field k (VObj tfs)) fs) true)
        as (fs' & b' & Hrun & Hb & _ & Hp).
      exists fs', b'. split; [done|]. split; [auto|]. split.
      * intros Hall. apply bool_decide_eq_false_1 in E. destruct E.
        apply Hall. by left.
      * intros k' Hk'. apply not_elem_of_cons in Hk' as [Hne Hk'].
        rewrite (Hp k' Hk'). by apply lookupField_setField_ne.
Qed.

Lemma hasProp_is_Some k fs :
  hasProp k (VObj fs) = Ok true → is_Some (lookupField k fs).
Proof. cbn. intros [= H]. by apply bool_decide_eq_true_1 in H. Qed.

(** X23.  [initializeAdminAccount] puts the administrator's password back.
    When the stored entry of 'zcr' has another digest than the built-in
    one, the call replaces the entry by one with the built-in digest, in
    memory and in the storage, and returns the table.  When the digest is
    the built-in one and the entry has an [id], [isAdmin], an [email] and
    [createdAt], nothing is written. *)
Theorem initializeAdminAccount_restores_password now w l i admin :
  steadyUsers w l →
  findRef (propIs "username" "zcr") l = Ok (Some (i, admin)) →
  (field "password" admin ≠ VStr adminDigest →
   ∃ admin',
     let us := VArr (<[i := admin']> l) in
     initializeAdminAccount now w =
     (Ok us, withLocalStorage (<["blogUsers" := stringify us]> (localStorage w))
               (withUsers us w)) ∧
     field "password" admin' = VStr adminDigest ∧
     field "username" admin' = VStr "zcr") ∧
  (field "password" admin = VStr adminDigest →
   (∀ k, k ∈ ["id"; "isAdmin"; "email"; "createdAt"] → hasProp k admin = Ok true) →
   initializeAdminAccount now w = (Ok (VArr l), withUsers (VArr l) w)).
Proof.
  intros Hst Hfound.
  destruct (findRef_propIs _ _ _ _ _ Hfound) as [Hi (fs & -> & Hname)].
  set (tfs := [("id", VStr "admin-original"); ("username", VStr "zcr");
               ("password", VStr adminDigest); ("isAdmin", VBool true);
               ("email", VStr "zcr@blog.com"); ("createdAt", VIso now);
               ("lastLogin", VNull); ("loginAttempts", VNum 0);
               ("lockedUntil", VNull)]).
  split.
  - intros Hstale.
    assert (eqStr (field "password" (VObj fs)) adminDigest = false) as Heq.
    { destruct (eqStr _ _) eqn:E; [|done]. by apply eqStr_true in E. }
    destruct (patchField_fold tfs ["id"; "isAdmin"; "email"; "createdAt"]
                (setField "password" (VStr adminDigest) fs) true)
      as (fs' & b' & Hrun & Hb & _ & Hp).
    rewrite (Hb eq_refl) in Hrun.
    exists (VObj fs'). split; [|split].
    + unfold initializeAdminAccount.
      rewrite (run_bind _ _ _ _ _ (safeGetLocalStorage_users_steady _ _ _ Hst)).
      mstep. rewrite (bind_lift _ _ _ l) by done. mstep.
      rewrite (bind_lift _ _ _ _ Hfound). cbv beta iota. mstep.
      rewrite (bind_lift _ _ _ _ (getProp_obj _ _)). mstep. rewrite Heq.
      cbn [negb]. mstep.
      erewrite bind_lift; [|reflexivity]. mstep.
      erewrite bind_lift; [|exact Hrun]. cbv beta iota. mstep.
      reflexivity.
    + unfold field. cbn. rewrite Hp by not_listed.
      by rewrite lookupField_setField_eq.
    + unfold field. cbn. rewrite Hp by not_listed.
      rewrite lookupField_setField_ne by done. by rewrite Hname.
  - intros Hpw Hall.
    destruct (patchField_fold tfs ["id"; "isAdmin"; "email"; "createdAt"] fs false)
      as (fs' & b' & Hrun & _ & Hsame & _).
    destruct Hsame as [-> ->].
    { intros k Hk. by apply hasProp_is_Some, Hall. }
    unfold initializeAdminAccount.
    rewrite (run_bind _ _ _ _ _ (safeGetLocalStorage_users_steady _ _ _ Hst)).
    mstep. rewrite (bind_lift _ _ _ l) by done. mstep.
    rewrite (bind_lift _ _ _ _ Hfound). cbv beta iota. mstep.
    rewrite (bind_lift _ _ _ _ (getProp_obj _ _)). mstep. rewrite Hpw.
    cbn [eqStr]. rewrite bool_decide_eq_true_2 by done. cbn [negb]. mstep.
    erewrite bind_lift; [|exact Hrun]. cbv beta iota. mstep.
    by rewrite list_insert_id.
Qed.

Lemma initializeAdminAccount_restores_password_witness :
  (∃ admin',
     let us := VArr (<[0%nat := admin']> [tamperedAdmin; bob]) in
     initializeAdminAccount 7 (storing [tamperedAdmin; bob]) =
     (Ok us, withLocalStorage
               (<["blogUsers" := stringify us]>
                  (localStorage (storing [tamperedAdmin; bob])))
               (withUsers us (storing [tamperedAdmin; bob]))) ∧
     field "password" admin' = VStr adminDigest ∧
     field "username" admin' = VStr "zcr") ∧
  initializeAdminAccount 7 exampleWorld
    = (Ok (VArr [adminAccount 0; bob]),
       withUsers (VArr [adminAccount 0; bob]) exampleWorld).
Proof.
  split.
  - refine (proj1 (initializeAdminAccount_restores_password 7
                     (storing [tamperedAdmin; bob]) [tamperedAdmin; bob] 0%nat
                     tamperedAdmin _ _) _).
    + repeat split; vm_compute; reflexivity.
    + reflexivity.
    + vm_compute. discriminate.
  - refine (proj2 (initializeAdminAccount_restores_password 7 exampleWorld
                     [adminAccount 0; bob] 0%nat (adminAccount 0) _ _) _ _).
    + repeat split; vm_compute; reflexivity.
    + reflexivity.
    + reflexivity.
    + intros k Hk.
      repeat (apply elem_of_cons in Hk as [->|Hk]; [reflexivity|]).
      by apply elem_of_nil in Hk.
Defined.

(** *** Locking a user, deleting a comment *)

Lemma toggled_keeps user f :
  f ≠ "isLocked" → field f (toggled user) = field f user.
Proof. intros H. destruct user; try done. by apply field_setField_ne. Qed.

Lemma toggled_flag fs :
  field "isLocked" (toggled (VObj fs))
  = VBool (negb (truthy (field "isLocked" (VObj fs)))).
Proof. apply field_setField_eq. Qed.

(** X24.  [lockUser] is a switch.  Two calls for a user other than the
    administrator return normally, store the table, and leave the user
    with every property as before but [isLocked], which is the boolean the
    old value counted as; the two notices say locked and unlocked in
    turn. *)
Theorem lockUser_twice name w l i user :
  name ≠ "zcr" →
  users w = VArr l →
  findRef (propIs "username" name) l = Ok (Some (i, user)) →
  ∃ w1 w2 user2,
    lockUser name w = (Ok tt, w1) ∧
    lockUser name w1 = (Ok tt, w2) ∧
    users w2 = VArr (<[i := user2]> l) ∧
    localStorage w2 !! "blogUsers" = Some (stringify (users w2)) ∧
    field "isLocked" user2 = VBool (truthy (field "isLocked" user)) ∧
    (∀ f, f ≠ "isLocked" → field f user2 = field f user) ∧
    List.map text (drop (length (notifications w)) (notifications w2))
      = [MsgUserLocked name (negb (truthy (field "isLocked" user)));
         MsgUserLocked name (truthy (field "isLocked" user))].
Proof.
  intros Hn Hus Hfound.
  destruct (findRef_propIs _ _ _ _ _ Hfound) as [Hi (fs & -> & Hname)].
  pose proof (lockUser_toggles name w l i (VObj fs) Hn Hus Hfound) as H1.
  cbv zeta in H1.
  match type of H1 with _ = (_, ?x) => set (w1 := x) in * end.
  assert (findRef (propIs "username" name) (<[i := toggled (VObj fs)]> l)
          = Ok (Some (i, toggled (VObj fs)))) as Hfound'.
  { eapply findRef_insert; [done|]. unfold propIs. cbn [toggled].
    rewrite getProp_obj. cbn [mbind outcome_bind].
    rewrite field_setField_ne by done. unfold field. cbn. rewrite Hname. cbn.
    by rewrite bool_decide_eq_true_2. }
  pose proof (lockUser_toggles name w1 _ i _ Hn eq_refl Hfound') as H2.
  cbv zeta in H2.
  eexists w1, _, (toggled (toggled (VObj fs))).
  split; [done|]. split; [exact H2|].
  cbn [users localStorage notifications w1].
  split; [by rewrite list_insert_insert_eq|].
  split; [by rewrite lookup_insert_eq|]. split.
  { cbn [toggled]. rewrite field_setField_eq. rewrite field_setField_eq.
    cbn [truthy]. by rewrite negb_involutive. }
  split.
  { intros f Hf. by rewrite !toggled_keeps. }
  rewrite <- app_assoc, drop_app_length. cbn [List.map text].
  rewrite toggled_flag. cbn [truthy]. by rewrite negb_involutive.
Qed.

Lemma lockUser_twice_witness :
  ∃ w1 w2 user2,
    lockUser "bob" guestWorld = (Ok tt, w1) ∧
    lockUser "bob" w1 = (Ok tt, w2) ∧
    users w2 = VArr (<[1%nat := user2]> [adminAccount 0; bob]) ∧
    localStorage w2 !! "blogUsers" = Some (stringify (users w2)) ∧
    field "isLocked" user2 = VBool (truthy (field "isLocked" bob)) ∧
    (∀ f, f ≠ "isLocked" → field f user2 = field f bob) ∧
    List.map text (drop (length (notifications guestWorld)) (notifications w2))
      = [MsgUserLocked "bob" (negb (truthy (field "isLocked" bob)));
         MsgUserLocked "bob" (truthy (field "isLocked" bob))].
Proof.
  apply (lockUser_twice "bob" guestWorld [adminAccount 0; bob] 1%nat bob).
  - discriminate.
  - reflexivity.
  - vm_compute. reflexivity.
Defined.

Lemma findRef_first k s l i x :
  findRef (propIs k s) l = Ok (Some (i, x)) →
  Forall (fun c => field k c ≠ VStr s) (take i l).
Proof.
  revert i. induction l as [|y l IH]; intros i; cbn [findRef]; [done|].
  destruct (propIs k s y) as [[]| |] eqn:Ep; cbn [mbind outcome_bind]; try done.
  - intros [= <- <-]. constructor.
  - destruct (findRef (propIs k s) l) as [[[j z]|]| |]; try done.
    cbn. intros [= <- <-]. cbn [take]. constructor; [|by apply IH].
    unfold propIs in Ep. unfold field.
    destruct (getProp y k) as [v| |]; try done. cbn in Ep.
    intros ->. cbn in Ep. by rewrite bool_decide_eq_true_2 in Ep.
Qed.

Lemma forallb_delete {A} (f : A → bool) i l :
  forallb f l = true → forallb f (delete i l) = true.
Proof.
  revert i. induction l as [|x l IH]; intros [|i]; cbn; try done.
  - by intros [_ ?]%andb_prop.
  - intros [Hx ?]%andb_prop. rewrite Hx. by apply IH.
Qed.

(** X25.  [deleteComment] by the administrator, confirmed, the collection
    having no [null] entry, removes one comment: the first of the
    collection with the identifier; the comments before and after it keep
    their order, the collection is stored and one notice (success,
    2500 ms) is added.  When the dialog is declined the state is as
    before. *)
Theorem deleteComment_removes_one commentId w cs i comment :
  sessionIsAdmin (currentUser w) = true →
  comments w = VArr cs → forallb nonNull cs = true →
  findRef (propIs "id" commentId) cs = Ok (Some (i, comment)) →
  deleteComment true commentId w =
  (Ok tt,
   mkWorld (articles w) (users w) (VArr (delete i cs)) (currentUser w)
     (<["blogComments" := stringify (VArr (delete i cs))]> (localStorage w))
     (sessionStorage w) (timers w)
     (notifications w ++ [Notice MsgCommentDeleted Success 2500 true])) ∧
  delete i cs = (take i cs ++ drop (S i) cs)%list ∧
  cs !! i = Some comment ∧ field "id" comment = VStr commentId ∧
  Forall (fun c => field "id" c ≠ VStr commentId) (take i cs) ∧
  deleteComment false commentId w = (Ok tt, w).
Proof.
  intros Hadmin Hcs Hnn Hfound.
  destruct (findRef_propIs _ _ _ _ _ Hfound) as [Hi (fs & -> & Hid)].
  split; [|split; [|split; [|split; [|split]]]].
  - unfold deleteComment.
    rewrite (run_bind _ _ _ _ _ (notAdmin_spec w)). rewrite Hadmin.
    cbn [negb]. mstep. rewrite Hcs.
    rewrite (bind_lift _ _ _ cs) by done.
    rewrite (bind_lift _ _ _ _ Hfound). cbv beta iota.
    unfold saveComments. mstep.
    rewrite (bind_lift _ _ _ _ (getProp_obj fs "articleId")).
    erewrite run_bind;
      [|by apply (renderComments_spec _ _ (delete i cs)); [|apply forallb_delete]].
    reflexivity.
  - apply delete_take_drop.
  - done.
  - unfold field. cbn. by rewrite Hid.
  - by eapply findRef_first.
  - unfold deleteComment.
    rewrite (run_bind _ _ _ _ _ (notAdmin_spec w)). by rewrite Hadmin.
Qed.

Lemma deleteComment_removes_one_witness :
  deleteComment true "c2" moderatorWorld =
  (Ok tt,
   mkWorld (articles moderatorWorld) (users moderatorWorld) (VArr [comment1])
     (currentUser moderatorWorld)
     (<["blogComments" := stringify (VArr [comment1])]>
        (localStorage moderatorWorld))
     (sessionStorage moderatorWorld) (timers moderatorWorld)
     (notifications moderatorWorld
        ++ [Notice MsgCommentDeleted Success 2500 true])) ∧
  delete 1%nat [comment1; comment2]
    = (take 1 [comment1; comment2] ++ drop 2 [comment1; comment2])%list ∧
  [comment1; comment2] !! 1%nat = Some comment2 ∧
  field "id" comment2 = VStr "c2" ∧
  Forall (fun c => field "id" c ≠ VStr "c2") (take 1 [comment1; comment2]) ∧
  deleteComment false "c2" moderatorWorld = (Ok tt, moderatorWorld).
Proof.
  apply (deleteComment_removes_one "c2" moderatorWorld [comment1; comment2]
           1%nat comment2); reflexivity.
Defined.

(** *** Loading *)





(** *** The check of the view statistics *)

Lemma repairViews_spec l :
  forallb countsViews l = true →
  repairViews l = (repaired <$> l, Ok (missingViews l)).
Proof.
  unfold missingViews.
  induction l as [|a l IH]; cbn [forallb repairViews fmap list_fmap List.filter];
    [done|].
  intros H. apply andb_prop in H as [Ha Hl]. rewrite (IH Hl).
  unfold countsViews in Ha. apply andb_prop in Ha as [Hobj Hv].
  destruct a as [| | | | | | |fs]; try done.
  rewrite getProp_obj. unfold repaired, lacksViews.
  destruct (field "views" (VObj fs)); try done.
Qed.

Lemma repaired_hasViews a : countsViews a = true → hasViews (repaired a) = true.
Proof.
  unfold countsViews, hasViews, repaired, lacksViews.
  intros H. apply andb_prop in H as [Hobj Hv].
  destruct a as [| | | | | | |fs]; try done.
  destruct (field "views" (VObj fs)) eqn:E; try done;
    cbn [withViews isObject andb]; rewrite ?field_setField_eq, ?E; done.
Qed.

Lemma totalViews_spec l sum :
  forallb hasViews l = true → forallb viewsNotNegative l = true →
  0 <= sum → sum + sumViews l <= 9007199254740992 →
  totalViews sum l = Ok (sum + sumViews l).
Proof.
  revert sum.
  induction l as [|a l IH]; intros sum; cbn [forallb totalViews sumViews foldr].
  - intros _ _ _ _. f_equal. lia.
  - intros H Hn Hsum Hmax.
    apply andb_prop in H as [Ha Hl]. apply andb_prop in Hn as [Hna Hnl].
    fold (sumViews l) in Hmax |- *.
    assert (0 <= sumViews l) as Hrest.
    { clear -Hnl. induction l as [|b l IH]; cbn [sumViews foldr forallb] in *; [lia|].
      apply andb_prop in Hnl as [Hb Hl]. apply Z.leb_le in Hb.
      specialize (IH Hl). fold (sumViews l). lia. }
    unfold hasViews in Ha. apply andb_prop in Ha as [Hobj Hv].
    unfold viewsNotNegative in Hna. apply Z.leb_le in Hna.
    destruct a as [| | | | | | |fs]; try done.
    rewrite getProp_obj. unfold viewsOf in *.
    destruct (field "views" (VObj fs)) as [| | |n| | | |]; try done.
    unfold mbind, outcome_bind.
    assert (jsOr (VNum n) (VNum 0) = VNum n ∨ (n = 0 ∧ jsOr (VNum n) (VNum 0) = VNum 0))
      as [->|[-> ->]].
    { unfold jsOr, truthy. destruct (n =? 0) eqn:E; cbn [negb]; [|by left].
      apply Z.eqb_eq in E. by right. }
    + assert (exact n && exact (sum + n) = true) as ->.
      { unfold exact, maxSafe.
        repeat (apply andb_true_intro; split); apply Z.leb_le; lia. }
      rewrite (IH (sum + n)) by (done || lia). f_equal. lia.
    + assert (exact 0 && exact (sum + 0) = true) as ->.
      { unfold exact, maxSafe.
        repeat (apply andb_true_intro; split); apply Z.leb_le; lia. }
      rewrite (IH (sum + 0)) by (done || lia). f_equal. lia.
Qed.

Lemma viewsOf_repaired a : countsViews a = true → viewsOf (repaired a) = viewsOf a.
Proof.
  unfold countsViews, repaired, lacksViews, viewsOf.
  intros H. apply andb_prop in H as [Hobj Hv].
  destruct a as [| | | | | | |fs]; try done.
  destruct (field "views" (VObj fs)) eqn:E; try done;
    cbn [withViews]; by rewrite ?field_setField_eq, ?E.
Qed.

Lemma sumViews_repaired l :
  forallb countsViews l = true → sumViews (repaired <$> l) = sumViews l.
Proof.
  induction l as [|a l IH]; cbn [forallb fmap list_fmap sumViews foldr]; [done|].
  intros H. apply andb_prop in H as [Ha Hl].
  fold (sumViews (repaired <$> l)). fold (sumViews l).
  by rewrite (viewsOf_repaired _ Ha), (IH Hl).
Qed.

Lemma viewsNotNegative_repaired l :
  forallb countsViews l = true → forallb viewsNotNegative l = true →
  forallb viewsNotNegative (repaired <$> l) = true.
Proof.
  induction l as [|a l IH]; cbn [forallb fmap list_fmap]; [done|].
  intros H Hn. apply andb_prop in H as [Ha Hl]. apply andb_prop in Hn as [Hna Hnl].
  rewrite (IH Hl Hnl). unfold viewsNotNegative in *.
  by rewrite (viewsOf_repaired _ Ha), Hna.
Qed.

Lemma mismatch_decide (displayed : option Z) total :
  negb (match displayed with Some d => total =? d | None => false end)
  = negb (bool_decide (displayed = Some total)).
Proof.
  destruct displayed as [d|]; [|done]. f_equal.
  destruct (Z.eqb_spec total d) as [->|Hne].
  - by rewrite bool_decide_eq_true_2.
  - rewrite bool_decide_eq_false_2; [done|]. intros [= ->]. done.
Qed.

Lemma hasViews_counts a : hasViews a = true → countsViews a = true.
Proof.
  unfold hasViews, countsViews. intros H. apply andb_prop in H as [-> Hv].
  by destruct (field "views" a).
Qed.

Lemma hasViews_kept l :
  forallb hasViews l = true → repaired <$> l = l ∧ missingViews l = 0%nat.
Proof.
  unfold missingViews.
  induction l as [|a l IH]; cbn [forallb fmap list_fmap List.filter]; [done|].
  intros H. apply andb_prop in H as [Ha Hl]. destruct (IH Hl) as [-> Hm].
  unfold hasViews in Ha. apply andb_prop in Ha as [_ Hv].
  unfold repaired, lacksViews.
  by destruct (field "views" a).
Qed.

Lemma forallb_fmap {A B} (f : A → B) (p : B → bool) (q : A → bool) l :
  (∀ a, q a = true → p (f a) = true) →
  forallb q l = true → forallb p (f <$> l) = true.
Proof.
  intros Hf. induction l as [|a l IH]; cbn [forallb fmap list_fmap]; [done|].
  intros H. apply andb_prop in H as [Ha Hl]. by rewrite (Hf a Ha), IH.
Qed.

Lemma validateViewStats_run displayed w l :
  articles w = VArr l → forallb countsViews l = true →
  forallb viewsNotNegative l = true → sumViews l <= 9007199254740992 →
  let l' := repaired <$> l in
  let issues := (missingViews l
                 + (if bool_decide (displayed = Some (sumViews l)) then 0 else 1))%nat in
  validateViewStats displayed w =
  (Ok (issues, sumViews l),
   (if (0 <? issues)%nat
    then withNotifications
           (notifications w ++ [Notice (MsgViewStatsIssues issues) Warning 5000 true])
    else id) (withArticles (VArr l') w)).
Proof.
  intros Ha Hl Hn Hmax l' issues. unfold validateViewStats. mstep. rewrite Ha.
  rewrite (bind_lift _ _ _ l) by done.
  rewrite (repairViews_spec _ Hl). mstep.
  rewrite (bind_lift _ _ _ (missingViews l)) by done.
  rewrite (bind_lift _ _ _ (sumViews l)).
  2:{ rewrite (totalViews_spec (repaired <$> l) 0).
      - by rewrite (sumViews_repaired _ Hl).
      - by apply (forallb_fmap _ _ _ _ repaired_hasViews).
      - by apply viewsNotNegative_repaired.
      - done.
      - by rewrite (sumViews_repaired _ Hl). }
  rewrite mismatch_decide.
  assert ((missingViews l
           + (if negb (bool_decide (displayed = Some (sumViews l))) then 1 else 0))%nat
          = issues) as -> by (unfold issues; by destruct (bool_decide _)).
  destruct (0 <? issues)%nat; reflexivity.
Qed.

(** X27.  [validateViewStats] repairs what it reports.  When every article
    has [views] a number that is not negative, or missing, and the sum of
    the counters is at most 2^53, the call returns normally; every article
    then has a number as [views], the total it leaves in the element is
    their sum, which is the sum before the repair; the issues are the
    articles that had no [views], and one more exactly when the total that
    was displayed is not that sum; the storage is not written.  A second
    call, reading the total the first one left, finds no issue and changes
    nothing. *)
Theorem validateViewStats_repairs displayed w l :
  articles w = VArr l → forallb countsViews l = true →
  forallb viewsNotNegative l = true → sumViews l <= 9007199254740992 →
  ∃ issues total l' w1,
    validateViewStats displayed w = (Ok (issues, total), w1) ∧
    articles w1 = VArr l' ∧
    forallb hasViews l' = true ∧
    total = sumViews l' ∧ total = sumViews l ∧
    issues = (missingViews l
              + (if bool_decide (displayed = Some total) then 0 else 1))%nat ∧
    localStorage w1 = localStorage w ∧
    validateViewStats (Some total) w1 = (Ok (0%nat, total), w1).
Proof.
  intros Ha Hl Hn Hmax.
  pose proof (forallb_fmap _ _ _ _ repaired_hasViews Hl) as Hl'.
  pose proof (sumViews_repaired _ Hl) as Hsum.
  eexists _, _, (repaired <$> l), _.
  split; [by apply validateViewStats_run|].
  split; [by destruct (0 <? _)%nat|]. split; [done|]. split; [done|].
  split; [done|]. split; [done|]. split; [by destruct (0 <? _)%nat|].
  match goal with |- validateViewStats _ ?w0 = _ => set (w1 := w0) end.
  assert (articles w1 = VArr (repaired <$> l)) as Ha1
    by (unfold w1; by destruct (0 <? _)%nat).
  assert (forallb countsViews (repaired <$> l) = true) as Hc.
  { apply forallb_forall. intros a Hin. apply hasViews_counts.
    by apply (proj1 (forallb_forall _ _) Hl'). }
  pose proof (validateViewStats_run (Some (sumViews l)) w1 _ Ha1 Hc
                (viewsNotNegative_repaired _ Hl Hn)) as Hrun.
  cbv zeta in Hrun. rewrite Hsum in Hrun. specialize (Hrun Hmax).
  rewrite Hrun. clear Hrun.
  destruct (hasViews_kept _ Hl') as [-> ->].
  rewrite bool_decide_eq_true_2 by done. cbn [Nat.add Nat.ltb Nat.leb id].
  f_equal. rewrite <- Ha1. by destruct w1.
Qed.

Lemma validateViewStats_repairs_witness :
  ∃ issues total l' w1,
    validateViewStats (Some 8) (withArticles (VArr [uncounted; article1]) emptyWorld)
      = (Ok (issues, total), w1) ∧
    articles w1 = VArr l' ∧
    forallb hasViews l' = true ∧
    total = sumViews l' ∧ total = sumViews [uncounted; article1] ∧
    issues = (missingViews [uncounted; article1]
              + (if bool_decide (Some 8%Z = Some total) then 0 else 1))%nat ∧
    localStorage w1
      = localStorage (withArticles (VArr [uncounted; article1]) emptyWorld) ∧
    validateViewStats (Some total) w1 = (Ok (0%nat, total), w1).
Proof.
  apply (validateViewStats_repairs (Some 8)
           (withArticles (VArr [uncounted; article1]) emptyWorld)
           [uncounted; article1]); try reflexivity.
  vm_compute. discriminate.
Defined.
